(** * fin-tx-ai-agent: retry policy, error classifier and watermark pollers

    A shallow embedding of the Python sources
    - [app/main.py]            (retry decorator, deposit / withdraw / transfer),
    - [app/agent.py]           (rule based classifier, HTML report, one-shot poller),
    - [app/ai_agent.py]        (summarising poller, [run_once]),
    - [app/monitor_errors.py]  (console monitor script),
    followed by the properties of the specification that concern them.

    Conventions.  Python [str] values are Rocq strings whose characters are
    read as the code points 0..255.  Python [int] is [Z], Python [float] is
    the primitive binary64 [float].  A Python function that can raise returns
    an [outcome]; a function with effects is a state transformer over an
    explicit world that also records the calls made to the collaborators
    (database, SMTP server, console). *)

From Stdlib Require Import ZArith Floats Uint63 Ascii String DecimalString DecimalZ DecimalPos Sorted.
From stdpp Require Import base option gmap strings list.

Local Open Scope Z_scope.
Local Open Scope string_scope.

(* Decimal literals such as 0.8 denote the nearest binary64 value, as in
   Python. *)
Set Warnings "-inexact-float".

(** ** Python values *)

Module Py.

(** The values met in a row of the error log or in the [args] of an
    exception.  A [str] is limited to the code points below 256. *)
Inductive pyval : Type :=
| PyNone
| PyBool (b : bool)
| PyInt (z : Z)
| PyStr (s : string).

(** Exceptions that the modelled code can meet.  All of them derive from
    [Exception]; [PyodbcError] is [pyodbc.Error] (or a subclass) with its
    [args] tuple. *)
Inductive exn : Type :=
| PyodbcError (args : list pyval)
| OtherError (cls : string) (args : list pyval).

Definition ValueError (literal : string) : exn := OtherError "ValueError" [PyStr literal].
Definition TypeError (what : string) : exn := OtherError "TypeError" [PyStr what].
Definition SMTPException : exn := OtherError "SMTPException" [].

(** [ex.args] and [isinstance(ex, pyodbc.Error)]. *)
Definition args_of (ex : exn) : list pyval :=
  match ex with
  | PyodbcError args => args
  | OtherError _ args => args
  end.

Definition is_pyodbc_error (ex : exn) : bool :=
  match ex with
  | PyodbcError _ => true
  | OtherError _ _ => false
  end.

Inductive outcome (A : Type) : Type :=
| Return (a : A)
| Raise (e : exn).
Arguments Return {A} a.
Arguments Raise {A} e.

Definition bind_outcome {A B} (m : outcome A) (k : A -> outcome B) : outcome B :=
  match m with
  | Return a => k a
  | Raise e => Raise e
  end.

(** [try: body / except Exception: handler]. *)
Definition try_except {A} (body : outcome A) (handler : exn -> outcome A) : outcome A :=
  match body with
  | Return a => Return a
  | Raise e => handler e
  end.

Definition code (c : ascii) : N := N_of_ascii c.

(** [c.isdigit()] for a code point below 256: the ASCII digits and the
    superscripts two, three and one (Numeric_Type=Digit). *)
Definition char_isdigit (c : ascii) : bool :=
  ((48 <=? code c) && (code c <=? 57))%N
  || (code c =? 178)%N || (code c =? 179)%N || (code c =? 185)%N.

(** The code points below 256 that [str.split()] treats as white space. *)
Definition char_isspace (c : ascii) : bool :=
  ((9 <=? code c) && (code c <=? 13))%N
  || ((28 <=? code c) && (code c <=? 32))%N
  || (code c =? 133)%N || (code c =? 160)%N.

Fixpoint all_chars (p : ascii -> bool) (s : string) : bool :=
  match s with
  | EmptyString => true
  | String c s' => p c && all_chars p s'
  end.

(** [s.isdigit()]: at least one character and every character a digit. *)
Definition isdigit (s : string) : bool :=
  match s with
  | EmptyString => false
  | String _ _ => all_chars char_isdigit s
  end.

(** [s.replace(old, new)] for one-character [old] and [new]. *)
Fixpoint replace_char (old new : ascii) (s : string) : string :=
  match s with
  | EmptyString => EmptyString
  | String c s' =>
      String (if Ascii.eqb c old then new else c) (replace_char old new s')
  end.

(** [s.split()]: maximal runs of non-space characters, in order.  [cur] is
    the token being read, if any. *)
Fixpoint split_from (cur : option string) (s : string) : list string :=
  match s with
  | EmptyString =>
      match cur with
      | Some tok => [tok]
      | None => []
      end
  | String c s' =>
      if char_isspace c then
        match cur with
        | Some tok => tok :: split_from None s'
        | None => split_from None s'
        end
      else split_from (Some (default EmptyString cur +:+ String c EmptyString)) s'
  end.

Definition split (s : string) : list string := split_from None s.

(** [str(n)] for an [int].  (Integers are taken below the bound that the
    interpreter puts on conversions between [int] and [str], see
    [int_max_str_digits]: the bound is far above the ids of an INT column
    and the counters that the modelled code converts.) *)
Definition str_of_int (z : Z) : string := NilZero.string_of_int (Z.to_int z).

(** The code points below 256 that [int()] skips around a number: those of
    [str.split()] but the separators 28 to 31. *)
Definition char_isspace_int (c : ascii) : bool :=
  ((9 <=? code c) && (code c <=? 13))%N
  || (code c =? 32)%N || (code c =? 133)%N || (code c =? 160)%N.

Fixpoint skip_leading (s : string) : string :=
  match s with
  | EmptyString => EmptyString
  | String c s' => if char_isspace_int c then skip_leading s' else s
  end.

Fixpoint skip_trailing (s : string) : string :=
  match s with
  | EmptyString => EmptyString
  | String c s' =>
      match skip_trailing s' with
      | EmptyString => if char_isspace_int c then EmptyString else String c EmptyString
      | r => String c r
      end
  end.

(** The decimal digits of [int()] below 256 are the ASCII digits. *)
Definition is_ascii_digit (c : ascii) : bool := ((48 <=? code c) && (code c <=? 57))%N.

(** What may follow a digit of a literal: nothing, a digit, or one
    underscore and a digit.  The result is the digits without the
    underscores. *)
Fixpoint after_digit (s : string) : option string :=
  match s with
  | EmptyString => Some EmptyString
  | String c r =>
      if is_ascii_digit c then option_map (String c) (after_digit r)
      else if Ascii.eqb c "_" then
        match r with
        | String c' r' =>
            if is_ascii_digit c' then option_map (String c') (after_digit r') else None
        | EmptyString => None
        end
      else None
  end.

Definition digits_of (s : string) : option string :=
  match s with
  | String c r => if is_ascii_digit c then option_map (String c) (after_digit r) else None
  | EmptyString => None
  end.

(** The literal that [int()] reads in a text: blanks skipped at both ends,
    one optional sign, digits with single underscores between them.  The
    result keeps the minus sign and the digits. *)
Definition int_literal (s : string) : option string :=
  match skip_trailing (skip_leading s) with
  | String c r =>
      if Ascii.eqb c "-" then option_map (String "-"%char) (digits_of r)
      else if Ascii.eqb c "+" then digits_of r
      else digits_of (String c r)
  | EmptyString => None
  end.

(** The number of digits up to which the interpreter converts between
    [int] and [str] (its default since Python 3.11). *)
Definition int_max_str_digits : Z := 4300.

(** [int(s)] for a [str] in base 10; anything that is not a literal is the
    [ValueError] of the interpreter.  (The bound on the number of digits is
    not modelled, see [str_of_int]: where a text of any length is
    converted, the theorems state the bound.) *)
Definition int_of_str (s : string) : outcome Z :=
  match int_literal s with
  | Some literal =>
      match NilZero.int_of_string literal with
      | Some d => Return (Z.of_int d)
      | None => Raise (ValueError s)
      end
  | None => Raise (ValueError s)
  end.

(** [str(v)]. *)
Definition str (v : pyval) : string :=
  match v with
  | PyNone => "None"
  | PyBool true => "True"
  | PyBool false => "False"
  | PyInt z => str_of_int z
  | PyStr s => s
  end.

(** Truth value of [v] in a condition. *)
Definition truthy (v : pyval) : bool :=
  match v with
  | PyNone => false
  | PyBool b => b
  | PyInt z => negb (z =? 0)%Z
  | PyStr s => negb (String.eqb s EmptyString)
  end.

(** [isinstance(v, (int,))]; [bool] is a subclass of [int]. *)
Definition isinstance_int (v : pyval) : bool :=
  match v with
  | PyInt _ | PyBool _ => true
  | _ => false
  end.

(** [int(v)]. *)
Definition int (v : pyval) : outcome Z :=
  match v with
  | PyInt z => Return z
  | PyBool b => Return (if b then 1 else 0)
  | PyStr s => int_of_str s
  | PyNone => Raise (TypeError "int() argument must be a string or a number")
  end.

(** [float(k)] for an [int], as the product [base_delay * attempt] converts
    its right operand; exact for [0 <= k < 2^53] and rounded to nearest up
    to [2^63]. *)
Definition float_of_int (k : Z) : float := PrimFloat.of_uint63 (Uint63.of_Z k).

End Py.
Import Py.

(** ** State and exceptions *)

(** A computation over a world [W] that returns or raises. *)
Definition M (W A : Type) : Type := W -> outcome A * W.

Definition ret {W A} (a : A) : M W A := fun w => (Return a, w).
Definition raise {W A} (e : exn) : M W A := fun w => (Raise e, w).
Definition bind {W A B} (m : M W A) (k : A -> M W B) : M W B :=
  fun w =>
    match m w with
    | (Return a, w') => k a w'
    | (Raise e, w') => (Raise e, w')
    end.
Definition lift {W A} (o : outcome A) : M W A := fun w => (o, w).

Notation "'do' x <- m ; k" := (bind m (fun x => k))
  (at level 10, x name, m at level 100, k at level 200).
Notation "'run' m ; k" := (bind m (fun _ => k))
  (at level 10, m at level 100, k at level 200).

(** ** [app/main.py]: retry policy and business operations *)

Module Main.

Definition TRANSIENT_ERRORS : gset Z :=
  {[1205; 1222; 4060; 40197; 40501; 49918; 49919; 49920]}.
Definition BUSINESS_ERRORS : gset Z :=
  {[50001; 50002; 50003; 2601]}.

(** [errnum in codes], where [errnum] may be [None]. *)
Definition code_in (errnum : option Z) (codes : gset Z) : bool :=
  match errnum with
  | Some n => bool_decide (n ∈ codes)
  | None => false
  end.

(** The text scanned by [_extract_errnum]: [str(ex.args[1])] when the
    exception has more than one argument, [str(ex)] otherwise. *)
Definition error_text (ex : exn) : string :=
  match args_of ex with
  | _ :: a1 :: _ => Py.str a1
  | [a0] => Py.str a0
  | [] => EmptyString
  end.

Definition blank_brackets (text : string) : string :=
  replace_char "]" " " (replace_char "[" " " (replace_char "#" " "
    (replace_char ")" " " (replace_char "(" " " text)))).

(** The [for tok in ...] loop: the first token made of digits is converted
    and returned; [None] stands for leaving the loop without a [return]. *)
Fixpoint scan_tokens (toks : list string) : outcome (option Z) :=
  match toks with
  | [] => Return None
  | tok :: rest =>
      if Py.isdigit tok
      then bind_outcome (int_of_str tok) (fun n => Return (Some n))
      else scan_tokens rest
  end.

Definition _extract_errnum (ex : exn) : outcome (option Z) :=
  try_except
    (scan_tokens (Py.split (blank_brackets (error_text ex))))
    (fun _ => Return None).

Definition is_business_error (ex : exn) : outcome bool :=
  bind_outcome (_extract_errnum ex) (fun errnum => Return (code_in errnum BUSINESS_ERRORS)).

(** *** The world of an operation *)

(** What the database answers to one [with get_conn() as conn:] block: the
    connection, the statement or the commit may raise a [pyodbc.Error] with
    the given [args].  [conn.rollback()] is taken to succeed, and what the
    driver does on leaving the [with] block is not part of the trace. *)
Inductive db_reply : Type :=
| DbOk
| ConnectFails (args : list pyval)
| ExecuteFails (args : list pyval)
| CommitFails (args : list pyval).

Inductive sqlparam : Type :=
| ParamInt (z : Z)
| ParamFloat (f : float)
| ParamStr (s : string).

Inductive opkind : Type := Deposit | Withdraw | Transfer.

Inductive console_line : Type :=
| LineRetry (errnum : option Z) (delay : float) (next_attempt max_attempts : Z)
| LineOk (op : opkind) (ref : string)
| LineFailedBusiness (op : opkind) (ex : exn)
| LineFailed (op : opkind) (ex : exn).

(** The calls observed from outside.  [EvCall] marks each invocation of the
    wrapped function by the retry wrapper. *)
Inductive event : Type :=
| EvCall
| EvExecute (sql : string) (params : list sqlparam)
| EvCommit
| EvRollback
| EvPrint (line : console_line)
| EvSleep (seconds : float).

Record world : Type := mkWorld {
  db : nat -> db_reply;        (* answer to the n-th connection *)
  uuid4_hex : nat -> string;   (* n-th [uuid4().hex] *)
  connections : nat;
  uuids : nat;
  trace : list event
}.

Definition record (e : event) (w : world) : world :=
  mkWorld (db w) (uuid4_hex w) (connections w) (uuids w) (trace w ++ [e])%list.

Definition emit (e : event) : M world unit :=
  fun w => (Return tt, record e w).

(** [get_conn()]: the next answer of the database; a failed connection
    raises before the [try] block is entered. *)
Definition get_conn : M world db_reply :=
  fun w =>
    let w' := mkWorld (db w) (uuid4_hex w) (S (connections w)) (uuids w) (trace w) in
    match db w (connections w) with
    | ConnectFails args => (Raise (PyodbcError args), w')
    | reply => (Return reply, w')
    end.

Definition gen_ref (prefix : string) : M world string :=
  fun w =>
    (Return (prefix +:+ "-" +:+ substring 0 12 (uuid4_hex w (uuids w))),
     mkWorld (db w) (uuid4_hex w) (connections w) (S (uuids w)) (trace w)).

(** *** [with_retry] *)

Definition default_max_attempts : Z := 3.
Definition default_base_delay : float := 0.8%float.

(** The [while True] loop of [wrapper]; [fuel] bounds the number of
    iterations and [None] means that the bound was reached. *)
Fixpoint retry_loop {A} (fuel : nat) (max_attempts : Z) (base_delay : float)
    (fn : M world A) (attempt : Z) (w : world) : option (outcome A * world) :=
  match fuel with
  | O => None
  | S fuel' =>
      match (run emit EvCall; fn) w with
      | (Return r, w1) => Some (Return r, w1)
      | (Raise ex, w1) =>
          if is_pyodbc_error ex then
            match _extract_errnum ex with
            | Raise e => Some (Raise e, w1)
            | Return errnum =>
                if code_in errnum TRANSIENT_ERRORS && (attempt <? max_attempts)%Z then
                  let delay := (base_delay * float_of_int attempt)%float in
                  match (run emit (EvPrint (LineRetry errnum delay (attempt + 1) max_attempts));
                         emit (EvSleep delay)) w1 with
                  | (_, w2) => retry_loop fuel' max_attempts base_delay fn (attempt + 1) w2
                  end
                else Some (Raise ex, w1)
            end
          else Some (Raise ex, w1)
      end
  end.

(** [with_retry(max_attempts, base_delay)(fn)]: the loop starts at attempt 1
    and makes at most [max(1, max_attempts)] iterations. *)
Definition with_retry {A} (max_attempts : Z) (base_delay : float) (fn : M world A)
    (w : world) : option (outcome A * world) :=
  retry_loop (S (Z.to_nat (max_attempts - 1))) max_attempts base_delay fn 1 w.

(** *** Business operations *)

Definition ref_prefix (op : opkind) : string :=
  match op with
  | Deposit => "dep"
  | Withdraw => "wd"
  | Transfer => "tx"
  end.

(** The [except pyodbc.Error as ex:] clause shared by the three operations:
    roll back, then answer [False] to a business error and re-raise any
    other one. *)
Definition on_error (op : opkind) (ex : exn) : M world pyval :=
  run emit EvRollback;
  do business <- lift (is_business_error ex);
  if (business : bool) then
    run emit (EvPrint (LineFailedBusiness op ex));
    ret (PyBool false)
  else
    run emit (EvPrint (LineFailed op ex));
    raise ex.

(** The body common to [deposit], [withdraw] and [transfer]: draw a
    reference if none is given, connect, execute, commit. *)
Definition operation (op : opkind) (sql : string) (params : string -> list sqlparam)
    (ref : option string) : M world pyval :=
  do ref <- match ref with
            | None => gen_ref (ref_prefix op)
            | Some r => ret r
            end;
  do reply <- get_conn;
  run emit (EvExecute sql (params ref));
  match reply with
  | ExecuteFails args => on_error op (PyodbcError args)
  | CommitFails args => run emit EvCommit; on_error op (PyodbcError args)
  | _ =>
      run emit EvCommit;
      run emit (EvPrint (LineOk op ref));
      ret PyNone
  end.

Definition deposit_fn (account_id : Z) (amount : float) (ref : option string) : M world pyval :=
  operation Deposit "EXEC dbo.usp_Deposit ?, ?, ?"
    (fun ref => [ParamInt account_id; ParamFloat amount; ParamStr ref]) ref.

Definition withdraw_fn (account_id : Z) (amount : float) (ref : option string) : M world pyval :=
  operation Withdraw "EXEC dbo.usp_Withdraw ?, ?, ?"
    (fun ref => [ParamInt account_id; ParamFloat amount; ParamStr ref]) ref.

Definition transfer_fn (from_id to_id : Z) (amount : float) (ref : option string) : M world pyval :=
  operation Transfer "EXEC dbo.usp_TransferFunds ?, ?, ?, ?"
    (fun ref => [ParamInt from_id; ParamInt to_id; ParamFloat amount; ParamStr ref]) ref.

(** The decorated functions, [@with_retry()]. *)
Definition deposit (account_id : Z) (amount : float) (ref : option string) :=
  with_retry default_max_attempts default_base_delay (deposit_fn account_id amount ref).
Definition withdraw (account_id : Z) (amount : float) (ref : option string) :=
  with_retry default_max_attempts default_base_delay (withdraw_fn account_id amount ref).
Definition transfer (from_id to_id : Z) (amount : float) (ref : option string) :=
  with_retry default_max_attempts default_base_delay (transfer_fn from_id to_id amount ref).

End Main.

(** ** The error log and the health check *)

Module Db.

(** One row of [dbo.ErrorLog] as the queries select it:
    [ErrorID, ProcName, ErrorNumber, ErrorMessage, OccurredAt]. *)
Record ErrorRow : Type := mkRow {
  ErrorID : Z;
  ProcName : pyval;
  ErrorNumber : pyval;
  ErrorMessage : pyval;
  OccurredAt : pyval
}.

(** A row of a result set of [usp_HealthCheck], after [tuple(r)]. *)
Definition tuple : Type := list pyval.

(** [ORDER BY ErrorID]: insertion into an ascending list. *)
Fixpoint insert_by_id (r : ErrorRow) (rows : list ErrorRow) : list ErrorRow :=
  match rows with
  | [] => [r]
  | r' :: rest =>
      if (ErrorID r <=? ErrorID r')%Z then r :: rows
      else r' :: insert_by_id r rest
  end.

Definition order_by_id (rows : list ErrorRow) : list ErrorRow :=
  foldr insert_by_id [] rows.

(** The order of the result: ascending [ErrorID]. *)
Definition by_id (a b : ErrorRow) : Prop := (ErrorID a <= ErrorID b)%Z.

(** [SELECT ... FROM dbo.ErrorLog WHERE ErrorID > ? ORDER BY ErrorID]
    evaluated on the rows of the table. *)
Definition select_new_errors (table : list ErrorRow) (since_id : Z) : list ErrorRow :=
  order_by_id (List.filter (fun r => (since_id <? ErrorID r)%Z) table).

(** The [while True] loop over the result sets of [EXEC dbo.usp_HealthCheck]:
    a set without description ([None]) contributes nothing. *)
Fixpoint collect_issues (result_sets : list (option (list tuple))) : list tuple :=
  match result_sets with
  | [] => []
  | Some rows :: more => (rows ++ collect_issues more)%list
  | None :: more => collect_issues more
  end.

(** What the outside answers during one cycle. *)
Record cycle_env : Type := mkEnv {
  errorlog : option (list ErrorRow);                 (* [None]: the query raises *)
  healthcheck : option (list (option (list tuple))); (* [None]: the call raises *)
  smtp_accepts : bool;                               (* [false]: the SMTP session raises *)
  utcnow : string;                                   (* formatted clock *)
  openai_reply : string -> option string             (* [ai_summary], [None] on any failure *)
}.

(** The module level SMTP settings read from the environment. *)
Record smtp_config : Type := mkSmtp {
  SMTP_HOST : pyval;
  SMTP_PORT : Z;
  SMTP_STARTTLS : bool;
  SMTP_USER : pyval;
  SMTP_PASS : pyval;
  SMTP_TO : list string
}.

(** Calls made by a poller, in order. *)
Inductive event : Type :=
| EvFetch (since_id : Z) (rows : list ErrorRow)
| EvHealthCheck (issues : list tuple)
| EvSendEmail (subject body : string)      (* [send_email] is called *)
| EvSmtpSkipped                            (* it returns early with a warning *)
| EvSmtpDelivered (subject body : string)  (* the server took the message *)
| EvSetState (key value : string)
| EvAppendCsv (tag : string) (lines : nat)
| EvLog (line : string).

(** The state file (table [s(k, v)]) and the calls made so far. *)
Record world (V : Type) : Type := mkWorld {
  store : gmap string V;
  trace : list event
}.
Arguments mkWorld {V} store trace.
Arguments store {V} w.
Arguments trace {V} w.

Definition emit {V} (e : event) : M (world V) unit :=
  fun w => (Return tt, mkWorld (store w) (trace w ++ [e])%list).

(** [fetch_new_errors] and [run_health_check] read alike in [agent.py],
    [ai_agent.py] and [monitor_errors.py]. *)
Definition fetch_new_errors {V} (env : cycle_env) (since_id : Z) : M (world V) (list ErrorRow) :=
  match errorlog env with
  | None => raise (PyodbcError [PyStr "08001"; PyStr "connection failed"])
  | Some table =>
      let rows := select_new_errors table since_id in
      run emit (EvFetch since_id rows);
      ret rows
  end.

Definition run_health_check {V} (env : cycle_env) : M (world V) (list tuple) :=
  match healthcheck env with
  | None => raise (PyodbcError [PyStr "08001"; PyStr "connection failed"])
  | Some result_sets =>
      let issues := collect_issues result_sets in
      run emit (EvHealthCheck issues);
      ret issues
  end.

(** The SMTP session of [send_email] once the settings are complete. *)
Definition smtp_session {V} (env : cycle_env) (subject body : string) : M (world V) unit :=
  if smtp_accepts env then emit (EvSmtpDelivered subject body)
  else raise SMTPException.

(** [rows[-1]], if there is a row. *)
Definition last_row (rows : list ErrorRow) : option ErrorRow := last rows.

Definition is_empty {A} (l : list A) : bool :=
  match l with
  | [] => true
  | _ :: _ => false
  end.

End Db.
Import Db.

(** ** [app/agent.py] *)

Module Agent.

Definition last_error_id : string := "last_error_id".

Definition get_state (key default : string) : M (world string) string :=
  fun w => (Return (match store w !! key with Some v => v | None => default end), w).

Definition set_state (key value : string) : M (world string) unit :=
  fun w => (Return tt, mkWorld (<[key := value]> (store w)) (trace w ++ [EvSetState key value])%list).

Definition smtp_configured (cfg : smtp_config) : bool :=
  truthy (SMTP_HOST cfg) && negb (SMTP_PORT cfg =? 0)%Z && truthy (SMTP_USER cfg)
  && truthy (SMTP_PASS cfg) && negb (is_empty (SMTP_TO cfg)).

Definition send_email (cfg : smtp_config) (env : cycle_env) (subject html_body : string)
    : M (world string) unit :=
  run emit (EvSendEmail subject html_body);
  if negb (smtp_configured cfg) then
    run emit (EvLog "SMTP not fully configured; skipping email");
    emit EvSmtpSkipped
  else smtp_session env subject html_body.

Definition duplicate_plan : string :=
  "Duplicate reference detected. Action: verify the ref, keep the earliest TransactionID, void/cancel the duplicates. Suggested SQL:
  ;WITH c AS (
    SELECT TransactionID, ROW_NUMBER() OVER (PARTITION BY Ref ORDER BY TransactionID) rn
    FROM dbo.Transactions WHERE Ref = @Ref
  )
  DELETE T FROM dbo.Transactions T JOIN c ON c.TransactionID=T.TransactionID WHERE c.rn > 1;
".
Definition funds_plan : string :=
  "Insufficient funds. Action: deposit to the source account, reduce transfer amount, or retry later.".
Definition transient_plan : string :=
  "Transient concurrency issue. Action: retry with backoff. Our Python client already retries (A2).".

Definition opt_eqb (num : option Z) (c : Z) : bool :=
  match num with
  | Some n => (n =? c)%Z
  | None => false
  end.

(** [classify_and_plan(err_row)]: (severity, plan_text). *)
Definition classify_and_plan (err_row : ErrorRow) : outcome (string * string) :=
  let proc := ProcName err_row in
  let num := ErrorNumber err_row in
  let msg := ErrorMessage err_row in
  bind_outcome
    (if isinstance_int num || Py.isdigit (Py.str num)
     then bind_outcome (Py.int num) (fun n => Return (Some n))
     else Return None)
    (fun num =>
       let proc := if truthy proc then proc else PyStr "unknown" in
       if opt_eqb num 2601 || opt_eqb num 2627 then Return ("P2", duplicate_plan)
       else if opt_eqb num 50003 then Return ("P3", funds_plan)
       else if opt_eqb num 1205 || opt_eqb num 1222 then Return ("P2", transient_plan)
       else Return ("P2", "Investigate in SSMS. Procedure=" +:+ Py.str proc
                          +:+ ", Message=" +:+ Py.str msg)).

Definition style : string :=
  "
    <style>
      body { font-family: Segoe UI, Arial, sans-serif; color:#0f172a; }
      .card { border:1px solid #e2e8f0; border-radius:10px; padding:16px; margin-bottom:16px; }
      .h { font-size:16px; font-weight:600; margin:0 0 10px 0;}
      table { border-collapse: collapse; width:100%; }
      th, td { border-bottom:1px solid #e2e8f0; padding:8px; text-align:left; font-size:13px; }
      th { background:#f8fafc; }
      .pill { padding:2px 8px; border-radius:999px; color:white; font-size:11px; }
      .P1 { background:#dc2626; } .P2 { background:#d97706; } .P3 { background:#059669; } .INFO { background:#64748b; }
      .mono { font-family: Consolas, monospace; }
      .footer { color:#64748b; font-size:12px; margin-top:8px; }
    </style>
    ".

(** One [<tr>] of the table of new errors. *)
Definition error_tr (e : ErrorRow) : outcome string :=
  bind_outcome (classify_and_plan e) (fun '(sev, plan) =>
    Return ("<tr><td>" +:+ str_of_int (ErrorID e) +:+ "</td><td class='mono'>"
            +:+ Py.str (OccurredAt e) +:+ "</td><td>" +:+ Py.str (ProcName e) +:+ "</td>"
            +:+ "<td><span class='pill " +:+ sev +:+ "'>" +:+ sev
            +:+ "</span> <span class='mono'>" +:+ Py.str (ErrorNumber e) +:+ "</span></td>"
            +:+ "<td><pre class='mono' style='white-space:pre-wrap'>" +:+ plan
            +:+ "</pre></td></tr>")).

(** The [for e in new_errors] loop, appending to [out]. *)
Fixpoint error_trs (new_errors : list ErrorRow) : outcome (list string) :=
  match new_errors with
  | [] => Return []
  | e :: rest =>
      bind_outcome (error_tr e) (fun tr =>
      bind_outcome (error_trs rest) (fun trs => Return (tr :: trs)))
  end.

Definition health_tr (it : tuple) : string :=
  "<tr>" +:+ String.concat "" (map (fun x => "<td class='mono'>" +:+ Py.str x +:+ "</td>") it)
  +:+ "</tr>".

(** [html_report(new_errors, health_issues)]; [now] is the formatted
    [utcnow()]. *)
Definition html_report (now : string) (new_errors : list ErrorRow) (health_issues : list tuple)
    : outcome (option string) :=
  if is_empty new_errors && is_empty health_issues then Return None
  else
    let head :=
      ["<!doctype html><html><head>" +:+ style +:+ "</head><body>";
       "<div class='card'><div class='h'>FinTx Agent Report <span class='mono'>" +:+ now
       +:+ "</span></div>"] in
    bind_outcome
      (if is_empty new_errors then Return []
       else bind_outcome (error_trs new_errors) (fun trs =>
              Return (["<div class='h'>New errors</div>";
                       "<table><tr><th>ID</th><th>When (UTC)</th><th>Proc</th><th>Err#</th><th>Plan</th></tr>"]
                      ++ trs ++ ["</table>"])%list))
      (fun errors_part =>
         let health_part :=
           if is_empty health_issues then []
           else (["<div class='h' style='margin-top:14px'>Health findings</div>";
                 "<table><tr><th>Check</th><th>Key</th><th>Value</th></tr>"]
                ++ map health_tr health_issues ++ ["</table>"])%list in
         Return (Some (String.concat ""
           (head ++ errors_part ++ health_part ++
            ["<div class='footer'>This message was generated by FinTx Agent.</div></div></body></html>"])%list))).

Definition subject_line (rows : list ErrorRow) (issues : list tuple) : string :=
  "[FinTx] " +:+ str_of_int (Z.of_nat (length rows)) +:+ " new error(s), health "
  +:+ (if is_empty issues then "OK" else "has findings").

(** [if html:] for an optional string. *)
Definition html_truthy (html : option string) : bool :=
  match html with
  | Some s => negb (String.eqb s EmptyString)
  | None => false
  end.

(** [main()]: one poll cycle. *)
Definition main (cfg : smtp_config) (env : cycle_env) : M (world string) unit :=
  run emit (EvLog "Agent start");
  do text <- get_state last_error_id "0";
  do last_id <- lift (int_of_str text);
  do rows <- fetch_new_errors env last_id;
  do issues <- run_health_check env;
  do html <- lift (html_report (utcnow env) rows issues);
  run (if html_truthy html
       then send_email cfg env (subject_line rows issues) (default EmptyString html)
       else ret tt);
  run (match last_row rows with
       | Some r => set_state last_error_id (str_of_int (ErrorID r))
       | None => ret tt
       end);
  emit (EvLog "Agent done").

End Agent.

(** ** [app/ai_agent.py] *)

Module AiAgent.

Definition last_error_id : string := "last_error_id".

(** [state_init()] creates the table when it is missing; the store is
    left as it is. *)
Definition state_init : M (world string) unit := ret tt.

Definition state_get_last_id : M (world string) Z :=
  fun w =>
    match store w !! last_error_id with
    | Some v => (int_of_str v, w)
    | None => (Return 0, w)
    end.

Definition state_set_last_id (v : Z) : M (world string) unit :=
  fun w => (Return tt,
            mkWorld (<[last_error_id := str_of_int v]> (store w))
                    (trace w ++ [EvSetState last_error_id (str_of_int v)])%list).

Definition smtp_configured (cfg : smtp_config) : bool :=
  negb (negb (truthy (SMTP_HOST cfg)) || negb (truthy (SMTP_USER cfg))
        || negb (truthy (SMTP_PASS cfg)) || is_empty (SMTP_TO cfg)).

Definition send_email (cfg : smtp_config) (env : cycle_env) (subject html_body : string)
    : M (world string) unit :=
  run emit (EvSendEmail subject html_body);
  if negb (smtp_configured cfg) then
    run emit (EvLog "Email not sent: SMTP env not fully configured.");
    emit EvSmtpSkipped
  else smtp_session env subject html_body.

(** [max(r.ErrorID for r in err_rows)] for a non-empty list. *)
Definition max_error_id (first : ErrorRow) (rest : list ErrorRow) : Z :=
  foldl Z.max (ErrorID first) (map ErrorID rest).

Definition subject_line (err_rows : list ErrorRow) (health_rows : list tuple) : string :=
  "[FinTxOps] Report - " +:+ str_of_int (Z.of_nat (length err_rows)) +:+ " errors; health "
  +:+ (if is_empty health_rows then "OK" else "issues") +:+ ".".

Section Rendering.

(** The texts of the prompt, of the rule based summary and of the HTML
    body are total functions of the rows (every conversion in them is
    guarded by [try]); their wording plays no part below. *)
Variable build_prompt : list ErrorRow -> list tuple -> string.
Variable fallback_summary : list ErrorRow -> list tuple -> string.
Variable render_email_html : string -> list ErrorRow -> list tuple -> string.

Definition update_if_changed (new_last last : Z) : M (world string) unit :=
  if (new_last =? last)%Z then ret tt else state_set_last_id new_last.

(** [run_once(send_when_no_changes)]: one poll cycle. *)
Definition run_once (cfg : smtp_config) (send_when_no_changes : bool) (env : cycle_env)
    : M (world string) unit :=
  run state_init;
  do last <- state_get_last_id;
  do err_rows <- fetch_new_errors env last;
  do health_rows <- run_health_check env;
  let new_last :=
    match err_rows with
    | [] => last
    | r :: rest => max_error_id r rest
    end in
  if is_empty err_rows && is_empty health_rows && negb send_when_no_changes then
    run emit (EvLog "Agent: no new errors and health OK - skipping OpenAI/email.");
    update_if_changed new_last last
  else
    let prompt := build_prompt err_rows health_rows in
    let summary :=
      match openai_reply env prompt with
      | Some text => if String.eqb text EmptyString
                     then fallback_summary err_rows health_rows else text
      | None => fallback_summary err_rows health_rows
      end in
    let html := render_email_html summary err_rows health_rows in
    run send_email cfg env (subject_line err_rows health_rows) html;
    run emit (EvLog summary);
    run emit (EvLog "Email sent.");
    update_if_changed new_last last.

End Rendering.

End AiAgent.

(** ** [app/monitor_errors.py] *)

Module Monitor.

Definition last_error_id : string := "last_error_id".

(** The state table of the monitor has an INTEGER column. *)
Definition get_last_id : M (world Z) Z :=
  fun w => (Return (match store w !! last_error_id with Some v => v | None => 0 end), w).

Definition set_last_id (v : Z) : M (world Z) unit :=
  fun w => (Return tt,
            mkWorld (<[last_error_id := v]> (store w))
                    (trace w ++ [EvSetState last_error_id (str_of_int v)])%list).

Definition smtp_configured (cfg : smtp_config) : bool :=
  truthy (SMTP_HOST cfg) && truthy (SMTP_USER cfg) && truthy (SMTP_PASS cfg)
  && negb (is_empty (SMTP_TO cfg)).

Definition send_email (cfg : smtp_config) (env : cycle_env) (subject text : string)
    : M (world Z) unit :=
  run emit (EvSendEmail subject text);
  if negb (smtp_configured cfg) then
    run emit (EvLog "Email not configured; set SMTP_* in .env");
    emit EvSmtpSkipped
  else smtp_session env subject text.

(** [append_csv(tag, rows)]: nothing is written for an empty list. *)
Definition append_csv {A} (tag : string) (rows : list A) : M (world Z) unit :=
  if is_empty rows then ret tt else emit (EvAppendCsv tag (length rows)).

Definition newline : string := String (Ascii.ascii_of_nat 10) EmptyString.

Definition fmt_errors (rows : list ErrorRow) : string :=
  if is_empty rows then "No new ErrorLog rows."
  else String.concat newline
         (map (fun r => str_of_int (ErrorID r) +:+ ": [" +:+ Py.str (ProcName r) +:+ "] #"
                        +:+ Py.str (ErrorNumber r) +:+ " @ " +:+ Py.str (OccurredAt r)
                        +:+ " -> " +:+ Py.str (ErrorMessage r)) rows).

Section Rendering.

(** [str(it)] for a tuple of the health check. *)
Variable str_of_tuple : tuple -> string.

Definition fmt_health (issues : list tuple) : string :=
  if is_empty issues then "HealthCheck: OK"
  else String.concat newline (map str_of_tuple issues).

Definition subject_line (rows : list ErrorRow) (issues : list tuple) : string :=
  "[FinTx] " +:+ str_of_int (Z.of_nat (length rows)) +:+ " new errors, "
  +:+ (if is_empty issues then "health OK" else "issues found").

(** The script under [if __name__ == "__main__":], one poll cycle. *)
Definition main (cfg : smtp_config) (env : cycle_env) : M (world Z) unit :=
  let now := utcnow env in
  run emit (EvLog ("=== FinTx Monitor @ " +:+ now +:+ "Z ==="));
  do last <- get_last_id;
  do rows <- fetch_new_errors env last;
  run (match last_row rows with
       | Some r =>
           run emit (EvLog "*** New ErrorLog entries ***");
           run emit (EvLog (fmt_errors rows));
           set_last_id (ErrorID r)
       | None => emit (EvLog "No new ErrorLog rows.")
       end);
  do issues <- run_health_check env;
  run (if is_empty issues then emit (EvLog "HealthCheck: OK")
       else run emit (EvLog "*** HealthCheck issues ***");
            emit (EvLog (fmt_health issues)));
  run append_csv "ErrorLog" rows;
  run append_csv "Health" issues;
  let subject := subject_line rows issues in
  let body := "Time: " +:+ now +:+ "Z" +:+ newline +:+ newline +:+ fmt_errors rows
              +:+ newline +:+ newline +:+ fmt_health issues in
  run (if negb (is_empty rows) || negb (is_empty issues)
       then send_email cfg env subject body
       else ret tt);
  emit (EvLog "Done.").

End Rendering.

End Monitor.

(** ** The command line of [main.py] and what a run of an operation shows *)

Module Cli.
Import Main.

(** The sub-commands [deposit], [withdraw] and [transfer] with their
    arguments. *)
Inductive request : Type :=
| ReqDeposit (account : Z) (amount : float) (ref : option string)
| ReqWithdraw (account : Z) (amount : float) (ref : option string)
| ReqTransfer (from_id to_id : Z) (amount : float) (ref : option string).

(** The dispatch on [args.cmd]. *)
Definition execute (req : request) : world -> option (outcome pyval * world) :=
  match req with
  | ReqDeposit account amount ref => deposit account amount ref
  | ReqWithdraw account amount ref => withdraw account amount ref
  | ReqTransfer from_id to_id amount ref => transfer from_id to_id amount ref
  end.

Definition kind_of (req : request) : opkind :=
  match req with
  | ReqDeposit _ _ _ => Deposit
  | ReqWithdraw _ _ _ => Withdraw
  | ReqTransfer _ _ _ _ => Transfer
  end.

(** The attempts and the waits of a run, in order. *)
Inductive step : Type :=
| Attempt
| Wait (seconds : float).

Definition step_of (e : event) : option step :=
  match e with
  | EvCall => Some Attempt
  | EvSleep d => Some (Wait d)
  | _ => None
  end.

Definition schedule (tr : list event) : list step := omap step_of tr.

(** The wait that immediately precedes the [k]-th attempt ([k] counts from
    1), if there is one; [prev] is the wait seen since the last attempt. *)
Fixpoint wait_before (k : nat) (prev : option float) (sch : list step) : option float :=
  match sch with
  | [] => None
  | Wait d :: rest => wait_before k (Some d) rest
  | Attempt :: rest =>
      match k with
      | O => None
      | S O => prev
      | S k' => wait_before k' None rest
      end
  end.

Definition is_attempt (s : step) : bool :=
  match s with
  | Attempt => true
  | Wait _ => false
  end.

Definition attempts (sch : list step) : nat := length (List.filter is_attempt sch).

Definition delay_before_attempt (k : Z) (tr : list event) : option float :=
  wait_before (Z.to_nat k) None (schedule tr).

(** The linear backoff: after the failed attempt [k] the wrapper waits
    [base_delay * k] and then makes attempt [k + 1]. *)
Definition backoff (base_delay : float) (k : Z) : float :=
  (base_delay * float_of_int k)%float.

Definition retries (base_delay : float) (first : Z) (n : nat) : list step :=
  flat_map (fun k => [Wait (backoff base_delay k); Attempt]) (seqZ first (Z.of_nat n)).

Definition linear_schedule (base_delay : float) (max_attempts : Z) : list step :=
  Attempt :: retries base_delay 1 (Z.to_nat (max_attempts - 1)).

(** Against the database [d], [fn] fails on every call with a
    [pyodbc.Error] in whose text [_extract_errnum] reads [code], and neither
    sleeps nor re-enters the wrapper. *)
Definition always_fails_with (code : Z) (d : nat -> db_reply) {A} (fn : M world A) : Prop :=
  forall w, db w = d ->
    exists args w',
      fn w = (Raise (PyodbcError args), w')
      /\ db w' = d
      /\ _extract_errnum (PyodbcError args) = Return (Some code)
      /\ exists evs, trace w' = (trace w ++ evs)%list /\ schedule evs = [].

(** The last call to the database is the rollback, followed only by the
    line printed for the failure. *)
Definition rolled_back (evs : list event) : Prop :=
  exists pre line, evs = (pre ++ [EvRollback; EvPrint line])%list.

(** The database rejects the statement (or the commit) of the next
    connection with an error in whose text [_extract_errnum] reads
    [code]. *)
Definition next_statement_fails (code : Z) (w : world) (args : list pyval) : Prop :=
  (db w (connections w) = ExecuteFails args \/ db w (connections w) = CommitFails args)
  /\ _extract_errnum (PyodbcError args) = Return (Some code).

(** A database that rejects every statement with the same error. *)
Definition stubborn_db (args : list pyval) : world :=
  mkWorld (fun _ => ExecuteFails args) (fun _ => "9f1c2b3a4d5e6f708192a3b4c5d6e7f8") 0 0 [].

(** Short errors in whose text the code is the first token made of
    digits (for the texts of the driver see [Driver] below). *)
Definition deadlock_args : list pyval :=
  [PyStr "deadlock victim (1205)"].

(** A database that rejects the first [n] statements with a deadlock and
    accepts the following ones. *)
Definition deadlocks_then_ok (n : nat) : world :=
  mkWorld (fun k => if (k <? n)%nat then ExecuteFails deadlock_args else DbOk)
          (fun _ => "9f1c2b3a4d5e6f708192a3b4c5d6e7f8") 0 0 [].
Definition insufficient_funds_args : list pyval :=
  [PyStr "Insufficient funds (50003)"].

End Cli.

(** ** Poll cycles on the shared state file *)

Module Poller.

(** [agent.py] and [ai_agent.py] keep the watermark under the same key of
    the same state file; a run is any sequence of their cycles. *)
Inductive entry : Type :=
| AgentMain
| AiRunOnce (send_when_no_changes : bool).

(** One cycle: the SMTP settings that the process finds in its
    environment, the entry point, and what the outside answers. *)
Record job : Type := mkJob {
  settings : smtp_config;
  entry_point : entry;
  outside : cycle_env
}.

Section Run.

Variable build_prompt : list ErrorRow -> list tuple -> string.
Variable fallback_summary : list ErrorRow -> list tuple -> string.
Variable render_email_html : string -> list ErrorRow -> list tuple -> string.

Definition cycle (j : job) : M (world string) unit :=
  match entry_point j with
  | AgentMain => Agent.main (settings j) (outside j)
  | AiRunOnce idle =>
      AiAgent.run_once build_prompt fallback_summary render_email_html
        (settings j) idle (outside j)
  end.

(** A cycle that raises ends its process; the state file stays as the
    cycle left it. *)
Definition run_cycles (sched : list job) (w : world string) : world string :=
  foldl (fun w j => snd (cycle j w)) w sched.

End Run.

Definition initial : world string := mkWorld ∅ [].

(** The stored watermark, read the way the pollers read it. *)
Definition watermark (w : world string) : outcome Z :=
  fst (AiAgent.state_get_last_id w).

(** Whether the settings are complete for the [send_email] of the entry
    point. *)
Definition configured_for (j : job) : bool :=
  match entry_point j with
  | AgentMain => Agent.smtp_configured (settings j)
  | AiRunOnce _ => AiAgent.smtp_configured (settings j)
  end.

Definition is_delivered (e : event) : bool :=
  match e with
  | EvSmtpDelivered _ _ => true
  | _ => false
  end.

(** [send_email] came back without raising: the message was delivered, or
    it was skipped with a warning. *)
Definition is_handed_over (e : event) : bool :=
  match e with
  | EvSmtpDelivered _ _ | EvSmtpSkipped => true
  | _ => false
  end.

(** The rows of the reports that [counts] accepts: a report carries the
    rows of the fetch that precedes it; [cur] is the latest fetch. *)
Fixpoint reported_from (counts : event -> bool) (cur : list ErrorRow) (tr : list event)
    : list ErrorRow :=
  match tr with
  | [] => []
  | EvFetch _ rows :: tr' => reported_from counts rows tr'
  | e :: tr' =>
      if counts e then (cur ++ reported_from counts cur tr')%list
      else reported_from counts cur tr'
  end.

Definition delivered_rows (tr : list event) : list ErrorRow :=
  reported_from is_delivered [] tr.
Definition handed_over_rows (tr : list event) : list ErrorRow :=
  reported_from is_handed_over [] tr.

(** The largest [ErrorID] of the rows, 0 if there is none. *)
Definition max_id (rows : list ErrorRow) : Z :=
  foldr Z.max 0 (map ErrorID rows).

(** The rows of every fetch of the trace. *)
Definition fetched_rows (tr : list event) : list ErrorRow :=
  flat_map (fun e => match e with EvFetch _ rows => rows | _ => [] end) tr.

Definition send_calls (tr : list event) : nat :=
  length (List.filter (fun e => match e with EvSendEmail _ _ => true | _ => false end) tr).

(** The state file holds the watermark [W]: its decimal text, or nothing
    when [W] is 0 and no cycle has stored anything yet. *)
Definition stores (w : world string) (W : Z) : Prop :=
  store w !! AiAgent.last_error_id = Some (str_of_int W)
  \/ (store w !! AiAgent.last_error_id = None /\ W = 0).

(** The rows of the latest fetch of a trace, [cur] if it has none. *)
Definition latest_fetch (cur : list ErrorRow) (tr : list event) : list ErrorRow :=
  foldl (fun cur e => match e with EvFetch _ rows => rows | _ => cur end) cur tr.

(** What a cycle leaves behind.  Either the state file is untouched and
    no row counts as reported, or the watermark moves to the largest id of
    the fetched [rows], all above the old watermark [W], after [send_email]
    came back; the rows are delivered when the settings are complete. *)
Definition cycle_keeps (w w' : world string) (delta : list event) : Prop :=
  store w' = store w
  /\ (forall cur, reported_from is_handed_over cur delta = [])
  /\ (forall cur, reported_from is_delivered cur delta = []).

Definition cycle_advances (configured : bool) (W : Z) (w w' : world string)
    (delta : list event) (rows : list ErrorRow) : Prop :=
  rows <> []
  /\ (forall r, r ∈ rows -> W < ErrorID r)%Z
  /\ store w' = <[AiAgent.last_error_id := str_of_int (max_id rows)]> (store w)
  /\ (forall cur, reported_from is_handed_over cur delta = rows)
  /\ (forall cur, reported_from is_delivered cur delta = if configured then rows else []).

(** The watermark [W] of [w] is the largest id among the rows that
    [counts] takes as reported. *)
Definition tracks (counts : event -> bool) (w : world string) (W : Z) : Prop :=
  stores w W /\ (0 <= W)%Z /\ W = max_id (reported_from counts [] (trace w)).

(** [counts] may be used for the cycle [j]: handed-over reports always,
    delivered reports when the settings are complete for [j]. *)
Definition sound_for (counts : event -> bool) (j : job) : Prop :=
  counts = is_handed_over \/ (counts = is_delivered /\ configured_for j = true).

(** The messages that the SMTP server took. *)
Definition deliveries (tr : list event) : list event := List.filter is_delivered tr.

(** A row as an INT column yields it: the error number is an [int] or NULL. *)
Definition int_coded (r : ErrorRow) : Prop :=
  match ErrorNumber r with
  | PyInt _ | PyNone => True
  | _ => False
  end.

End Poller.

(** ** Sample configurations and error logs *)

Module Scenario.

Definition row (id code : Z) : ErrorRow :=
  mkRow id (PyStr "usp_TransferFunds") (PyInt code) (PyStr "operation failed")
        (PyStr "2024-05-01 10:00:00").

Definition smtp_complete : smtp_config :=
  mkSmtp (PyStr "smtp.example.com") 587 true (PyStr "agent") (PyStr "secret")
         ["ops@example.com"].

Definition smtp_missing : smtp_config :=
  mkSmtp PyNone 587 true PyNone PyNone [].

(** A cycle in which the log holds [table], the health check finds
    nothing and the SMTP server answers as [accepts] says. *)
Definition env_of (table : list ErrorRow) (accepts : bool) : cycle_env :=
  mkEnv (Some table) (Some [Some []]) accepts "2024-05-01 10:05:00" (fun _ => None).

Definition prompt_text (rows : list ErrorRow) (issues : list tuple) : string := "prompt".
Definition summary_text (rows : list ErrorRow) (issues : list tuple) : string := "summary".
Definition body_text (summary : string) (rows : list ErrorRow) (issues : list tuple)
    : string := summary.
Definition tuple_text (it : tuple) : string := String.concat "," (map Py.str it).

(** A state file that already holds the watermark 14. *)
Definition seen_14 : world string := mkWorld {[AiAgent.last_error_id := "14"]} [].

Definition ids_12_14 : list ErrorRow := [row 12 1205; row 13 50003; row 14 2627].
Definition ids_101_105 : list ErrorRow :=
  [row 101 1205; row 102 1205; row 103 50003; row 104 2601; row 105 8134].

End Scenario.

(** ** Codes without an entry in the classifier *)

Module Classifier.

(** The error numbers that [classify_and_plan] sends to its default
    branch: an integer outside the three tests, NULL, or a text that is not
    made of digits. *)
Inductive unclassified : pyval -> Prop :=
| unlisted_int (z : Z) :
    z <> 2601 -> z <> 2627 -> z <> 50003 -> z <> 1205 -> z <> 1222 ->
    unclassified (PyInt z)
| missing_code : unclassified PyNone
| non_numeric_text (s : string) : Py.isdigit s = false -> unclassified (PyStr s).

(** The default plan: procedure name ([unknown] when it is empty or NULL)
    and message echoed. *)
Definition default_plan (r : ErrorRow) : string :=
  "Investigate in SSMS. Procedure="
  +:+ Py.str (if truthy (ProcName r) then ProcName r else PyStr "unknown")
  +:+ ", Message=" +:+ Py.str (ErrorMessage r).

End Classifier.

(** ** More methods of [str] *)

Module PyText.

(** [s.replace(old, new)] for a one-character [old]. *)
Fixpoint replace_with (old : ascii) (new : string) (s : string) : string :=
  match s with
  | EmptyString => EmptyString
  | String c s' =>
      (if Ascii.eqb c old then new else String c EmptyString) +:+ replace_with old new s'
  end.

(** [s.lstrip()], [s.rstrip()] and [s.strip()]. *)
Fixpoint lstrip (s : string) : string :=
  match s with
  | EmptyString => EmptyString
  | String c s' => if char_isspace c then lstrip s' else s
  end.

Fixpoint rstrip (s : string) : string :=
  match s with
  | EmptyString => EmptyString
  | String c s' =>
      match rstrip s' with
      | EmptyString => if char_isspace c then EmptyString else String c EmptyString
      | r => String c r
      end
  end.

Definition strip (s : string) : string := rstrip (lstrip s).

(** [s.split(sep)] for a one-character [sep]: the pieces between the
    separators, empty ones included. *)
Fixpoint split_on (sep : ascii) (s : string) : list string :=
  match s with
  | EmptyString => [EmptyString]
  | String c s' =>
      if Ascii.eqb c sep then EmptyString :: split_on sep s'
      else match split_on sep s' with
           | piece :: more => String c piece :: more
           | [] => [String c EmptyString]
           end
  end.

(** Truth value of a [str]. *)
Definition nonempty (s : string) : bool := negb (String.eqb s EmptyString).

(** Whether a character occurs in a string. *)
Fixpoint occurs (c : ascii) (s : string) : bool :=
  match s with
  | EmptyString => false
  | String c' s' => Ascii.eqb c' c || occurs c s'
  end.

End PyText.

(** ** [app/ai_agent.py]: escaping *)

Module AiHtml.
Import PyText.

Definition quote : ascii := Ascii.ascii_of_nat 34.

(** [html_escape(s)]: five replacements, the ampersand first. *)
Definition html_escape (s : string) : string :=
  replace_with "'" "&#39;"
    (replace_with quote "&quot;"
       (replace_with ">" "&gt;"
          (replace_with "<" "&lt;"
             (replace_with "&" "&amp;" s)))).

(** The entity of one character. *)
Definition escape_char (c : ascii) : string :=
  if Ascii.eqb c "&" then "&amp;"
  else if Ascii.eqb c "<" then "&lt;"
  else if Ascii.eqb c ">" then "&gt;"
  else if Ascii.eqb c quote then "&quot;"
  else if Ascii.eqb c "'" then "&#39;"
  else String c EmptyString.

Fixpoint escape_each (s : string) : string :=
  match s with
  | EmptyString => EmptyString
  | String c s' => escape_char c +:+ escape_each s'
  end.

(** The characters that open or close markup or an attribute value. *)
Definition is_markup (c : ascii) : bool :=
  Ascii.eqb c "<" || Ascii.eqb c ">" || Ascii.eqb c quote || Ascii.eqb c "'".

End AiHtml.

(** ** Error texts that carry a code *)

Module ErrorText.

(** The characters that [_extract_errnum] turns into blanks, and the
    blanks themselves. *)
Definition is_delimiter (c : ascii) : bool :=
  char_isspace c
  || Ascii.eqb c "(" || Ascii.eqb c ")" || Ascii.eqb c "#"
  || Ascii.eqb c "[" || Ascii.eqb c "]".

(** No character of the text is a digit. *)
Definition digit_free (s : string) : bool := all_chars (fun c => negb (char_isdigit c)) s.

(** What may follow the code: the end of the text, or a delimiter and
    anything. *)
Definition closes_token (rest : string) : bool :=
  match rest with
  | EmptyString => true
  | String c _ => is_delimiter c
  end.

End ErrorText.

(** ** The blanking of one character *)

Module Blanking.

(** What the five replacements of [_extract_errnum] make of one
    character. *)
Definition blank_char (c : ascii) : ascii :=
  let r (old : ascii) (x : ascii) := if Ascii.eqb x old then " "%char else x in
  r "]"%char (r "["%char (r "#"%char (r ")"%char (r "("%char c)))).

End Blanking.


(** ** Observations on the runs of the retry wrapper *)

Module RetryObs.
Import Main Cli.

(** [fn] leaves the wrapper alone: whatever it does, it neither sleeps nor
    calls the wrapper, and its events are appended to the trace. *)
Definition quiet {A} (fn : M world A) : Prop :=
  forall w, exists evs, trace (snd (fn w)) = (trace w ++ evs)%list /\ schedule evs = [].

(** The database rejects the statements of the next [n] connections with
    errors in whose text [_extract_errnum] reads a retry-eligible code, and
    accepts the following one. *)
Definition fails_then_ok (n : nat) (w : world) : Prop :=
  (forall k, (k < n)%nat ->
     exists args code,
       db w (connections w + k)%nat = ExecuteFails args
       /\ _extract_errnum (PyodbcError args) = Return (Some code)
       /\ code ∈ TRANSIENT_ERRORS)
  /\ db w (connections w + n)%nat = DbOk.

Definition is_rollback (e : event) : bool :=
  match e with EvRollback => true | _ => false end.
Definition is_commit (e : event) : bool :=
  match e with EvCommit => true | _ => false end.
Definition count (p : event -> bool) (tr : list event) : nat := length (List.filter p tr).

(** The statements sent to the database, with their parameters. *)
Definition execution (e : event) : option (string * list sqlparam) :=
  match e with
  | EvExecute sql params => Some (sql, params)
  | _ => None
  end.
Definition executions (tr : list event) : list (string * list sqlparam) := omap execution tr.

(** The reference used by the attempt number [i] (from 0) of an operation
    started in [w]: the given one, or the one drawn from the [i]-th next
    uuid. *)
Definition ref_at (op : opkind) (ref : option string) (w : world) (i : nat) : string :=
  match ref with
  | Some r => r
  | None => ref_prefix op +:+ "-" +:+ substring 0 12 (uuid4_hex w (uuids w + i)%nat)
  end.

(** Events that touch the transaction. *)
Definition touches_db (e : event) : bool :=
  match e with
  | EvExecute _ _ | EvCommit | EvRollback => true
  | _ => false
  end.

(** A database that refuses every connection with the same error. *)
Definition unreachable_db (args : list pyval) (w : world) : Prop :=
  db w = fun _ => ConnectFails args.

(** The world after one call of an operation. *)
Definition after_call (ref : option string) (w : world) (evs : list event) : world :=
  mkWorld (db w) (uuid4_hex w) (S (connections w))
          (match ref with None => S (uuids w) | Some _ => uuids w end)
          (trace w ++ evs)%list.

(** One deadlock, then success, with uuids that differ from call to
    call. *)
Definition one_deadlock_numbered : world :=
  mkWorld (fun k => if (k <? 1)%nat then ExecuteFails deadlock_args else DbOk)
          (fun k => str_of_int (Z.of_nat k) +:+ "f1c2b3a4d5e6f708192a3b4c5d6e7f8") 0 0 [].

(** An error for a database that cannot be opened, with a message in
    which the code is the first token made of digits. *)
Definition cannot_open_args : list pyval :=
  [PyStr "Cannot open database requested by the login (4060)"].

Definition unreachable : world :=
  mkWorld (fun _ => ConnectFails cannot_open_args)
          (fun _ => "9f1c2b3a4d5e6f708192a3b4c5d6e7f8") 0 0 [].

End RetryObs.

(** ** Runs of [monitor_errors.py] and damaged state files *)

Module MonitorRun.

Section Rendering.

Variable str_of_tuple : tuple -> string.

(** The script run once per entry of the schedule, each time with the
    SMTP settings and the answers of the outside of that run; a run that
    raises leaves the state file as it is at that point. *)
Definition monitor_cycles (sched : list (smtp_config * cycle_env)) (w : world Z) : world Z :=
  foldl (fun w job => snd (Monitor.main str_of_tuple (fst job) (snd job) w)) w sched.

End Rendering.

(** The INTEGER state of the monitor holds [W]; no row stands for 0. *)
Definition holds (w : world Z) (W : Z) : Prop :=
  store w !! Monitor.last_error_id = Some W
  \/ (store w !! Monitor.last_error_id = None /\ W = 0%Z).

Definition fresh : world Z := mkWorld ∅ [].

End MonitorRun.

Module Damaged.

(** A state file whose value is not the text of an integer. *)
Definition float_text : world string := mkWorld {[AiAgent.last_error_id := "14.0"]} [].

End Damaged.

(** ** [app/main.py]: the connection string and the health check of the
    command line *)

Module Connection.
Import PyText.

Definition preferred : list string :=
  ["ODBC Driver 18 for SQL Server"; "ODBC Driver 17 for SQL Server"; "SQL Server"].

(** [p in drivers]. *)
Definition member (p : string) (drivers : list string) : bool :=
  existsb (String.eqb p) drivers.

(** [pick_driver()], from the names that [pyodbc.drivers()] lists. *)
Definition pick_driver (installed : list string) : option string :=
  let drivers := map strip installed in
  match List.find (fun p => member p drivers) preferred with
  | Some p => Some p
  | None => last drivers
  end.





(** What [health_check()] prints. *)
Inductive health_line : Type :=
| HealthHeader                (* "HealthCheck results:" *)
| HealthRow (r : tuple)       (* [print(tuple(r))] *)
| HealthOk.                   (* "HealthCheck results: OK (no issues found)" *)

(** The [while True] loop over the result sets, with the flag
    [any_rows]; the lines printed and the flag at the end. *)
Fixpoint health_sets (any_rows : bool) (result_sets : list (option (list tuple)))
    : list health_line * bool :=
  match result_sets with
  | [] => ([], any_rows)
  | Some (r :: rows) :: more =>
      let (rest, any) := health_sets true more in
      ((if any_rows then [] else [HealthHeader]) ++ map HealthRow (r :: rows) ++ rest, any)%list
  | _ :: more => health_sets any_rows more
  end.

Definition health_check (result_sets : list (option (list tuple))) : list health_line :=
  let (lines, any_rows) := health_sets false result_sets in
  (lines ++ if any_rows then [] else [HealthOk])%list.

End Connection.

(** ** The recipients of the reports *)

Module Recipients.
Import PyText.

(** [[e.strip() for e in text.split(";") if e.strip()]]. *)
Definition parse_recipients (text : string) : list string :=
  omap (fun e => if nonempty (strip e) then Some (strip e) else None) (split_on ";" text).

(** [SMTP_TO] of the three scripts, from the values of the variables
    [SMTP_TO] and [SMTP_USER] in the environment ([None]: not set). *)
Definition agent_SMTP_TO (smtp_to smtp_user : option string) : list string :=
  let SMTP_USER := smtp_user in
  parse_recipients
    (default (match SMTP_USER with
              | Some u => if nonempty u then u else EmptyString
              | None => EmptyString
              end) smtp_to).

Definition ai_SMTP_TO (smtp_to smtp_user : option string) : list string :=
  let SMTP_USER := default EmptyString smtp_user in
  parse_recipients (default SMTP_USER smtp_to).

Definition monitor_SMTP_TO (smtp_to : option string) : list string :=
  parse_recipients (default EmptyString smtp_to).

(** A blank or a separator of the list. *)
Definition is_filler (c : ascii) : bool := char_isspace c || Ascii.eqb c ";".

(** The text does not begin with a blank. *)
Definition starts_clean (s : string) : Prop :=
  match s with
  | EmptyString => True
  | String c _ => char_isspace c = false
  end.

End Recipients.

(** ** Occurrences of a text in another *)

Module Substring.

Definition contains (needle hay : string) : Prop :=
  exists pre post, hay = pre +:+ needle +:+ post.

End Substring.

(** ** Errors without a code *)

Module Uncoded.
Import Main Cli.



End Uncoded.

(** ** Errors as the driver reports them *)

Module Driver.

(** The [args] of the [pyodbc.Error] raised for an error of the server:
    the SQLSTATE, and a message that opens with the SQLSTATE in brackets,
    names the vendor, the driver and the server in brackets, quotes the text
    of the server and closes with its error number and the ODBC function in
    parentheses. *)
Definition server_error (sqlstate driver text : string) (number : Z) : list pyval :=
  [PyStr sqlstate;
   PyStr ("[" +:+ sqlstate +:+ "] [Microsoft][" +:+ driver +:+ "][SQL Server]" +:+ text
          +:+ " (" +:+ str_of_int number +:+ ") (SQLExecDirectW)")].

Definition odbc_18 : string := "ODBC Driver 18 for SQL Server".
Definition legacy : string := "ODBC SQL Server Driver".

(** The error 50003 of the procedures; the driver reports the errors that
    a procedure raises itself under the SQLSTATE 42000. *)
Definition insufficient_funds : list pyval :=
  server_error "42000" odbc_18 "Insufficient funds" 50003.

(** The two duplicate-key errors: SQLSTATE 23000. *)
Definition duplicate_index : list pyval :=
  server_error "23000" odbc_18
    "Cannot insert duplicate key row in object 'dbo.Transactions' with unique index 'UX_Transactions_Ref'."
    2601.
Definition duplicate_constraint : list pyval :=
  server_error "23000" odbc_18
    "Violation of UNIQUE KEY constraint 'UQ_Transactions_Ref'. Cannot insert duplicate key in object 'dbo.Transactions'."
    2627.

(** A deadlock: SQLSTATE 40001. *)
Definition deadlock : list pyval :=
  server_error "40001" odbc_18
    "Transaction (Process ID 55) was deadlocked on lock resources with another process and has been chosen as the deadlock victim. Rerun the transaction."
    1205.

(** An error in the same format under the general SQLSTATE HY000, which
    is not a number, from the driver whose name holds no digit: the first
    token made of digits is the error number. *)
Definition out_of_resources : list pyval :=
  server_error "HY000" legacy
    "Cannot process request. Not enough resources to process request." 49918.

End Driver.


(** * Properties *)

Local Open Scope list_scope.
Local Open Scope Z_scope.

(** ** Python helpers *)

Section PyFacts.

Lemma all_chars_impl (P Q : ascii -> bool) (s : string) :
  (forall c, P c = true -> Q c = true) ->
  all_chars P s = true -> all_chars Q s = true.
Proof.
  intros HPQ. induction s as [|c s IH]; [reflexivity|].
  cbn [all_chars]. intros [Hc Hs]%andb_true_iff. now rewrite (HPQ c Hc), IH.
Qed.

Lemma skip_trailing_none (s : string) :
  all_chars (fun c => negb (char_isspace_int c)) s = true -> skip_trailing s = s.
Proof.
  induction s as [|c s IH]; [reflexivity|].
  cbn [all_chars skip_trailing]. intros [Hc Hs]%andb_true_iff. apply negb_true_iff in Hc.
  rewrite (IH Hs), Hc. now destruct s.
Qed.

Lemma after_digit_plain (s : string) :
  all_chars is_ascii_digit s = true -> after_digit s = Some s.
Proof.
  induction s as [|c s IH]; [reflexivity|].
  cbn [all_chars after_digit]. intros [Hc Hs]%andb_true_iff. now rewrite Hc, (IH Hs).
Qed.

(** The characters of a token that [isdigit] accepts are neither blanks
    nor signs nor underscores. *)
Lemma digit_not_layout (c : ascii) :
  char_isdigit c = true ->
  char_isspace_int c = false /\ Ascii.eqb c "-" = false /\ Ascii.eqb c "+" = false
  /\ Ascii.eqb c "_" = false.
Proof.
  destruct c as [[] [] [] [] [] [] [] []]; intros H; try discriminate H;
    repeat split; reflexivity.
Qed.

Lemma ascii_digit_isdigit (c : ascii) : is_ascii_digit c = true -> char_isdigit c = true.
Proof. unfold char_isdigit, is_ascii_digit. now intros ->. Qed.

(** A text made of ASCII digits is its own literal, also after a minus
    sign. *)
Lemma int_literal_plain (c : ascii) (s : string) :
  all_chars is_ascii_digit (String c s) = true ->
  int_literal (String c s) = Some (String c s)
  /\ int_literal (String "-" (String c s)) = Some (String "-" (String c s)).
Proof.
  intros Hall.
  assert (Hdigits : digits_of (String c s) = Some (String c s)).
  { cbn [all_chars] in Hall. apply andb_true_iff in Hall as [Hc Hs].
    cbn [digits_of]. now rewrite Hc, (after_digit_plain s Hs). }
  assert (Hnone : skip_trailing (String c s) = String c s).
  { apply skip_trailing_none. revert Hall. apply all_chars_impl.
    intros x Hx. apply ascii_digit_isdigit, digit_not_layout in Hx as [-> _]. reflexivity. }
  pose proof Hall as Hc. cbn [all_chars] in Hc. apply andb_true_iff in Hc as [Hc _].
  apply ascii_digit_isdigit, digit_not_layout in Hc as (Hsp & Hminus & Hplus & _).
  split.
  - unfold int_literal. cbn [skip_leading]. rewrite Hsp, Hnone, Hminus, Hplus. exact Hdigits.
  - unfold int_literal. cbn [skip_leading].
    change (char_isspace_int "-") with false. cbv iota.
    change (skip_trailing (String "-" (String c s)))
      with (match skip_trailing (String c s) with
            | EmptyString => String "-"%char EmptyString
            | String a b => String "-"%char (String a b)
            end).
    rewrite Hnone. cbn [Ascii.eqb Bool.eqb]. cbv iota. now rewrite Hdigits.
Qed.

Lemma uint_digits (d : Decimal.uint) :
  all_chars is_ascii_digit (NilEmpty.string_of_uint d) = true.
Proof. induction d; simpl; rewrite ?IHd; reflexivity. Qed.

(** The decimal text of an unsigned number: a digit, then digits. *)
Lemma string_of_uint_plain (d : Decimal.uint) :
  exists c s,
    NilZero.string_of_uint d = String c s /\ all_chars is_ascii_digit (String c s) = true.
Proof.
  unfold NilZero.string_of_uint. pose proof (uint_digits d) as Hall.
  destruct d; simpl in *; eexists _, _; (split; [reflexivity|]); first [exact Hall | reflexivity].
Qed.

Lemma int_of_str_of_int (z : Z) : int_of_str (str_of_int z) = Return z.
Proof.
  assert (Hold : NilZero.int_of_string (str_of_int z) = Some (Z.to_int z)).
  { unfold str_of_int. apply NilZero.isi;
      destruct z as [|p|p]; simpl; try discriminate;
      intros H; injection H as H; now apply Unsigned.to_uint_nonnil in H. }
  assert (Hlit : int_literal (str_of_int z) = Some (str_of_int z)).
  { unfold str_of_int, NilZero.string_of_int.
    destruct (Z.to_int z) as [d|d];
      destruct (string_of_uint_plain d) as (c & s & -> & Hall);
      now apply int_literal_plain. }
  unfold int_of_str. rewrite Hlit, Hold. now rewrite DecimalZ.of_to.
Qed.

(** Texts that [int()] takes although they are not the text of a number
    as [str] writes it, and texts that it refuses. *)
Example int_of_str_forms :
  int_of_str " 14" = Return 14
  /\ int_of_str "+14" = Return 14
  /\ int_of_str "1_4" = Return 14
  /\ int_of_str "014" = Return 14
  /\ int_of_str "-14 " = Return (-14)
  /\ int_of_str "14.0" = Raise (ValueError "14.0")
  /\ int_of_str "1__4" = Raise (ValueError "1__4")
  /\ int_of_str "+ 14" = Raise (ValueError "+ 14")
  /\ int_of_str (String (Ascii.ascii_of_nat 28) "14")
     = Raise (ValueError (String (Ascii.ascii_of_nat 28) "14"))
  /\ int_of_str "" = Raise (ValueError "").
Proof. repeat split; reflexivity. Qed.

Lemma bind_outcome_return {A B} (a : A) (k : A -> outcome B) :
  bind_outcome (Return a) k = k a.
Proof. reflexivity. Qed.

End PyFacts.

(** ** The numeric-token scan *)

Section ExtractErrnum.
Import Main.

Lemma scan_tokens_no_digit (toks : list string) :
  Forall (fun tok => Py.isdigit tok = false) toks -> scan_tokens toks = Return None.
Proof.
  induction 1 as [|tok rest Htok _ IH]; simpl.
  - reflexivity.
  - now rewrite Htok.
Qed.

(** C8. [_extract_errnum] never raises: for every exception it returns an
    optional code, and it returns [None] when no token of the scanned text
    is made of digits. *)
Theorem extract_errnum_never_raises :
  (forall ex : exn, exists r : option Z, _extract_errnum ex = Return r)
  /\ (forall ex : exn,
        Forall (fun tok => Py.isdigit tok = false)
               (Py.split (blank_brackets (error_text ex))) ->
        _extract_errnum ex = Return None).
Proof.
  split; intros ex.
  - unfold _extract_errnum, try_except.
    destruct (scan_tokens _) as [r|e]; eauto.
  - intros Hno. unfold _extract_errnum.
    now rewrite (scan_tokens_no_digit _ Hno).
Qed.

Lemma extract_errnum_never_raises_witness :
  _extract_errnum (PyodbcError [PyStr "HY000"; PyStr "[HY000] connection lost"])
  = Return None.
Proof.
  apply (proj2 extract_errnum_never_raises).
  vm_compute. repeat constructor.
Defined.

(** A token of digits that [int] rejects is absorbed by the [except]
    clause. *)
Example extract_errnum_superscript :
  _extract_errnum (PyodbcError [PyStr (String (Ascii.ascii_of_nat 178) EmptyString)])
  = Return None.
Proof. reflexivity. Qed.

Example extract_errnum_first_token :
  _extract_errnum (PyodbcError [PyStr "42000"; PyStr "[42000] Insufficient funds (50003)"])
  = Return (Some 42000).
Proof. reflexivity. Qed.

End ExtractErrnum.

(** ** The classifier *)

Section Classify.
Import Agent Classifier.

Lemma isdigit_str_none : Py.isdigit (Py.str PyNone) = false.
Proof. reflexivity. Qed.

(** C4. [classify_and_plan] returns, without raising, the default outcome
    (severity P2, plan echoing procedure and message) for every integer
    code outside its tables and for every code that is not numeric. *)
Theorem classify_default (r : ErrorRow) :
  unclassified (ErrorNumber r) ->
  classify_and_plan r = Return ("P2", default_plan r).
Proof.
  intros H. unfold classify_and_plan, default_plan.
  destruct H as [z H1 H2 H3 H4 H5| |s Hs]; simpl.
  - apply Z.eqb_neq in H1, H2, H3, H4, H5.
    now rewrite H1, H2, H3, H4, H5.
  - reflexivity.
  - now rewrite Hs.
Qed.

Lemma classify_default_witness :
  classify_and_plan (mkRow 7 (PyStr "usp_TransferFunds") (PyInt 8134)
                           (PyStr "Divide by zero") (PyStr "2024-05-01 10:00:00"))
  = Return ("P2", "Investigate in SSMS. Procedure=usp_TransferFunds, Message=Divide by zero").
Proof.
  apply (classify_default
           (mkRow 7 (PyStr "usp_TransferFunds") (PyInt 8134)
                  (PyStr "Divide by zero") (PyStr "2024-05-01 10:00:00"))).
  constructor; discriminate.
Defined.

(** C5. The fixed table: 2601 and 2627 give P2 with the duplicate-reference
    plan, 50003 gives P3 with the insufficient-funds plan, 1205 and 1222
    give P2 with the transient-concurrency plan. *)
Theorem classify_table (id : Z) (proc msg when : pyval) :
  classify_and_plan (mkRow id proc (PyInt 2601) msg when) = Return ("P2", duplicate_plan)
  /\ classify_and_plan (mkRow id proc (PyInt 2627) msg when) = Return ("P2", duplicate_plan)
  /\ classify_and_plan (mkRow id proc (PyInt 50003) msg when) = Return ("P3", funds_plan)
  /\ classify_and_plan (mkRow id proc (PyInt 1205) msg when) = Return ("P2", transient_plan)
  /\ classify_and_plan (mkRow id proc (PyInt 1222) msg when) = Return ("P2", transient_plan).
Proof. repeat split; reflexivity. Qed.

(** A text of digits is converted before the tests; a text that passes
    [isdigit] and that [int] rejects (here the superscript two) makes the
    classifier raise. *)
Example classify_digit_text (id : Z) (proc msg when : pyval) :
  classify_and_plan (mkRow id proc (PyStr "50003") msg when) = Return ("P3", funds_plan).
Proof. reflexivity. Qed.

Example classify_superscript_raises (id : Z) (proc msg when : pyval) :
  classify_and_plan
    (mkRow id proc (PyStr (String (Ascii.ascii_of_nat 178) EmptyString)) msg when)
  = Raise (ValueError (String (Ascii.ascii_of_nat 178) EmptyString)).
Proof. reflexivity. Qed.

Lemma classify_int_coded (r : ErrorRow) :
  Poller.int_coded r -> exists sev plan, classify_and_plan r = Return (sev, plan).
Proof.
  unfold Poller.int_coded, classify_and_plan.
  destruct (ErrorNumber r) as [|b|z|s]; try contradiction; intros _; simpl.
  - eauto.
  - repeat (match goal with |- context [if ?c then _ else _] => destruct c end); eauto.
Qed.

End Classify.

(** ** The retry policy *)

Section Retry.
Import Main Cli.

Lemma schedule_app (t1 t2 : list event) :
  schedule (t1 ++ t2) = (schedule t1 ++ schedule t2)%list.
Proof. apply omap_app. Qed.

Lemma code_in_true (code : Z) (codes : gset Z) :
  code ∈ codes -> code_in (Some code) codes = true.
Proof. intros H. simpl. now apply bool_decide_eq_true. Qed.

Lemma code_in_false (code : Z) (codes : gset Z) :
  code ∉ codes -> code_in (Some code) codes = false.
Proof. intros H. simpl. now apply bool_decide_eq_false. Qed.

Lemma retries_succ (base_delay : float) (first : Z) (n : nat) :
  retries base_delay first (S n)
  = Wait (backoff base_delay first) :: Attempt :: retries base_delay (first + 1) n.
Proof.
  unfold retries. rewrite seqZ_cons by lia. simpl.
  repeat f_equal; lia.
Qed.

Lemma attempts_retries (base_delay : float) (n : nat) (first : Z) :
  attempts (retries base_delay first n) = n.
Proof.
  revert first. induction n as [|n IH]; intros first.
  - reflexivity.
  - rewrite retries_succ. unfold attempts in *. simpl. now rewrite IH.
Qed.

Lemma wait_before_retries (base_delay : float) (n : nat) :
  forall (first : Z) (j : nat) (prev : option float),
    (j < n)%nat ->
    wait_before (S j) prev (retries base_delay first n)
    = Some (backoff base_delay (first + Z.of_nat j)).
Proof.
  induction n as [|n IH]; intros first j prev Hj; [lia|].
  rewrite retries_succ. simpl. destruct j as [|j].
  - do 2 f_equal. lia.
  - rewrite IH by lia. do 2 f_equal. lia.
Qed.

(** The loop returns whenever the fuel covers the attempts that are left. *)
Lemma retry_loop_step {A} (fn : M world A) (max_attempts : Z) (base_delay : float)
    (fuel : nat) (attempt : Z) (w : world) :
  retry_loop (S fuel) max_attempts base_delay fn attempt w
  = match fn (record EvCall w) with
    | (Return r, w1) => Some (Return r, w1)
    | (Raise ex, w1) =>
        if is_pyodbc_error ex then
          match _extract_errnum ex with
          | Raise e => Some (Raise e, w1)
          | Return errnum =>
              if code_in errnum TRANSIENT_ERRORS && (attempt <? max_attempts) then
                retry_loop fuel max_attempts base_delay fn (attempt + 1)
                  (record (EvSleep (backoff base_delay attempt))
                     (record (EvPrint (LineRetry errnum (backoff base_delay attempt)
                                                 (attempt + 1) max_attempts)) w1))
              else Some (Raise ex, w1)
          end
        else Some (Raise ex, w1)
    end.
Proof. reflexivity. Qed.

(** The loop returns whenever the fuel covers the attempts that are left. *)
Lemma retry_loop_returns {A} (fn : M world A) (max_attempts : Z) (base_delay : float) :
  forall (fuel : nat) (attempt : Z) (w : world),
    max_attempts - attempt < Z.of_nat fuel ->
    (0 < fuel)%nat ->
    exists r, retry_loop fuel max_attempts base_delay fn attempt w = Some r.
Proof.
  induction fuel as [|fuel IH]; intros attempt w Hfuel Hpos; [lia|].
  rewrite retry_loop_step.
  destruct (fn _) as [[r|ex] w1]; [eauto|].
  destruct (is_pyodbc_error ex); [|eauto].
  destruct (_extract_errnum ex) as [errnum|e]; [|eauto].
  destruct (code_in errnum TRANSIENT_ERRORS); simpl; [|eauto].
  destruct (Z.ltb_spec attempt max_attempts); [|eauto].
  apply IH; lia.
Qed.

(** [with_retry] is total. *)
Lemma with_retry_returns {A} (fn : M world A) (max_attempts : Z) (base_delay : float)
    (w : world) :
  exists r, with_retry max_attempts base_delay fn w = Some r.
Proof. apply retry_loop_returns; lia. Qed.

Lemma retry_loop_transient {A} (fn : M world A) (code : Z) (d : nat -> db_reply)
    (max_attempts : Z) (base_delay : float) :
  code ∈ TRANSIENT_ERRORS ->
  always_fails_with code d fn ->
  forall (n : nat) (attempt : Z) (w : world),
    db w = d ->
    attempt + Z.of_nat n = max_attempts ->
    exists args w' delta,
      retry_loop (S n) max_attempts base_delay fn attempt w
      = Some (Raise (PyodbcError args), w')
      /\ _extract_errnum (PyodbcError args) = Return (Some code)
      /\ trace w' = trace w ++ delta
      /\ schedule delta = Attempt :: retries base_delay attempt n.
Proof.
  intros Hcode Hfn.
  induction n as [|n IH]; intros attempt w Hdb Hn; rewrite retry_loop_step;
    destruct (Hfn (record EvCall w) Hdb) as (args & w1 & -> & Hdb1 & Hex & evs & Htr & Hevs);
    cbn [is_pyodbc_error]; rewrite Hex, (code_in_true _ _ Hcode); cbn [andb].
  - replace (attempt <? max_attempts) with false by (symmetry; apply Z.ltb_ge; lia).
    exists args, w1, (EvCall :: evs). repeat split; try done.
    + rewrite Htr. simpl. now rewrite <- app_assoc.
    + simpl. now rewrite Hevs.
  - replace (attempt <? max_attempts) with true by (symmetry; apply Z.ltb_lt; lia).
    match goal with
    | |- context [retry_loop (S n) _ _ _ _ ?w2] =>
        destruct (IH (attempt + 1) w2 Hdb1 ltac:(lia))
          as (args' & w' & delta & -> & Hex' & Htr' & Hsch)
    end.
    simpl in Htr'.
    exists args', w',
      (EvCall :: evs
       ++ [EvPrint (LineRetry (Some code) (backoff base_delay attempt)
                              (attempt + 1) max_attempts);
           EvSleep (backoff base_delay attempt)] ++ delta).
    repeat split; try done.
    + rewrite Htr', Htr. simpl. now rewrite <- !app_assoc.
    + rewrite retries_succ. simpl. rewrite schedule_app, Hevs. simpl.
      now rewrite Hsch.
Qed.

(** C2 (amended). For a retry-eligible code and [max_attempts >= 1], an
    operation that fails on every call with an error in whose text
    [_extract_errnum] reads that code (its first token made of digits) is
    attempted exactly [max_attempts] times and its failure is then raised; no
    wait precedes attempt 1 and the wait between attempt [k] and attempt
    [k + 1] is [base_delay * k].  Errors in which the scan reads another
    number than the code of the server are left out here. *)
Theorem retry_linear_backoff {A} (fn : M world A) (code : Z) (d : nat -> db_reply)
    (max_attempts : Z) (base_delay : float) (w : world) :
  code ∈ TRANSIENT_ERRORS ->
  1 <= max_attempts ->
  db w = d ->
  always_fails_with code d fn ->
  exists args w' delta,
    with_retry max_attempts base_delay fn w = Some (Raise (PyodbcError args), w')
    /\ _extract_errnum (PyodbcError args) = Return (Some code)
    /\ trace w' = trace w ++ delta
    /\ schedule delta = linear_schedule base_delay max_attempts
    /\ Z.of_nat (attempts (schedule delta)) = max_attempts
    /\ delay_before_attempt 1 delta = None
    /\ forall k, 1 <= k < max_attempts ->
         delay_before_attempt (k + 1) delta = Some (backoff base_delay k).
Proof.
  intros Hcode Hmax Hdb Hfn.
  destruct (retry_loop_transient fn code d max_attempts base_delay Hcode Hfn
              (Z.to_nat (max_attempts - 1)) 1 w Hdb ltac:(lia))
    as (args & w' & delta & Hrun & Hex & Htr & Hsch).
  exists args, w', delta. unfold with_retry, linear_schedule, delay_before_attempt.
  rewrite Hsch. repeat split; try done.
  - unfold attempts. simpl. fold (attempts (retries base_delay 1 (Z.to_nat (max_attempts - 1)))).
    rewrite attempts_retries. lia.
  - intros k Hk.
    replace (Z.to_nat (k + 1)) with (S (S (Z.to_nat (k - 1)))) by lia.
    cbn [wait_before].
    rewrite wait_before_retries by lia. do 2 f_equal. lia.
Qed.

(** Membership in the two sets of codes, as equations. *)
Lemma elem_of_transient (code : Z) :
  code ∈ TRANSIENT_ERRORS <->
  code = 1205 \/ code = 1222 \/ code = 4060 \/ code = 40197 \/ code = 40501
  \/ code = 49918 \/ code = 49919 \/ code = 49920.
Proof. unfold TRANSIENT_ERRORS. rewrite !elem_of_union, !elem_of_singleton. tauto. Qed.

Lemma elem_of_business (code : Z) :
  code ∈ BUSINESS_ERRORS <->
  code = 50001 \/ code = 50002 \/ code = 50003 \/ code = 2601.
Proof. unfold BUSINESS_ERRORS. rewrite !elem_of_union, !elem_of_singleton. tauto. Qed.

Lemma transient_not_business (code : Z) :
  code ∈ TRANSIENT_ERRORS -> code ∉ BUSINESS_ERRORS.
Proof. rewrite elem_of_transient, elem_of_business. lia. Qed.

(** What one call of an operation does when the database rejects the
    statement or the commit: roll back, then [False] for a business code and
    the same exception otherwise. *)
Lemma operation_fails (op : opkind) (sql : string) (params : string -> list sqlparam)
    (ref : option string) (w : world) (args : list pyval) (errnum : option Z) :
  db w (connections w) = ExecuteFails args \/ db w (connections w) = CommitFails args ->
  _extract_errnum (PyodbcError args) = Return errnum ->
  exists w' evs,
    operation op sql params ref w
    = (if code_in errnum BUSINESS_ERRORS then Return (PyBool false)
       else Raise (PyodbcError args), w')
    /\ db w' = db w
    /\ trace w' = trace w ++ evs
    /\ schedule evs = []
    /\ rolled_back evs.
Proof.
  intros Hreply Hex.
  unfold operation, on_error, is_business_error, bind, lift, ret, raise, emit, get_conn,
    gen_ref, record.
  destruct ref as [r|]; cbn [db connections uuids uuid4_hex trace];
    destruct Hreply as [-> | ->]; rewrite Hex; cbn [bind_outcome];
    destruct (code_in errnum BUSINESS_ERRORS);
    eexists; eexists; (split; [reflexivity|]);
    cbn [db trace]; rewrite <- ?app_assoc; cbn [app];
    (split; [reflexivity|]); (split; [reflexivity|]);
    (split; [reflexivity|]);
    first [ now exists [EvExecute sql (params r)], _
          | now exists [EvExecute sql (params r); EvCommit], _
          | now eexists [EvExecute sql _], _
          | now eexists [EvExecute sql _; EvCommit], _ ].
Qed.

Lemma rolled_back_cons (e : event) (evs : list event) :
  rolled_back evs -> rolled_back (e :: evs).
Proof. intros (pre & line & ->). now exists (e :: pre), line. Qed.

(** Every sub-command is the retry wrapper around the common body. *)
Lemma execute_unfold (req : request) :
  exists sql params ref,
    execute req
    = with_retry default_max_attempts default_base_delay
        (operation (kind_of req) sql params ref).
Proof. destruct req; simpl; eauto. Qed.

(** When the scan reads a business code in the text of the error: one
    attempt, no wait, rollback, [False]. *)
Lemma execute_rejects (req : request) (code : Z) (w : world) (args : list pyval) :
  code ∈ BUSINESS_ERRORS ->
  next_statement_fails code w args ->
  exists w' delta,
    execute req w = Some (Return (PyBool false), w')
    /\ trace w' = trace w ++ delta
    /\ schedule delta = [Attempt]
    /\ rolled_back delta.
Proof.
  intros Hcode [Hreply Hex].
  destruct (execute_unfold req) as (sql & params & ref & ->).
  unfold with_retry. rewrite retry_loop_step.
  destruct (operation_fails (kind_of req) sql params ref (record EvCall w) args (Some code)
              Hreply Hex) as (w' & evs & -> & _ & Htr & Hsch & Hrb).
  rewrite (code_in_true _ _ Hcode).
  exists w', (EvCall :: evs). repeat split.
  - rewrite Htr. simpl. now rewrite <- app_assoc.
  - simpl. now rewrite Hsch.
  - now apply rolled_back_cons.
Qed.

(** When the scan reads a number that is neither retry-eligible nor a
    business code: one attempt, no wait, rollback, and the exception is
    raised to the caller. *)
Lemma execute_raises (req : request) (code : Z) (w : world) (args : list pyval) :
  code ∉ BUSINESS_ERRORS ->
  code ∉ TRANSIENT_ERRORS ->
  next_statement_fails code w args ->
  exists w' delta,
    execute req w = Some (Raise (PyodbcError args), w')
    /\ trace w' = trace w ++ delta
    /\ schedule delta = [Attempt]
    /\ rolled_back delta.
Proof.
  intros Hnb Hnt [Hreply Hex].
  destruct (execute_unfold req) as (sql & params & ref & ->).
  unfold with_retry. rewrite retry_loop_step.
  destruct (operation_fails (kind_of req) sql params ref (record EvCall w) args (Some code)
              Hreply Hex) as (w' & evs & -> & _ & Htr & Hsch & Hrb).
  rewrite (code_in_false _ _ Hnb). cbn [is_pyodbc_error].
  rewrite Hex, (code_in_false _ _ Hnt). cbn [andb].
  exists w', (EvCall :: evs). repeat split.
  - rewrite Htr. simpl. now rewrite <- app_assoc.
  - simpl. now rewrite Hsch.
  - now apply rolled_back_cons.
Qed.

(** Against a database that rejects every statement with a retry-eligible
    code, the body of an operation fails on every call. *)
Lemma operation_always_fails (op : opkind) (sql : string) (params : string -> list sqlparam)
    (ref : option string) (code : Z) (args : list pyval) :
  code ∈ TRANSIENT_ERRORS ->
  _extract_errnum (PyodbcError args) = Return (Some code) ->
  always_fails_with code (fun _ => ExecuteFails args) (operation op sql params ref).
Proof.
  intros Hcode Hex w Hdb.
  destruct (operation_fails op sql params ref w args (Some code)) as (w' & evs & Hrun & H).
  - left. now rewrite Hdb.
  - exact Hex.
  - rewrite (code_in_false _ _ (transient_not_business _ Hcode)) in Hrun.
    exists args, w'. split; [exact Hrun|].
    destruct H as (Hdb' & Htr & Hsch & _).
    repeat split; eauto. congruence.
Qed.

Lemma retry_linear_backoff_witness :
  exists args w' delta,
    transfer 1 2 10 None (stubborn_db Driver.out_of_resources)
    = Some (Raise (PyodbcError args), w')
    /\ _extract_errnum (PyodbcError args) = Return (Some 49918)
    /\ trace w' = trace (stubborn_db Driver.out_of_resources) ++ delta
    /\ schedule delta = linear_schedule default_base_delay default_max_attempts
    /\ Z.of_nat (attempts (schedule delta)) = default_max_attempts
    /\ delay_before_attempt 1 delta = None
    /\ forall k, 1 <= k < default_max_attempts ->
         delay_before_attempt (k + 1) delta = Some (backoff default_base_delay k).
Proof.
  apply (retry_linear_backoff (transfer_fn 1 2 10 None) 49918
           (fun _ => ExecuteFails Driver.out_of_resources)).
  - apply elem_of_transient. tauto.
  - unfold default_max_attempts. lia.
  - reflexivity.
  - apply operation_always_fails.
    + apply elem_of_transient. tauto.
    + reflexivity.
Defined.

(** The defaults of the decorator, and the waits they give: 0.8 before
    attempt 2 and 1.6 before attempt 3. *)
Example default_backoff :
  default_max_attempts = 3
  /\ default_base_delay = 0.8%float
  /\ linear_schedule default_base_delay default_max_attempts
     = [Attempt; Wait 0.8; Attempt; Wait 1.6; Attempt].
Proof. repeat split; reflexivity. Qed.

(** Two deadlocks, then success at the third attempt: the waits are 0.8 and
    1.6. *)
Example two_deadlocks_then_success :
  option_map (fun r => (fst r, schedule (trace (snd r))))
    (transfer 1 2 10 (Some "tx-1") (deadlocks_then_ok 2))
  = Some (Return PyNone, [Attempt; Wait 0.8; Attempt; Wait 1.6; Attempt]).
Proof. reflexivity. Qed.

(** C2 as stated fails: with the defaults and a database that answers
    every statement with an error in which the scan reads the retry-eligible
    code 49918, the wait before attempt 2 is [0.8 * 1], not [0.8 * 2] (and
    nothing is waited before attempt 1). *)
Lemma backoff_not_indexed_by_attempt :
  exists ex w',
    transfer 1 2 10 None (stubborn_db Driver.out_of_resources) = Some (Raise ex, w')
    /\ delay_before_attempt 1 (trace w') = None
    /\ delay_before_attempt 2 (trace w') = Some (backoff default_base_delay 1)
    /\ delay_before_attempt 2 (trace w') <> Some (backoff default_base_delay 2).
Proof.
  eexists. eexists. split; [vm_compute; reflexivity|].
  split; [reflexivity|]. split; [reflexivity|].
  intros H.
  apply (f_equal (fun o => match o with
                           | Some d => PrimFloat.eqb d (backoff default_base_delay 2)
                           | None => false
                           end)) in H.
  vm_compute in H. discriminate.
Qed.

(** The run of a transfer when the scan reads a business code in the
    text of the error: execute, roll back, print, answer [False]. *)
Example business_rejection_trace :
  option_map (fun r => (fst r, trace (snd r)))
    (execute (ReqTransfer 1 2 10 (Some "tx-1")) (stubborn_db insufficient_funds_args))
  = Some (Return (PyBool false),
          [EvCall;
           EvExecute "EXEC dbo.usp_TransferFunds ?, ?, ?, ?"
             [ParamInt 1; ParamInt 2; ParamFloat 10; ParamStr "tx-1"];
           EvRollback;
           EvPrint (LineFailedBusiness Transfer (PyodbcError insufficient_funds_args))]).
Proof. reflexivity. Qed.

End Retry.

(** ** The query and the watermark arithmetic *)

Section Rows.
Import Poller.

Lemma insert_by_id_elem (r x : ErrorRow) (rows : list ErrorRow) :
  x ∈ insert_by_id r rows <-> x = r \/ x ∈ rows.
Proof.
  induction rows as [|r' rest IH]; simpl.
  - rewrite elem_of_cons. tauto.
  - destruct (ErrorID r <=? ErrorID r'); rewrite !elem_of_cons; [tauto|].
    rewrite IH. tauto.
Qed.

Lemma order_by_id_elem (x : ErrorRow) (rows : list ErrorRow) :
  x ∈ order_by_id rows <-> x ∈ rows.
Proof.
  unfold order_by_id. induction rows as [|r rest IH]; simpl; [tauto|].
  rewrite insert_by_id_elem, elem_of_cons, IH. tauto.
Qed.

Lemma insert_by_id_sorted (r : ErrorRow) (rows : list ErrorRow) :
  Sorted by_id rows -> Sorted by_id (insert_by_id r rows).
Proof.
  induction 1 as [|r' rest Hrest IH Hhd]; simpl.
  - repeat constructor.
  - destruct (Z.leb_spec (ErrorID r) (ErrorID r')).
    + repeat constructor; assumption.
    + constructor; [exact IH|].
      destruct Hhd as [|r'' rest' Hle]; simpl.
      * constructor. unfold by_id. lia.
      * destruct (ErrorID r <=? ErrorID r''); constructor; unfold by_id in *; lia.
Qed.

Lemma order_by_id_sorted (rows : list ErrorRow) : Sorted by_id (order_by_id rows).
Proof.
  unfold order_by_id. induction rows as [|r rest IH]; simpl.
  - constructor.
  - now apply insert_by_id_sorted.
Qed.

(** The query returns, in ascending order, rows above the watermark. *)
Lemma select_new_errors_above (table : list ErrorRow) (since_id : Z) (r : ErrorRow) :
  r ∈ select_new_errors table since_id -> since_id < ErrorID r.
Proof.
  unfold select_new_errors. rewrite order_by_id_elem, list_elem_of_In, filter_In.
  intros [_ H]. now apply Z.ltb_lt.
Qed.

Lemma select_new_errors_sorted (table : list ErrorRow) (since_id : Z) :
  Sorted by_id (select_new_errors table since_id).
Proof. apply order_by_id_sorted. Qed.

Lemma max_id_cons (r : ErrorRow) (rows : list ErrorRow) :
  max_id (r :: rows) = Z.max (ErrorID r) (max_id rows).
Proof. reflexivity. Qed.

Lemma max_id_nonneg (rows : list ErrorRow) : 0 <= max_id rows.
Proof. induction rows; [reflexivity | rewrite max_id_cons; lia]. Qed.

Lemma max_id_ge (rows : list ErrorRow) (r : ErrorRow) : r ∈ rows -> ErrorID r <= max_id rows.
Proof.
  induction rows as [|x rest IH]; intros H.
  - now apply elem_of_nil in H.
  - rewrite max_id_cons. apply elem_of_cons in H as [-> | H]; [lia|].
    specialize (IH H). lia.
Qed.

Lemma max_id_app (l1 l2 : list ErrorRow) :
  max_id (l1 ++ l2) = Z.max (max_id l1) (max_id l2).
Proof.
  induction l1 as [|r l1 IH]; simpl.
  - pose proof (max_id_nonneg l2). change (max_id []) with 0. lia.
  - rewrite !max_id_cons, IH. lia.
Qed.

Lemma max_id_above (W : Z) (rows : list ErrorRow) :
  rows <> [] -> (forall r, r ∈ rows -> W < ErrorID r) -> W < max_id rows.
Proof.
  destruct rows as [|r rest]; [done|]. intros _ H.
  rewrite max_id_cons. specialize (H r ltac:(left)). lia.
Qed.

(** In an ascending list of rows with non-negative ids, the last row
    carries the largest id: [rows[-1][0]] is [max(r.ErrorID for r in rows)]. *)
Lemma last_row_max_id (rows : list ErrorRow) (r : ErrorRow) :
  Sorted by_id rows ->
  (forall x, x ∈ rows -> 0 <= ErrorID x) ->
  last_row rows = Some r ->
  ErrorID r = max_id rows.
Proof.
  unfold last_row. induction 1 as [|x rest Hrest IH Hhd]; intros Hpos Hlast; [done|].
  rewrite max_id_cons. destruct rest as [|y rest'].
  - injection Hlast as ->. change (max_id []) with 0.
    specialize (Hpos r ltac:(left)). lia.
  - rewrite last_cons_cons in Hlast.
    rewrite IH; [|intros; apply Hpos; now right|exact Hlast].
    apply HdRel_inv in Hhd. unfold by_id in Hhd.
    pose proof (max_id_ge (y :: rest') y ltac:(left)). lia.
Qed.

Lemma max_error_id_max_id (r : ErrorRow) (rest : list ErrorRow) :
  0 <= ErrorID r -> AiAgent.max_error_id r rest = max_id (r :: rest).
Proof.
  unfold AiAgent.max_error_id. rewrite max_id_cons.
  revert r. induction rest as [|x rest IH]; intros r Hr; simpl.
  - change (max_id []) with 0. lia.
  - rewrite max_id_cons.
    assert (H : forall a, 0 <= a -> foldl Z.max a (map ErrorID rest) = Z.max a (max_id rest)).
    { clear. induction rest as [|y rest IH]; intros a Ha; simpl.
      - change (max_id []) with 0. lia.
      - rewrite max_id_cons, IH by lia. lia. }
    rewrite H by lia. lia.
Qed.

Lemma last_row_nonempty (rows : list ErrorRow) :
  rows <> [] -> exists r, last_row rows = Some r /\ r ∈ rows.
Proof.
  intros H. unfold last_row. destruct (last rows) as [r|] eqn:E.
  - exists r. split; [done|]. now apply last_Some_elem_of.
  - now apply last_None in E.
Qed.

End Rows.

(** ** The report builder *)

Section Report.
Import Agent Poller.

Lemma html_report_none (now : string) (rows : list ErrorRow) (issues : list tuple) :
  html_report now rows issues = Return None <-> rows = [] /\ issues = [].
Proof.
  unfold html_report. split.
  - destruct rows, issues; cbn [is_empty andb]; try done;
      match goal with
      | |- bind_outcome ?m _ = _ -> _ => destruct m; cbn [bind_outcome]; discriminate
      end.
  - now intros [-> ->].
Qed.

Lemma html_report_truthy (now : string) (rows : list ErrorRow) (issues : list tuple)
    (html : string) :
  html_report now rows issues = Return (Some html) -> html_truthy (Some html) = true.
Proof.
  unfold html_report.
  destruct (is_empty rows && is_empty issues); [discriminate|].
  match goal with
  | |- bind_outcome ?m _ = _ -> _ => destruct m; cbn [bind_outcome]; [|discriminate]
  end.
  intros [= <-]. reflexivity.
Qed.

Lemma error_trs_int_coded (rows : list ErrorRow) :
  Forall int_coded rows -> exists trs, error_trs rows = Return trs.
Proof.
  induction 1 as [|r rest Hr _ [trs IH]]; simpl; [eauto|].
  unfold error_tr. destruct (classify_int_coded r Hr) as (sev & plan & ->).
  cbn [bind_outcome]. rewrite IH. cbn [bind_outcome]. eauto.
Qed.

Lemma html_report_int_coded (now : string) (rows : list ErrorRow) (issues : list tuple) :
  Forall int_coded rows -> exists html, html_report now rows issues = Return html.
Proof.
  intros H. unfold html_report.
  destruct (is_empty rows && is_empty issues); [eauto|].
  destruct (is_empty rows); cbn [bind_outcome]; [eauto|].
  destruct (error_trs_int_coded rows H) as [trs ->]. cbn [bind_outcome]. eauto.
Qed.

End Report.

(** ** One poll cycle *)

Section Cycle.
Import Poller.

Lemma reported_from_app (counts : event -> bool) (t1 t2 : list event) :
  forall cur,
    reported_from counts cur (t1 ++ t2)
    = reported_from counts cur t1 ++ reported_from counts (latest_fetch cur t1) t2.
Proof.
  induction t1 as [|e t1 IH]; intros cur; [reflexivity|].
  destruct e; simpl; rewrite ?IH; try reflexivity;
    destruct (counts _); rewrite ?IH, <- ?app_assoc; reflexivity.
Qed.

Lemma fetched_rows_app (t1 t2 : list event) :
  fetched_rows (t1 ++ t2) = fetched_rows t1 ++ fetched_rows t2.
Proof. apply flat_map_app. Qed.

Lemma stores_read_agent (w : world string) (W : Z) :
  stores w W ->
  int_of_str (match store w !! Agent.last_error_id with Some v => v | None => "0" end)
  = Return W.
Proof.
  intros [H | [H ->]]; change Agent.last_error_id with AiAgent.last_error_id; rewrite H.
  - apply int_of_str_of_int.
  - reflexivity.
Qed.

Lemma stores_watermark (w : world string) (W : Z) :
  stores w W -> watermark w = Return W.
Proof.
  unfold watermark, AiAgent.state_get_last_id.
  intros [H | [H ->]]; rewrite H; simpl; [apply int_of_str_of_int | reflexivity].
Qed.

Lemma stores_insert (w : world string) (W : Z) (tr : list event) :
  stores (mkWorld (<[AiAgent.last_error_id := str_of_int W]> (store w)) tr) W.
Proof. left. simpl. apply lookup_insert_eq. Qed.

Ltac leaf :=
  eexists _, _, _; split; [reflexivity|];
  split; [cbn [trace]; rewrite <- ?app_assoc;
          first [reflexivity | symmetry; apply app_nil_r]|].

Ltac fetched_above H :=
  let r := fresh "r" in
  let Hr := fresh "Hr" in
  intros r Hr; simpl in Hr; rewrite ?app_nil_r in Hr;
  first [now apply H | now apply elem_of_nil in Hr].

Ltac keeps := left; repeat split; intros; reflexivity.

(** One cycle of [agent.py]. *)
Lemma agent_cycle (cfg : smtp_config) (env : cycle_env) (w : world string) (W : Z) :
  stores w W -> 0 <= W ->
  exists o w' delta,
    Agent.main cfg env w = (o, w')
    /\ trace w' = trace w ++ delta
    /\ (forall r, r ∈ fetched_rows delta -> W < ErrorID r)
    /\ (cycle_keeps w w' delta
        \/ o = Return tt
           /\ exists rows, cycle_advances (Agent.smtp_configured cfg) W w w' delta rows).
Proof.
  intros Hs HW.
  unfold Agent.main, Agent.get_state, Agent.set_state, Agent.send_email, fetch_new_errors,
    run_health_check, smtp_session, bind, ret, raise, lift, Db.emit.
  cbn [store trace]. rewrite (stores_read_agent w W Hs).
  destruct (errorlog env) as [table|]; [|leaf; split; [fetched_above I | keeps]].
  pose proof (select_new_errors_above table W) as Habove.
  pose proof (select_new_errors_sorted table W) as Hsorted.
  set (rows := select_new_errors table W) in *. clearbody rows.
  destruct (healthcheck env) as [sets|]; cbn [store trace];
    [|leaf; split; [fetched_above Habove | keeps]].
  set (issues := collect_issues sets). clearbody issues.
  destruct (Agent.html_report (utcnow env) rows issues) as [[html|]|e] eqn:Hhtml;
    [| |leaf; split; [fetched_above Habove | keeps]].
  - (* a report was built *)
    rewrite (html_report_truthy _ _ _ _ Hhtml). cbn [default].
    destruct (last_row rows) as [r|] eqn:Hlast.
    + assert (Hne : rows <> []) by (intros ->; discriminate).
      assert (Hmax : ErrorID r = max_id rows).
      { apply last_row_max_id; [exact Hsorted| |exact Hlast].
        intros x Hx. specialize (Habove x Hx). lia. }
      rewrite Hmax.
      destruct (Agent.smtp_configured cfg); cbn [negb store trace];
        [destruct (smtp_accepts env); cbn [store trace]|];
        leaf; (split; [fetched_above Habove|]);
        first [ right; split; [reflexivity|]; exists rows; repeat split; try done;
                intros; simpl; now rewrite app_nil_r
              | keeps ].
    + assert (Hnil : rows = []) by (now apply last_None).
      subst rows.
      destruct (Agent.smtp_configured cfg); cbn [negb store trace];
        [destruct (smtp_accepts env); cbn [store trace]|];
        leaf; (split; [fetched_above Habove | keeps]).
  - (* nothing to report *)
    apply html_report_none in Hhtml as [-> ->]. cbn [Agent.html_truthy last_row last].
    leaf. split; [fetched_above Habove | keeps].
Qed.

Lemma stores_read_ai (w : world string) (W : Z) :
  stores w W -> AiAgent.state_get_last_id w = (Return W, w).
Proof.
  unfold AiAgent.state_get_last_id.
  intros [H | [H ->]]; rewrite H; [now rewrite int_of_str_of_int | reflexivity].
Qed.

Section Rendering.

Variable build_prompt : list ErrorRow -> list tuple -> string.
Variable fallback_summary : list ErrorRow -> list tuple -> string.
Variable render_email_html : string -> list ErrorRow -> list tuple -> string.

(** One cycle of [ai_agent.py]. *)
Lemma ai_cycle (cfg : smtp_config) (idle : bool) (env : cycle_env) (w : world string)
    (W : Z) :
  stores w W -> 0 <= W ->
  exists o w' delta,
    AiAgent.run_once build_prompt fallback_summary render_email_html cfg idle env w = (o, w')
    /\ trace w' = trace w ++ delta
    /\ (forall r, r ∈ fetched_rows delta -> W < ErrorID r)
    /\ (cycle_keeps w w' delta
        \/ o = Return tt
           /\ exists rows, cycle_advances (AiAgent.smtp_configured cfg) W w w' delta rows).
Proof.
  intros Hs HW.
  unfold AiAgent.run_once, AiAgent.state_init, bind at 1 2, ret at 1.
  rewrite (stores_read_ai w W Hs).
  unfold AiAgent.update_if_changed, AiAgent.state_set_last_id, AiAgent.send_email,
    fetch_new_errors, run_health_check, smtp_session, bind, ret, raise, lift, Db.emit.
  destruct (errorlog env) as [table|]; [|leaf; split; [fetched_above I | keeps]].
  pose proof (select_new_errors_above table W) as Habove.
  set (rows := select_new_errors table W) in *. clearbody rows.
  destruct (healthcheck env) as [sets|]; cbn [store trace];
    [|leaf; split; [fetched_above Habove | keeps]].
  set (issues := collect_issues sets). clearbody issues.
  destruct rows as [|r rest].
  - rewrite Z.eqb_refl.
    destruct (is_empty [] && is_empty issues && negb idle); cbn [store trace];
      [leaf; split; [fetched_above Habove | keeps]|].
    destruct (AiAgent.smtp_configured cfg); cbn [negb store trace];
      [destruct (smtp_accepts env); cbn [store trace]|];
      leaf; (split; [fetched_above Habove | keeps]).
  - assert (Hr : W < ErrorID r) by (apply Habove; now left).
    rewrite max_error_id_max_id by lia.
    pose proof (max_id_above W (r :: rest) ltac:(done) Habove) as Hmax.
    replace (max_id (r :: rest) =? W) with false by (symmetry; apply Z.eqb_neq; lia).
    cbn [is_empty andb].
    destruct (AiAgent.smtp_configured cfg); cbn [negb store trace];
      [destruct (smtp_accepts env); cbn [store trace]|];
      leaf; (split; [fetched_above Habove|]);
      first [ right; split; [reflexivity|]; exists (r :: rest); repeat split; try done;
              intros; simpl; now rewrite app_nil_r
            | keeps ].
Qed.

(** Either entry point. *)
Lemma cycle_effect (j : job) (w : world string) (W : Z) :
  stores w W -> 0 <= W ->
  exists o w' delta,
    cycle build_prompt fallback_summary render_email_html j w = (o, w')
    /\ trace w' = trace w ++ delta
    /\ (forall r, r ∈ fetched_rows delta -> W < ErrorID r)
    /\ (cycle_keeps w w' delta
        \/ o = Return tt
           /\ exists rows, cycle_advances (configured_for j) W w w' delta rows).
Proof.
  destruct j as [cfg [|idle] env]; [apply agent_cycle | apply ai_cycle].
Qed.

(** A cycle that raises leaves the state file as it was: the watermark is
    written only after [send_email] has returned. *)
Lemma failed_cycle_keeps_watermark (j : job) (w w' : world string) (W : Z) (e : exn) :
  stores w W -> 0 <= W ->
  cycle build_prompt fallback_summary render_email_html j w = (Raise e, w') ->
  store w' = store w.
Proof.
  intros Hs HW Hrun.
  destruct (cycle_effect j w W Hs HW) as (o & w1 & delta & Hc & _ & _ & Heff).
  rewrite Hrun in Hc. injection Hc as <- <-.
  destruct Heff as [[H _] | [H _]]; [exact H | discriminate].
Qed.

Lemma cycle_tracks (counts : event -> bool) (j : job) (w : world string) (W : Z) :
  sound_for counts j ->
  tracks counts w W ->
  exists W' delta,
    let w' := snd (cycle build_prompt fallback_summary render_email_html j w) in
    trace w' = trace w ++ delta
    /\ W <= W'
    /\ tracks counts w' W'
    /\ (forall r, r ∈ fetched_rows delta -> W < ErrorID r).
Proof.
  intros Hsound (Hs & HW & Htr).
  destruct (cycle_effect j w W Hs HW) as (o & w' & delta & -> & Hdelta & Hf & Heff).
  cbn [snd].
  assert (Hrep : exists rep,
             (forall cur, reported_from counts cur delta = rep)
             /\ ((rep = [] /\ store w' = store w)
                 \/ (rep <> [] /\ (forall r, r ∈ rep -> W < ErrorID r)
                     /\ store w' = <[AiAgent.last_error_id := str_of_int (max_id rep)]> (store w)))).
  { destruct Heff as [(Hst & Hh & Hd) | (_ & rows & Hne & Hab & Hst & Hh & Hd)].
    - exists []. split; [|now left].
      destruct Hsound as [-> | [-> _]]; assumption.
    - exists rows. split; [|right; done].
      destruct Hsound as [-> | [-> Hc]]; [assumption|].
      intros cur. rewrite Hd, Hc. reflexivity. }
  destruct Hrep as (rep & Hrep & Hcase).
  assert (Htotal : reported_from counts [] (trace w')
                   = reported_from counts [] (trace w) ++ rep).
  { rewrite Hdelta, reported_from_app, Hrep. reflexivity. }
  destruct Hcase as [[-> Hst] | (Hne & Hab & Hst)].
  - exists W, delta. repeat split; try done; try lia.
    + destruct Hs as [H | [H ->]]; [left | right]; now rewrite Hst.
    + now rewrite Htotal, app_nil_r.
  - pose proof (max_id_above W rep Hne Hab) as Hmax.
    exists (max_id rep), delta. repeat split; try done; try lia.
    + left. rewrite Hst. apply lookup_insert_eq.
    + rewrite Htotal, max_id_app, <- Htr. lia.
Qed.

Lemma run_cycles_cons (j : job) (sched : list job) (w : world string) :
  run_cycles build_prompt fallback_summary render_email_html (j :: sched) w
  = run_cycles build_prompt fallback_summary render_email_html sched
      (snd (cycle build_prompt fallback_summary render_email_html j w)).
Proof. reflexivity. Qed.

Lemma run_cycles_app (s1 s2 : list job) (w : world string) :
  run_cycles build_prompt fallback_summary render_email_html (s1 ++ s2) w
  = run_cycles build_prompt fallback_summary render_email_html s2
      (run_cycles build_prompt fallback_summary render_email_html s1 w).
Proof. apply foldl_app. Qed.

(** Any run of cycles. *)
Lemma run_tracks (counts : event -> bool) (sched : list job) :
  Forall (sound_for counts) sched ->
  forall (w : world string) (W : Z),
    tracks counts w W ->
    exists W' delta,
      let w' := run_cycles build_prompt fallback_summary render_email_html sched w in
      trace w' = trace w ++ delta
      /\ W <= W'
      /\ tracks counts w' W'
      /\ (forall r, r ∈ fetched_rows delta -> W < ErrorID r).
Proof.
  induction 1 as [|j sched Hj _ IH]; intros w W Hw.
  - exists W, []. cbn. rewrite app_nil_r.
    split; [reflexivity|]. split; [lia|]. split; [exact Hw|].
    intros r Hr. now apply elem_of_nil in Hr.
  - destruct (cycle_tracks counts j w W Hj Hw) as (W1 & d1 & Htr1 & Hle1 & Hw1 & Hf1).
    destruct (IH _ _ Hw1) as (W2 & d2 & Htr2 & Hle2 & Hw2 & Hf2).
    exists W2, (d1 ++ d2). rewrite run_cycles_cons. cbn zeta in *.
    split; [|split; [lia|split; [exact Hw2|]]].
    + now rewrite Htr2, Htr1, app_assoc.
    + intros r. rewrite fetched_rows_app, elem_of_app.
      intros [Hr | Hr]; [now apply Hf1|]. specialize (Hf2 r Hr). lia.
Qed.

Lemma tracks_initial (counts : event -> bool) : tracks counts initial 0.
Proof. repeat split; try done. right. split; [apply lookup_empty | reflexivity]. Qed.

Lemma always_sound (sched : list job) : Forall (sound_for is_handed_over) sched.
Proof. apply Forall_forall. intros x _. now left. Qed.

End Rendering.

End Cycle.

(** ** What a delivered report contains *)

Section ReportContent.
Import Poller.

Ltac in_trace H :=
  cbn [trace] in H; rewrite ?elem_of_app, ?elem_of_cons, ?elem_of_nil in H;
  repeat match type of H with
         | _ \/ _ => destruct H as [H | H]
         end; try discriminate H; try contradiction; auto.

(** What [agent.py] delivers is the report built from the rows it has just
    fetched. *)
Lemma agent_delivers_fetched_rows (cfg : smtp_config) (env : cycle_env)
    (w w' : world string) (W : Z) (o : outcome unit) (subject body : string) :
  stores w W ->
  Agent.main cfg env w = (o, w') ->
  EvSmtpDelivered subject body ∈ trace w' ->
  EvSmtpDelivered subject body ∈ trace w
  \/ exists table sets,
       errorlog env = Some table
       /\ healthcheck env = Some sets
       /\ Agent.html_report (utcnow env) (select_new_errors table W) (collect_issues sets)
          = Return (Some body).
Proof.
  intros Hs.
  unfold Agent.main, Agent.get_state, Agent.set_state, Agent.send_email, fetch_new_errors,
    run_health_check, smtp_session, bind, ret, raise, lift, Db.emit.
  cbn [store trace]. rewrite (stores_read_agent w W Hs).
  destruct (errorlog env) as [table|]; [|intros [= <- <-] H; in_trace H].
  destruct (healthcheck env) as [sets|]; cbn [store trace];
    [|intros [= <- <-] H; in_trace H].
  destruct (Agent.html_report (utcnow env) (select_new_errors table W) (collect_issues sets))
    as [[html|]|e] eqn:Hhtml; [| |intros [= <- <-] H; in_trace H].
  - rewrite (html_report_truthy _ _ _ _ Hhtml). cbn [default].
    destruct (last_row (select_new_errors table W));
      (destruct (Agent.smtp_configured cfg); cbn [negb store trace];
       [destruct (smtp_accepts env); cbn [store trace]|]);
      intros [= <- <-] H; in_trace H;
      injection H as -> ->; right; eauto.
  - cbn [Agent.html_truthy]. destruct (last_row (select_new_errors table W));
      intros [= <- <-] H; in_trace H.
Qed.

End ReportContent.

(** ** Sequences of cycles *)

Section Watermark.
Import Poller.

Variable build_prompt : list ErrorRow -> list tuple -> string.
Variable fallback_summary : list ErrorRow -> list tuple -> string.
Variable render_email_html : string -> list ErrorRow -> list tuple -> string.

Local Abbreviation cycles := (run_cycles build_prompt fallback_summary render_email_html).

(** C6 (amended). After any sequence of cycles of [agent.py] and
    [ai_agent.py] started on an empty state file, the stored watermark
    never decreases and is the largest id of the rows fetched in a cycle
    whose [send_email] call came back without raising (message delivered, or
    skipped with a warning because the SMTP settings are incomplete), 0 if
    there is none; when the settings are complete in every cycle of the
    run it is the largest id of the rows of a delivered report. *)
Theorem watermark_tracks_reports (sched : list job) :
  let w := cycles sched initial in
  watermark w = Return (max_id (handed_over_rows (trace w)))
  /\ (forall j, exists W W',
        watermark w = Return W
        /\ watermark (cycles (sched ++ [j]) initial) = Return W'
        /\ W <= W')
  /\ (Forall (fun j => configured_for j = true) sched ->
      watermark w = Return (max_id (delivered_rows (trace w)))).
Proof.
  cbn zeta.
  destruct (run_tracks build_prompt fallback_summary render_email_html is_handed_over
              sched (always_sound sched) initial 0 (tracks_initial _))
    as (W & delta & Htr & _ & Hw & _).
  cbn zeta in *. split; [|split].
  - destruct Hw as (Hs & _ & HW). rewrite (stores_watermark _ _ Hs). now rewrite HW at 1.
  - intros j. rewrite run_cycles_app.
    destruct (run_tracks build_prompt fallback_summary render_email_html is_handed_over
                [j] (always_sound _) _ W Hw) as (W' & d' & _ & Hle & Hw' & _).
    cbn zeta in *. exists W, W'. repeat split; try lia.
    + apply stores_watermark, Hw.
    + apply stores_watermark, Hw'.
  - intros Hcfg.
    assert (Hsound : Forall (sound_for is_delivered) sched).
    { eapply Forall_impl; [exact Hcfg|]. intros x Hx. right. now split. }
    destruct (run_tracks build_prompt fallback_summary render_email_html is_delivered
                sched Hsound initial 0 (tracks_initial _))
      as (Wd & dd & _ & _ & (Hs & _ & HW) & _).
    cbn zeta in *. rewrite (stores_watermark _ _ Hs). now rewrite HW at 1.
Qed.

End Watermark.

Section WatermarkScenarios.
Import Poller.

Lemma watermark_tracks_reports_witness :
  let w := run_cycles Scenario.prompt_text Scenario.summary_text Scenario.body_text
             [mkJob Scenario.smtp_complete AgentMain (Scenario.env_of Scenario.ids_12_14 true);
              mkJob Scenario.smtp_complete (AiRunOnce false)
                    (Scenario.env_of Scenario.ids_101_105 false);
              mkJob Scenario.smtp_complete (AiRunOnce false)
                    (Scenario.env_of Scenario.ids_101_105 true)] initial in
  watermark w = Return (max_id (delivered_rows (trace w))).
Proof.
  apply (proj2 (proj2 (watermark_tracks_reports Scenario.prompt_text Scenario.summary_text
                         Scenario.body_text _))).
  repeat constructor.
Defined.

(** Watermark 0, rows 12 to 14, nothing from the health check, delivery
    succeeds: the watermark becomes 14 and the three rows are reported. *)
Example first_delivery :
  let w := run_cycles Scenario.prompt_text Scenario.summary_text Scenario.body_text
             [mkJob Scenario.smtp_complete AgentMain (Scenario.env_of Scenario.ids_12_14 true)]
             initial in
  watermark w = Return 14
  /\ delivered_rows (trace w) = Scenario.ids_12_14
  /\ map (fun r => bind_outcome (Agent.classify_and_plan r) (fun p => Return (fst p)))
         Scenario.ids_12_14
     = [Return "P2"; Return "P3"; Return "P2"].
Proof. vm_compute. repeat split. Qed.

(** C6 as stated fails: with incomplete SMTP settings a cycle of [agent.py]
    that fetches the rows 12, 13 and 14 stores 14 although no report was
    ever delivered. *)
Lemma watermark_exceeds_delivered :
  let w := run_cycles Scenario.prompt_text Scenario.summary_text Scenario.body_text
             [mkJob Scenario.smtp_missing AgentMain (Scenario.env_of Scenario.ids_12_14 true)]
             initial in
  watermark w = Return 14
  /\ delivered_rows (trace w) = []
  /\ watermark w <> Return (max_id (delivered_rows (trace w))).
Proof. vm_compute. repeat split; discriminate. Qed.

End WatermarkScenarios.

(** ** Incomplete SMTP settings *)

Section Unconfigured.
Import Poller.

Variable build_prompt : list ErrorRow -> list tuple -> string.
Variable fallback_summary : list ErrorRow -> list tuple -> string.
Variable render_email_html : string -> list ErrorRow -> list tuple -> string.

Local Abbreviation cycles := (run_cycles build_prompt fallback_summary render_email_html).
Local Abbreviation one_cycle := (cycle build_prompt fallback_summary render_email_html).

Ltac skipped :=
  eexists _, _; split; [reflexivity|];
  split; [cbn [trace]; rewrite <- ?app_assoc; reflexivity|];
  split; [cbn [app]; rewrite !elem_of_cons; tauto|];
  split; [reflexivity|].

Lemma agent_unconfigured (cfg : smtp_config) (env : cycle_env) (w : world string) (W : Z)
    (table : list ErrorRow) (sets : list (option (list tuple))) :
  stores w W -> 0 <= W ->
  Agent.smtp_configured cfg = false ->
  errorlog env = Some table ->
  healthcheck env = Some sets ->
  select_new_errors table W <> [] ->
  Forall int_coded (select_new_errors table W) ->
  exists w' delta,
    Agent.main cfg env w = (Return tt, w')
    /\ trace w' = trace w ++ delta
    /\ EvSmtpSkipped ∈ delta
    /\ deliveries delta = []
    /\ stores w' (max_id (select_new_errors table W)).
Proof.
  intros Hs HW Hcfg Hlog Hhealth Hne Hcoded.
  unfold Agent.main, Agent.get_state, Agent.set_state, Agent.send_email, fetch_new_errors,
    run_health_check, smtp_session, bind, ret, raise, lift, Db.emit.
  cbn [store trace]. rewrite (stores_read_agent w W Hs), Hlog, Hhealth, Hcfg.
  pose proof (select_new_errors_above table W) as Habove.
  pose proof (select_new_errors_sorted table W) as Hsorted.
  set (rows := select_new_errors table W) in *. clearbody rows.
  set (issues := collect_issues sets). clearbody issues.
  cbn [store trace negb].
  destruct (html_report_int_coded (utcnow env) rows issues Hcoded) as [[html|] Hhtml];
    [|apply html_report_none in Hhtml as [? _]; contradiction].
  rewrite Hhtml, (html_report_truthy _ _ _ _ Hhtml). cbn [default store trace].
  destruct (last_row_nonempty rows Hne) as (r & Hlast & _). rewrite Hlast.
  rewrite (last_row_max_id rows r Hsorted) by
    (try exact Hlast; intros x Hx; specialize (Habove x Hx); lia).
  skipped. apply stores_insert.
Qed.

Lemma ai_unconfigured (cfg : smtp_config) (idle : bool) (env : cycle_env)
    (w : world string) (W : Z) (table : list ErrorRow) (sets : list (option (list tuple))) :
  stores w W -> 0 <= W ->
  AiAgent.smtp_configured cfg = false ->
  errorlog env = Some table ->
  healthcheck env = Some sets ->
  select_new_errors table W <> [] ->
  exists w' delta,
    AiAgent.run_once build_prompt fallback_summary render_email_html cfg idle env w
    = (Return tt, w')
    /\ trace w' = trace w ++ delta
    /\ EvSmtpSkipped ∈ delta
    /\ deliveries delta = []
    /\ stores w' (max_id (select_new_errors table W)).
Proof.
  intros Hs HW Hcfg Hlog Hhealth Hne.
  unfold AiAgent.run_once, AiAgent.state_init, bind at 1 2, ret at 1.
  rewrite (stores_read_ai w W Hs).
  unfold AiAgent.update_if_changed, AiAgent.state_set_last_id, AiAgent.send_email,
    fetch_new_errors, run_health_check, smtp_session, bind, ret, raise, lift, Db.emit.
  rewrite Hlog, Hhealth, Hcfg.
  pose proof (select_new_errors_above table W) as Habove.
  set (rows := select_new_errors table W) in *. clearbody rows.
  set (issues := collect_issues sets). clearbody issues.
  destruct rows as [|r rest]; [done|].
  assert (Hr : W < ErrorID r) by (apply Habove; now left).
  rewrite max_error_id_max_id by lia.
  pose proof (max_id_above W (r :: rest) ltac:(done) Habove) as Hmax.
  replace (max_id (r :: rest) =? W) with false by (symmetry; apply Z.eqb_neq; lia).
  cbn [is_empty andb negb store trace].
  skipped. apply stores_insert.
Qed.

Lemma stores_unique (w : world string) (a b : Z) : stores w a -> stores w b -> a = b.
Proof.
  intros Ha Hb. apply stores_watermark in Ha, Hb. congruence.
Qed.

(** C10. With incomplete SMTP settings [send_email] returns without
    sending; a cycle that fetched rows then ends normally with the watermark
    at their largest id, and no later cycle, whatever its settings, fetches
    (hence reports) any of them. *)
Theorem unconfigured_smtp_loses_rows (prior later : list job) (j : job) (W : Z)
    (table : list ErrorRow) (sets : list (option (list tuple))) :
  let w := cycles prior initial in
  let rows := select_new_errors table W in
  watermark w = Return W ->
  configured_for j = false ->
  errorlog (outside j) = Some table ->
  healthcheck (outside j) = Some sets ->
  rows <> [] ->
  Forall int_coded rows ->
  exists w' delta,
    one_cycle j w = (Return tt, w')
    /\ trace w' = trace w ++ delta
    /\ EvSmtpSkipped ∈ delta
    /\ deliveries delta = []
    /\ watermark w' = Return (max_id rows)
    /\ exists delta',
         trace (cycles later w') = trace w' ++ delta'
         /\ forall r r', r ∈ rows -> r' ∈ fetched_rows delta' -> ErrorID r < ErrorID r'.
Proof.
  cbn zeta. intros HW Hcfg Hlog Hhealth Hne Hcoded.
  destruct (run_tracks build_prompt fallback_summary render_email_html is_handed_over
              prior (always_sound prior) initial 0 (tracks_initial _))
    as (W0 & d0 & _ & _ & Hw & _).
  cbn zeta in Hw.
  set (w := cycles prior initial) in *.
  assert (W0 = W) as ->.
  { destruct Hw as (Hs & _). apply stores_watermark in Hs. congruence. }
  destruct (cycle_tracks build_prompt fallback_summary render_email_html is_handed_over
              j w W ltac:(now left) Hw) as (W1 & d1 & _ & _ & Hw1 & _).
  cbn zeta in Hw1.
  destruct Hw as (Hs & HW0 & _).
  assert (Hrun : exists w' delta,
             one_cycle j w = (Return tt, w')
             /\ trace w' = trace w ++ delta
             /\ EvSmtpSkipped ∈ delta
             /\ deliveries delta = []
             /\ stores w' (max_id (select_new_errors table W))).
  { destruct j as [cfg [|idle] env]; unfold cycle, configured_for in *;
      cbn [settings entry_point outside] in *.
    - now apply (agent_unconfigured cfg env w W table sets).
    - now apply (ai_unconfigured cfg idle env w W table sets). }
  destruct Hrun as (w' & delta & Hrun & Htr & Hskip & Hdel & Hst).
  rewrite Hrun in Hw1. cbn [snd] in Hw1.
  assert (W1 = max_id (select_new_errors table W)) as ->
    by (destruct Hw1 as (Hs1 & _); exact (stores_unique w' _ _ Hs1 Hst)).
  exists w', delta. repeat split; try done.
  - now apply stores_watermark.
  - destruct (run_tracks build_prompt fallback_summary render_email_html is_handed_over
                later (always_sound later) w' _ Hw1) as (W2 & d2 & Htr2 & _ & _ & Hf2).
    exists d2. split; [exact Htr2|].
    intros r r' Hr Hr'. specialize (Hf2 r' Hr').
    pose proof (max_id_ge _ r Hr). lia.
Qed.

End Unconfigured.

Section UnconfiguredScenario.
Import Poller.

Lemma unconfigured_smtp_loses_rows_witness :
  let j := mkJob Scenario.smtp_missing AgentMain (Scenario.env_of Scenario.ids_12_14 true) in
  let later := [mkJob Scenario.smtp_missing (AiRunOnce true)
                      (Scenario.env_of Scenario.ids_12_14 true);
                mkJob Scenario.smtp_complete AgentMain
                      (Scenario.env_of (Scenario.ids_12_14 ++ Scenario.ids_101_105) true)] in
  let w := run_cycles Scenario.prompt_text Scenario.summary_text Scenario.body_text
             [] initial in
  exists w' delta,
    cycle Scenario.prompt_text Scenario.summary_text Scenario.body_text j w = (Return tt, w')
    /\ trace w' = trace w ++ delta
    /\ EvSmtpSkipped ∈ delta
    /\ deliveries delta = []
    /\ watermark w' = Return (max_id (select_new_errors Scenario.ids_12_14 0))
    /\ exists delta',
         trace (run_cycles Scenario.prompt_text Scenario.summary_text Scenario.body_text
                  later w')
         = trace w' ++ delta'
         /\ forall r r',
              r ∈ select_new_errors Scenario.ids_12_14 0 ->
              r' ∈ fetched_rows delta' -> ErrorID r < ErrorID r'.
Proof.
  cbn zeta.
  apply (unconfigured_smtp_loses_rows Scenario.prompt_text Scenario.summary_text
           Scenario.body_text []
           [mkJob Scenario.smtp_missing (AiRunOnce true)
                  (Scenario.env_of Scenario.ids_12_14 true);
            mkJob Scenario.smtp_complete AgentMain
                  (Scenario.env_of (Scenario.ids_12_14 ++ Scenario.ids_101_105) true)]
           (mkJob Scenario.smtp_missing AgentMain (Scenario.env_of Scenario.ids_12_14 true))
           0 Scenario.ids_12_14 [Some []]).
  - reflexivity.
  - reflexivity.
  - reflexivity.
  - reflexivity.
  - vm_compute. discriminate.
  - vm_compute. repeat constructor.
Defined.

(** The later cycle with complete settings delivers the rows 101 to 105
    only: the rows 12 to 14 stay unreported. *)
Example rows_12_14_never_delivered :
  let w := run_cycles Scenario.prompt_text Scenario.summary_text Scenario.body_text
             [mkJob Scenario.smtp_missing AgentMain (Scenario.env_of Scenario.ids_12_14 true);
              mkJob Scenario.smtp_complete AgentMain
                    (Scenario.env_of (Scenario.ids_12_14 ++ Scenario.ids_101_105) true)]
             initial in
  delivered_rows (trace w) = Scenario.ids_101_105
  /\ watermark w = Return 105.
Proof. vm_compute. split; reflexivity. Qed.

End UnconfiguredScenario.

(** ** Nothing to report *)

Section Idle.
Import Poller.

Lemma watermark_read_agent (w : world string) (W : Z) :
  watermark w = Return W ->
  int_of_str (match store w !! Agent.last_error_id with Some v => v | None => "0" end)
  = Return W.
Proof.
  unfold watermark, AiAgent.state_get_last_id.
  change Agent.last_error_id with AiAgent.last_error_id.
  destruct (store w !! AiAgent.last_error_id); simpl; [done|].
  intros [= <-]. reflexivity.
Qed.

(** C7. The report builder returns [None] exactly when there are neither
    new errors nor health findings; in that case the cycle does not call
    [send_email] and leaves the state file as it was. *)
Theorem empty_report_skips_delivery :
  (forall (now : string) (rows : list ErrorRow) (issues : list tuple),
      Agent.html_report now rows issues = Return None <-> rows = [] /\ issues = [])
  /\ (forall (cfg : smtp_config) (env : cycle_env) (w : world string) (W : Z)
        (table : list ErrorRow) (sets : list (option (list tuple))),
        watermark w = Return W ->
        errorlog env = Some table ->
        select_new_errors table W = [] ->
        healthcheck env = Some sets ->
        collect_issues sets = [] ->
        exists w' delta,
          Agent.main cfg env w = (Return tt, w')
          /\ store w' = store w
          /\ trace w' = trace w ++ delta
          /\ delta = [EvLog "Agent start"; EvFetch W []; EvHealthCheck []; EvLog "Agent done"]
          /\ send_calls delta = 0%nat
          /\ deliveries delta = []).
Proof.
  split; [apply html_report_none|].
  intros cfg env w W table sets HW Hlog Hrows Hhealth Hissues.
  unfold Agent.main, Agent.get_state, Agent.set_state, Agent.send_email, fetch_new_errors,
    run_health_check, smtp_session, bind, ret, raise, lift, Db.emit.
  cbn [store trace].
  rewrite (watermark_read_agent w W HW), Hlog, Hhealth, Hrows, Hissues.
  cbn [store trace]. rewrite (proj2 (html_report_none (utcnow env) [] []) (conj eq_refl eq_refl)).
  cbn [Agent.html_truthy last_row last store trace].
  eexists _, _. split; [reflexivity|]. split; [reflexivity|].
  split; [cbn [trace]; rewrite <- !app_assoc; reflexivity|].
  repeat split.
Qed.

Lemma empty_report_skips_delivery_witness :
  exists w' delta,
    Agent.main Scenario.smtp_complete (Scenario.env_of Scenario.ids_12_14 true)
      Scenario.seen_14 = (Return tt, w')
    /\ store w' = store Scenario.seen_14
    /\ trace w' = trace Scenario.seen_14 ++ delta
    /\ delta = [EvLog "Agent start"; EvFetch 14 []; EvHealthCheck []; EvLog "Agent done"]
    /\ send_calls delta = 0%nat
    /\ deliveries delta = [].
Proof.
  apply (proj2 empty_report_skips_delivery Scenario.smtp_complete
           (Scenario.env_of Scenario.ids_12_14 true)
           Scenario.seen_14 14 Scenario.ids_12_14 [Some []]);
    reflexivity.
Defined.

End Idle.

(** ** Delivery failures *)

Section FailedDelivery.
Import Poller.

(** [agent.py]: a cycle whose SMTP session raises stores nothing, and the
    next cycle fetches the same rows and delivers them. *)
Example agent_refetches_after_failure :
  let w := run_cycles Scenario.prompt_text Scenario.summary_text Scenario.body_text
             [mkJob Scenario.smtp_complete AgentMain
                    (Scenario.env_of Scenario.ids_101_105 false)] initial in
  let w' := run_cycles Scenario.prompt_text Scenario.summary_text Scenario.body_text
              [mkJob Scenario.smtp_complete AgentMain
                     (Scenario.env_of Scenario.ids_101_105 true)] w in
  store w = ∅
  /\ fetched_rows (trace w) = Scenario.ids_101_105
  /\ fetched_rows (trace w') = Scenario.ids_101_105 ++ Scenario.ids_101_105
  /\ delivered_rows (trace w') = Scenario.ids_101_105
  /\ watermark w' = Return 105.
Proof. vm_compute. repeat split. Qed.

(** C1, at the failing input.  [monitor_errors.py] stores the watermark
    right after the fetch: when the SMTP session then raises, the state file
    already holds 105, and the next cycle fetches nothing, so the rows 101
    to 105 are never delivered. *)
Theorem monitor_advances_before_delivery :
  let env := Scenario.env_of Scenario.ids_101_105 false in
  let first := Monitor.main Scenario.tuple_text Scenario.smtp_complete env (mkWorld ∅ []) in
  let second := Monitor.main Scenario.tuple_text Scenario.smtp_complete env (snd first) in
  fst first = Raise SMTPException
  /\ store (snd first) !! Monitor.last_error_id = Some 105
  /\ fetched_rows (trace (snd first)) = Scenario.ids_101_105
  /\ deliveries (trace (snd first)) = []
  /\ fst second = Return tt
  /\ fetched_rows (trace (snd second)) = Scenario.ids_101_105
  /\ deliveries (trace (snd second)) = [].
Proof. vm_compute. repeat split. Qed.

End FailedDelivery.

(** * Further properties *)

(** ** Escaping *)

Section Escaping.
Import PyText AiHtml.

Local Arguments String.append : simpl nomatch.

Lemma append_assoc (a b c : string) : (a +:+ b) +:+ c = a +:+ (b +:+ c).
Proof. induction a as [|x a IH]; simpl; [reflexivity | now rewrite IH]. Qed.

Lemma append_nil_r (a : string) : a +:+ EmptyString = a.
Proof. induction a as [|x a IH]; simpl; [reflexivity | now rewrite IH]. Qed.

Lemma replace_with_app (old : ascii) (new a b : string) :
  replace_with old new (a +:+ b) = replace_with old new a +:+ replace_with old new b.
Proof.
  induction a as [|c a IH]; simpl; [reflexivity|].
  rewrite IH. destruct (Ascii.eqb c old).
  - now rewrite append_assoc.
  - reflexivity.
Qed.

Lemma html_escape_app (a b : string) :
  html_escape (a +:+ b) = html_escape a +:+ html_escape b.
Proof. unfold html_escape. now rewrite !replace_with_app. Qed.

Lemma html_escape_char (c : ascii) :
  html_escape (String c EmptyString) = escape_char c.
Proof.
  unfold html_escape, escape_char.
  destruct (Ascii.eqb_spec c "&") as [->|H1]; [reflexivity|].
  destruct (Ascii.eqb_spec c "<") as [->|H2]; [reflexivity|].
  destruct (Ascii.eqb_spec c ">") as [->|H3]; [reflexivity|].
  destruct (Ascii.eqb_spec c quote) as [->|H4]; [reflexivity|].
  destruct (Ascii.eqb_spec c "'") as [->|H5]; [reflexivity|].
  apply Ascii.eqb_neq in H1, H2, H3, H4, H5.
  cbn [replace_with append]. rewrite H1. cbn [replace_with append]. rewrite H2.
  cbn [replace_with append]. rewrite H3. cbn [replace_with append]. rewrite H4.
  cbn [replace_with append]. now rewrite H5.
Qed.

(** X1. The five passes of [html_escape] amount to one pass that replaces each
    character by its entity: no entity written by an earlier pass is
    escaped again by a later one. *)
Theorem html_escape_each (s : string) : html_escape s = escape_each s.
Proof.
  induction s as [|c s IH]; [reflexivity|].
  change (String c s) with (String c EmptyString +:+ s).
  rewrite html_escape_app, html_escape_char, IH. reflexivity.
Qed.

Lemma occurs_app (c : ascii) (a b : string) :
  occurs c (a +:+ b) = occurs c a || occurs c b.
Proof.
  induction a as [|x a IH]; simpl; [reflexivity|]. rewrite IH. apply orb_assoc.
Qed.

Lemma escape_char_no_markup (c x : ascii) :
  is_markup x = true -> occurs x (escape_char c) = false.
Proof.
  unfold is_markup. rewrite !orb_true_iff, !Ascii.eqb_eq.
  unfold escape_char.
  intros [[[-> | ->] | ->] | ->];
    repeat match goal with
           | |- context [Ascii.eqb c ?k] => destruct (Ascii.eqb_spec c k) as [->|?]
           end; try reflexivity; simpl; rewrite orb_false_r; now apply Ascii.eqb_neq.
Qed.

(** X2. The result of [html_escape] holds none of the characters
    [<], [>], double quote and apostrophe. *)
Theorem html_escape_no_markup (s : string) (x : ascii) :
  is_markup x = true -> occurs x (html_escape s) = false.
Proof.
  intros Hx. induction s as [|c s IH]; [reflexivity|].
  change (String c s) with (String c EmptyString +:+ s).
  now rewrite html_escape_app, html_escape_char, occurs_app,
    (escape_char_no_markup c x Hx), IH.
Qed.

Lemma html_escape_no_markup_witness :
  occurs "<" (html_escape "<b>Tom & 'Jerry'</b>") = false.
Proof. apply (html_escape_no_markup "<b>Tom & 'Jerry'</b>" "<"). reflexivity. Defined.

End Escaping.

(** ** Codes in error texts *)

Section CodesInText.
Import Main ErrorText.

Local Arguments String.append : simpl nomatch.

Lemma all_chars_uint (P : ascii -> bool) (d : Decimal.uint) :
  P "0"%char = true -> P "1"%char = true -> P "2"%char = true -> P "3"%char = true ->
  P "4"%char = true -> P "5"%char = true -> P "6"%char = true -> P "7"%char = true ->
  P "8"%char = true -> P "9"%char = true ->
  all_chars P (NilEmpty.string_of_uint d) = true.
Proof.
  intros H0 H1 H2 H3 H4 H5 H6 H7 H8 H9.
  induction d; simpl; rewrite ?IHd, ?H0, ?H1, ?H2, ?H3, ?H4, ?H5, ?H6, ?H7, ?H8, ?H9;
    reflexivity.
Qed.

(** The decimal text of a non-negative integer: a character, then more. *)
Lemma str_of_int_nonneg (P : ascii -> bool) (z : Z) :
  0 <= z ->
  P "0"%char = true -> P "1"%char = true -> P "2"%char = true -> P "3"%char = true ->
  P "4"%char = true -> P "5"%char = true -> P "6"%char = true -> P "7"%char = true ->
  P "8"%char = true -> P "9"%char = true ->
  exists c s, str_of_int z = String c s /\ all_chars P (String c s) = true.
Proof.
  intros Hz H0 H1 H2 H3 H4 H5 H6 H7 H8 H9.
  unfold str_of_int. destruct z as [|p|p]; [| |lia].
  - exists "0"%char, EmptyString. simpl. now rewrite H0.
  - simpl. pose proof (Unsigned.to_uint_nonnil p) as Hnn.
    pose proof (all_chars_uint P (Pos.to_uint p) H0 H1 H2 H3 H4 H5 H6 H7 H8 H9) as Hall.
    unfold NilZero.string_of_uint.
    destruct (Pos.to_uint p) eqn:E; try contradiction;
      simpl in *; eexists _, _; (split; [reflexivity|]); exact Hall.
Qed.

Lemma isdigit_str_of_int (z : Z) : 0 <= z -> Py.isdigit (str_of_int z) = true.
Proof.
  intros Hz.
  destruct (str_of_int_nonneg char_isdigit z Hz) as (c & s & -> & H); try reflexivity.
  exact H.
Qed.

Lemma isdigit_str_of_int_neg (z : Z) : z < 0 -> Py.isdigit (str_of_int z) = false.
Proof. destruct z as [|p|p]; try lia. reflexivity. Qed.

(** A token of digits is read as a non-negative number. *)
Lemma int_of_digits_nonneg (tok : string) (n : Z) :
  Py.isdigit tok = true -> int_of_str tok = Return n -> 0 <= n.
Proof.
  unfold int_of_str, int_literal.
  destruct tok as [|a s]; [discriminate|].
  intros Hd. cbn [Py.isdigit all_chars] in Hd. apply andb_true_iff in Hd as [Ha _].
  apply digit_not_layout in Ha as (Hsp & Hminus & Hplus & _).
  cbn [skip_leading]. rewrite Hsp.
  destruct (skip_trailing (String a s)) as [|c r] eqn:Htrim; [discriminate|].
  assert (c = a) as ->.
  { cbn [skip_trailing] in Htrim. destruct (skip_trailing s); [|congruence].
    destruct (char_isspace_int a); congruence. }
  rewrite Hminus, Hplus.
  destruct (digits_of (String a r)) as [literal|] eqn:Hlit; [|discriminate].
  assert (Hhead : exists t, literal = String a t).
  { cbn [digits_of] in Hlit. destruct (is_ascii_digit a); [|discriminate].
    destruct (after_digit r) as [t|]; [|discriminate]. injection Hlit as <-. eauto. }
  destruct Hhead as [t ->].
  unfold NilZero.int_of_string. rewrite Hminus.
  destruct (NilZero.uint_of_string (String a t)) as [d|]; [|discriminate].
  simpl. intros [= <-]. unfold Z.of_uint. apply N2Z.is_nonneg.
Qed.

Lemma scan_tokens_nonneg (toks : list string) (n : Z) :
  scan_tokens toks = Return (Some n) -> 0 <= n.
Proof.
  induction toks as [|tok rest IH]; simpl; [discriminate|].
  destruct (Py.isdigit tok) eqn:Hd; [|exact IH].
  destruct (int_of_str tok) as [m|e] eqn:Hm; simpl; [|discriminate].
  intros [= <-]. exact (int_of_digits_nonneg tok m Hd Hm).
Qed.

(** X3. [_extract_errnum] never yields a negative code: a minus sign is not
    part of a token of digits. *)
Theorem extract_errnum_nonneg (ex : exn) (n : Z) :
  _extract_errnum ex = Return (Some n) -> 0 <= n.
Proof.
  unfold _extract_errnum, try_except.
  destruct (scan_tokens _) as [r|e] eqn:H; [|discriminate].
  intros [= ->]. exact (scan_tokens_nonneg _ _ H).
Qed.

Lemma extract_errnum_nonneg_witness :
  0 <= 1205.
Proof.
  apply (extract_errnum_nonneg (PyodbcError [PyStr "deadlock victim #1205"]) 1205).
  reflexivity.
Defined.

Import Blanking.

Lemma blank_brackets_cons (c : ascii) (s : string) :
  blank_brackets (String c s) = String (blank_char c) (blank_brackets s).
Proof. reflexivity. Qed.

Lemma blank_brackets_app (a b : string) :
  blank_brackets (a +:+ b) = blank_brackets a +:+ blank_brackets b.
Proof.
  induction a as [|c a IH]; [reflexivity|].
  simpl String.append. now rewrite !blank_brackets_cons, IH.
Qed.

Lemma blank_char_cases (c : ascii) :
  (blank_char c = " "%char /\ is_delimiter c = true /\ char_isdigit c = false)
  \/ (blank_char c = c /\ is_delimiter c = char_isspace c).
Proof.
  unfold blank_char, is_delimiter. cbv zeta beta.
  destruct (Ascii.eqb_spec c "(") as [->|H1]; [left; now vm_compute|]. cbv iota.
  destruct (Ascii.eqb_spec c ")") as [->|H2]; [left; now vm_compute|]. cbv iota.
  destruct (Ascii.eqb_spec c "#") as [->|H3]; [left; now vm_compute|]. cbv iota.
  destruct (Ascii.eqb_spec c "[") as [->|H4]; [left; now vm_compute|]. cbv iota.
  destruct (Ascii.eqb_spec c "]") as [->|H5]; [left; now vm_compute|]. cbv iota.
  right. now rewrite !orb_false_r.
Qed.

Lemma blank_char_delimiter (c : ascii) :
  is_delimiter c = true -> char_isspace (blank_char c) = true.
Proof.
  destruct (blank_char_cases c) as [(E & _ & _) | (E & Hd)]; rewrite E; [reflexivity|].
  now rewrite Hd.
Qed.

Lemma blank_char_not_digit (c : ascii) :
  char_isdigit c = false -> char_isdigit (blank_char c) = false.
Proof.
  destruct (blank_char_cases c) as [(E & _ & _) | (E & _)]; rewrite E; [reflexivity | done].
Qed.

Lemma blank_brackets_fixed (s : string) :
  all_chars (fun c => Ascii.eqb (blank_char c) c) s = true -> blank_brackets s = s.
Proof.
  induction s as [|c s IH]; [reflexivity|].
  simpl. intros [Hc Hs]%andb_true_iff. apply Ascii.eqb_eq in Hc.
  now rewrite blank_brackets_cons, Hc, IH.
Qed.

Lemma isdigit_snoc_not_digit (t : string) (c : ascii) :
  char_isdigit c = false -> Py.isdigit (t +:+ String c EmptyString) = false.
Proof.
  intros Hc. unfold Py.isdigit.
  assert (H : all_chars char_isdigit (t +:+ String c EmptyString) = false).
  { induction t as [|x t IH]; simpl; [now rewrite Hc|]. rewrite IH. apply andb_false_r. }
  destruct (t +:+ String c EmptyString); [reflexivity | exact H].
Qed.

(** The part of the text before the code yields no token of digits. *)
Lemma scan_skips_digit_free (sp : ascii) (tail : string) :
  char_isspace sp = true ->
  forall (p : string) (cur : option string),
    all_chars (fun c => negb (char_isdigit c)) p = true ->
    match cur with Some t => Py.isdigit t = false | None => True end ->
    scan_tokens (split_from cur (p +:+ String sp tail))
    = scan_tokens (split_from None tail).
Proof.
  intros Hsp. induction p as [|c p IH]; intros cur Hp Hcur.
  - simpl. rewrite Hsp. destruct cur as [t|]; [|reflexivity].
    simpl. now rewrite Hcur.
  - simpl in Hp. apply andb_true_iff in Hp as [Hc Hp]. apply negb_true_iff in Hc.
    simpl. destruct (char_isspace c).
    + destruct cur as [t|]; [simpl; rewrite Hcur|]; now apply IH.
    + apply IH; [exact Hp|]. now apply isdigit_snoc_not_digit.
Qed.

(** The characters of the code are gathered into one token. *)
Lemma split_gathers (ds : string) :
  all_chars (fun c => negb (char_isspace c)) ds = true ->
  forall (acc rest : string),
    closes_token rest = true ->
    exists more,
      split_from (Some acc) (ds +:+ blank_brackets rest) = (acc +:+ ds) :: more.
Proof.
  induction ds as [|c ds IH]; intros Hds acc rest Hrest.
  - simpl. rewrite append_nil_r. destruct rest as [|d rest]; [now exists []|].
    rewrite blank_brackets_cons. simpl. simpl in Hrest.
    rewrite (blank_char_delimiter d Hrest). eauto.
  - simpl in Hds. apply andb_true_iff in Hds as [Hc Hds]. apply negb_true_iff in Hc.
    simpl. rewrite Hc. simpl.
    destruct (IH Hds (acc +:+ String c EmptyString) rest Hrest) as [more Hmore].
    exists more. rewrite Hmore. now rewrite append_assoc.
Qed.

(** X4. Round trip of a code through an error text: a non-negative code
    within the digits that [int] converts, written after a delimiter (a
    blank or one of [( ) # [ ]]) and followed by a delimiter or by the end of
    the text, is recovered, provided that no digit stands before it. *)
Theorem extract_errnum_recovers (z : Z) (pre rest : string) (d : ascii) :
  0 <= z < 10 ^ int_max_str_digits ->
  digit_free pre = true ->
  is_delimiter d = true ->
  closes_token rest = true ->
  _extract_errnum (PyodbcError [PyStr (pre +:+ String d (str_of_int z +:+ rest))])
  = Return (Some z).
Proof.
  intros [Hz _] Hpre Hd Hrest.
  unfold _extract_errnum, error_text, Py.split. cbn [args_of Py.str].
  rewrite blank_brackets_app, blank_brackets_cons, blank_brackets_app.
  rewrite scan_skips_digit_free; [|now apply blank_char_delimiter| |exact I].
  - destruct (str_of_int_nonneg (fun c => Ascii.eqb (blank_char c) c) z Hz)
      as (c0 & s0 & E0 & Hfix); try reflexivity.
    destruct (str_of_int_nonneg (fun c => negb (char_isspace c)) z Hz)
      as (c & s & E & Hns); try reflexivity.
    rewrite <- E0 in Hfix. rewrite (blank_brackets_fixed _ Hfix). rewrite E.
    simpl in Hns. apply andb_true_iff in Hns as [Hc Hs]. apply negb_true_iff in Hc.
    simpl. rewrite Hc.
    destruct (split_gathers s Hs (String c EmptyString) rest Hrest) as [more ->].
    simpl String.append. rewrite <- E. simpl.
    rewrite (isdigit_str_of_int z Hz), int_of_str_of_int. reflexivity.
  - clear -Hpre. unfold digit_free in Hpre.
    induction pre as [|c pre IH]; [reflexivity|].
    simpl in Hpre. apply andb_true_iff in Hpre as [Hc Hp]. apply negb_true_iff in Hc.
    rewrite blank_brackets_cons. simpl.
    now rewrite (blank_char_not_digit c Hc), IH.
Qed.

Lemma extract_errnum_recovers_witness :
  _extract_errnum
    (PyodbcError [PyStr ("Insufficient funds" +:+ String "(" (str_of_int 50003 +:+ ") raised"))])
  = Return (Some 50003).
Proof.
  apply (extract_errnum_recovers 50003 "Insufficient funds" ") raised" "(");
    [split; [lia | now apply Z.ltb_lt] | | |]; reflexivity.
Defined.

End CodesInText.

(** ** More on the classifier *)

Section ClassifierFacts.
Import Agent.

(** X5. [classify_and_plan] only ever grades a row P2 or P3: the grades P1 and
    INFO of its docstring are never produced. *)
Theorem classify_severity (r : ErrorRow) (sev plan : string) :
  classify_and_plan r = Return (sev, plan) -> sev = "P2" \/ sev = "P3".
Proof.
  unfold classify_and_plan.
  destruct (isinstance_int (ErrorNumber r) || Py.isdigit (Py.str (ErrorNumber r)));
    [destruct (Py.int (ErrorNumber r)) as [n|e]; [|discriminate]|];
    cbn [bind_outcome];
    repeat match goal with
           | |- context [if ?c then _ else _] => destruct c
           end; intros [= <- _]; auto.
Qed.

Lemma classify_severity_witness : "P3" = "P2" \/ "P3" = "P3".
Proof.
  apply (classify_severity (Scenario.row 13 50003) "P3" funds_plan). reflexivity.
Defined.

(** X6. An error number that arrives as its decimal text, within the
    digits that [int] converts, is classified like the number itself. *)
Theorem classify_numeric_text (z id : Z) (proc msg when : pyval) :
  z < 10 ^ int_max_str_digits ->
  classify_and_plan (mkRow id proc (PyStr (str_of_int z)) msg when)
  = classify_and_plan (mkRow id proc (PyInt z) msg when).
Proof.
  intros _. unfold classify_and_plan. cbn [ErrorNumber ProcName ErrorMessage isinstance_int Py.str Py.int orb].
  destruct (Z.lt_ge_cases z 0) as [Hneg | Hpos].
  - rewrite (isdigit_str_of_int_neg z Hneg). cbn [bind_outcome opt_eqb orb].
    repeat match goal with
           | |- context [(z =? ?k)] => destruct (Z.eqb_spec z k); [lia|]
           end.
    reflexivity.
  - now rewrite (isdigit_str_of_int z Hpos), int_of_str_of_int.
Qed.

Lemma classify_numeric_text_witness :
  classify_and_plan (mkRow 21 (PyStr "usp_Withdraw") (PyStr (str_of_int 50003))
                           (PyStr "Insufficient funds") PyNone)
  = classify_and_plan (mkRow 21 (PyStr "usp_Withdraw") (PyInt 50003)
                             (PyStr "Insufficient funds") PyNone).
Proof.
  apply (classify_numeric_text 50003 21 (PyStr "usp_Withdraw") (PyStr "Insufficient funds")
           PyNone).
  now apply Z.ltb_lt.
Defined.

End ClassifierFacts.

(** ** More on the retry wrapper *)

Section RetryFacts.
Import Main Cli RetryObs.

Lemma trace_record (e : event) (w : world) : trace (record e w) = trace w ++ [e].
Proof. reflexivity. Qed.

(** Whatever the wrapped function does, as long as it leaves the wrapper
    alone, a run of [with_retry] is one attempt followed by some retries,
    each after its linear wait; the retries number less than
    [max(1, max_attempts)]. *)
Lemma retry_loop_schedule {A} (fn : M world A) (max_attempts : Z) (base_delay : float) :
  quiet fn ->
  forall (fuel : nat) (attempt : Z) (w w' : world) (o : outcome A),
    retry_loop fuel max_attempts base_delay fn attempt w = Some (o, w') ->
    exists k delta,
      trace w' = trace w ++ delta
      /\ schedule delta = Attempt :: retries base_delay attempt k
      /\ (k = 0%nat \/ attempt + Z.of_nat k <= max_attempts).
Proof.
  intros Hq. induction fuel as [|fuel IH]; intros attempt w w' o Hrun; [discriminate|].
  rewrite retry_loop_step in Hrun.
  destruct (Hq (record EvCall w)) as (evs & Htr & Hevs).
  assert (Hstop : forall o1, fn (record EvCall w) = (o1, w') ->
            exists k delta, trace w' = trace w ++ delta
              /\ schedule delta = Attempt :: retries base_delay attempt k
              /\ (k = 0%nat \/ attempt + Z.of_nat k <= max_attempts)).
  { intros o1 E. rewrite E in Htr. cbn [snd] in Htr.
    exists 0%nat, (EvCall :: evs). split; [|split; [|now left]].
    - rewrite Htr, trace_record. now rewrite <- app_assoc.
    - simpl. now rewrite Hevs. }
  destruct (fn (record EvCall w)) as [[r|ex] w1] eqn:Efn.
  { injection Hrun as <- <-. eauto. }
  destruct (is_pyodbc_error ex); [|injection Hrun as <- <-; eauto].
  destruct (_extract_errnum ex) as [errnum|e]; [|injection Hrun as <- <-; eauto].
  destruct (code_in errnum TRANSIENT_ERRORS); cbn [andb] in Hrun;
    [|injection Hrun as <- <-; eauto].
  destruct (Z.ltb_spec attempt max_attempts) as [Hlt|Hge];
    [|injection Hrun as <- <-; eauto].
  apply IH in Hrun as (k & delta & Hd & Hsch & Hk).
  cbn [snd] in Htr. rewrite !trace_record in Hd.
  exists (S k),
    (EvCall :: evs
     ++ [EvPrint (LineRetry errnum (backoff base_delay attempt) (attempt + 1) max_attempts);
         EvSleep (backoff base_delay attempt)] ++ delta).
  split; [|split].
  - rewrite Hd, Htr, trace_record. simpl. now rewrite <- !app_assoc.
  - rewrite retries_succ. simpl. rewrite schedule_app, Hevs. simpl. now rewrite Hsch.
  - right. destruct Hk as [-> | Hk]; lia.
Qed.

(** X7. Whatever a wrapped function does, as long as it leaves the wrapper
    alone, [with_retry] returns, and its run is one attempt followed by
    [k] retries, each after the wait [base_delay * i] that follows the
    failed attempt [i]; at most [max(1, max_attempts)] attempts are made. *)
Theorem with_retry_schedule {A} (fn : M world A) (max_attempts : Z) (base_delay : float)
    (w : world) :
  quiet fn ->
  exists o w' k delta,
    with_retry max_attempts base_delay fn w = Some (o, w')
    /\ trace w' = trace w ++ delta
    /\ schedule delta = Attempt :: retries base_delay 1 k
    /\ attempts (schedule delta) = S k
    /\ Z.of_nat k < Z.max 1 max_attempts.
Proof.
  intros Hq.
  destruct (with_retry_returns fn max_attempts base_delay w) as [[o w'] Hrun].
  destruct (retry_loop_schedule fn max_attempts base_delay Hq _ _ _ _ _ Hrun)
    as (k & delta & Htr & Hsch & Hk).
  exists o, w', k, delta. split; [exact Hrun|]. repeat split; try done.
  - rewrite Hsch. unfold attempts. simpl.
    fold (attempts (retries base_delay 1 k)). now rewrite attempts_retries.
  - destruct Hk as [-> | Hk]; lia.
Qed.

(** The body of an operation leaves the wrapper alone. *)
Lemma operation_quiet (op : opkind) (sql : string) (params : string -> list sqlparam)
    (ref : option string) :
  quiet (operation op sql params ref).
Proof.
  intros w.
  unfold operation, on_error, is_business_error, bind, lift, ret, raise, emit, get_conn,
    gen_ref, record.
  destruct ref as [r|]; cbn [db connections uuids uuid4_hex trace];
    destruct (db w (connections w)) as [|args|args|args]; cbn [snd trace];
    try (destruct (_extract_errnum (PyodbcError args)) as [errnum|e]; cbn [bind_outcome];
         [destruct (code_in errnum BUSINESS_ERRORS)|]);
    cbn [snd trace]; rewrite <- ?app_assoc; cbn [app];
    first [ eexists; split; [reflexivity|]; reflexivity
          | exists []; split; [now rewrite app_nil_r | reflexivity] ].
Qed.

Lemma with_retry_schedule_witness :
  exists o w' k delta,
    transfer 1 2 10 None (deadlocks_then_ok 1) = Some (o, w')
    /\ trace w' = trace (deadlocks_then_ok 1) ++ delta
    /\ schedule delta = Attempt :: retries default_base_delay 1 k
    /\ attempts (schedule delta) = S k
    /\ Z.of_nat k < Z.max 1 default_max_attempts.
Proof.
  apply (with_retry_schedule (transfer_fn 1 2 10 None) default_max_attempts
           default_base_delay (deadlocks_then_ok 1)).
  apply operation_quiet.
Defined.

Lemma operation_ok (op : opkind) (sql : string) (params : string -> list sqlparam)
    (ref : option string) (w : world) :
  db w (connections w) = DbOk ->
  operation op sql params ref w
  = (Return PyNone,
     after_call ref w [EvExecute sql (params (ref_at op ref w 0)); EvCommit;
                       EvPrint (LineOk op (ref_at op ref w 0))]).
Proof.
  intros Hdb.
  unfold operation, bind, ret, emit, get_conn, gen_ref, record, after_call, ref_at.
  destruct ref as [r|]; cbn [db connections uuids uuid4_hex trace]; rewrite Hdb;
    cbn [db connections uuids uuid4_hex trace]; rewrite ?Nat.add_0_r, <- ?app_assoc;
    reflexivity.
Qed.

Lemma operation_rejected (op : opkind) (sql : string) (params : string -> list sqlparam)
    (ref : option string) (w : world) (args : list pyval) (code : Z) :
  db w (connections w) = ExecuteFails args ->
  _extract_errnum (PyodbcError args) = Return (Some code) ->
  code ∉ BUSINESS_ERRORS ->
  operation op sql params ref w
  = (Raise (PyodbcError args),
     after_call ref w [EvExecute sql (params (ref_at op ref w 0)); EvRollback;
                       EvPrint (LineFailed op (PyodbcError args))]).
Proof.
  intros Hdb Hex Hnb.
  unfold operation, on_error, is_business_error, bind, lift, ret, raise, emit, get_conn,
    gen_ref, record, after_call, ref_at.
  destruct ref as [r|]; cbn [db connections uuids uuid4_hex trace]; rewrite Hdb, Hex;
    cbn [bind_outcome]; rewrite (code_in_false _ _ Hnb);
    cbn [db connections uuids uuid4_hex trace]; rewrite ?Nat.add_0_r, <- ?app_assoc;
    reflexivity.
Qed.

Lemma count_app (p : event -> bool) (a b : list event) :
  count p (a ++ b) = (count p a + count p b)%nat.
Proof. unfold count. now rewrite List.filter_app, length_app. Qed.

Lemma executions_app (a b : list event) :
  executions (a ++ b) = executions a ++ executions b.
Proof. apply omap_app. Qed.

Lemma retry_recovers_run (op : opkind) (sql : string) (params : string -> list sqlparam)
    (ref : option string) (max_attempts : Z) (base_delay : float) :
  forall (n fuel : nat) (attempt : Z) (w : world),
    fails_then_ok n w ->
    (n < fuel)%nat ->
    attempt + Z.of_nat n <= max_attempts ->
    exists w' delta,
      retry_loop fuel max_attempts base_delay (operation op sql params ref) attempt w
      = Some (Return PyNone, w')
      /\ trace w' = trace w ++ delta
      /\ schedule delta = Attempt :: retries base_delay attempt n
      /\ count is_rollback delta = n
      /\ count is_commit delta = 1%nat
      /\ executions delta
         = map (fun i => (sql, params (ref_at op ref w i))) (seq 0 (S n)).
Proof.
  induction n as [|n IH]; intros fuel attempt w [Hfail Hok] Hfuel Hmax;
    (destruct fuel as [|fuel]; [lia|]); rewrite retry_loop_step.
  - rewrite Nat.add_0_r in Hok.
    rewrite (operation_ok op sql params ref (record EvCall w) Hok).
    eexists _, _. split; [reflexivity|].
    unfold after_call. cbn [trace record]. rewrite <- app_assoc.
    split; [reflexivity|]. repeat split.
  - destruct (Hfail 0%nat ltac:(lia)) as (args & code & Hdb & Hex & Hcode).
    rewrite Nat.add_0_r in Hdb.
    rewrite (operation_rejected op sql params ref (record EvCall w) args code Hdb Hex
               (transient_not_business _ Hcode)).
    cbn [is_pyodbc_error]. rewrite Hex, (code_in_true _ _ Hcode). cbn [andb].
    replace (attempt <? max_attempts) with true by (symmetry; apply Z.ltb_lt; lia).
    match goal with
    | |- context [retry_loop fuel _ _ _ _ ?w2] =>
        destruct (IH fuel (attempt + 1) w2) as (w' & delta & -> & Htr & Hsch & Hrb & Hcm & Hexe)
    end.
    + split.
      * intros k Hk. destruct (Hfail (S k) ltac:(lia)) as (a & c & Ha & Hc & Hin).
        exists a, c. repeat split; try done.
        cbn [db connections record after_call].
        now replace (S (connections w) + k)%nat with (connections w + S k)%nat by lia.
      * cbn [db connections record after_call].
        now replace (S (connections w) + n)%nat with (connections w + S n)%nat by lia.
    + lia.
    + lia.
    + cbn [trace record after_call] in Htr.
      exists w',
        (EvCall :: [EvExecute sql (params (ref_at op ref (record EvCall w) 0)); EvRollback;
                    EvPrint (LineFailed op (PyodbcError args))]
         ++ [EvPrint (LineRetry (Some code) (backoff base_delay attempt) (attempt + 1)
                                max_attempts);
             EvSleep (backoff base_delay attempt)] ++ delta).
      split; [reflexivity|]. split; [rewrite Htr; simpl; now rewrite <- !app_assoc|].
      split; [rewrite retries_succ; simpl; now rewrite Hsch|].
      split; [change (S n) with (1 + n)%nat; rewrite <- Hrb; reflexivity|].
      split; [rewrite <- Hcm; reflexivity|].
      cbn [app executions omap execution]. simpl. f_equal.
      change (executions delta = map (fun i => (sql, params (ref_at op ref w i)))
                                     (seq 1 (S n))).
      rewrite Hexe, <- seq_shift, map_map. apply map_ext. intros i.
      unfold ref_at. destruct ref as [r|]; [reflexivity|].
      cbn [uuid4_hex uuids record after_call].
      now replace (S (uuids w) + i)%nat with (uuids w + S i)%nat by lia.
Qed.

(** X8. Recovery.  When the statement fails [n] times with errors in whose
    text [_extract_errnum] reads a retry-eligible code (the first token made
    of digits) and then succeeds, and [n < max_attempts], the operation returns
    normally after [n + 1] attempts; every failed attempt has been rolled back
    and the last one committed, and the waits are [base_delay * 1] to
    [base_delay * n]. *)
Theorem retry_recovers (op : opkind) (sql : string) (params : string -> list sqlparam)
    (ref : option string) (max_attempts : Z) (base_delay : float) (n : nat) (w : world) :
  fails_then_ok n w ->
  Z.of_nat n < max_attempts ->
  exists w' delta,
    with_retry max_attempts base_delay (operation op sql params ref) w
    = Some (Return PyNone, w')
    /\ trace w' = trace w ++ delta
    /\ schedule delta = Attempt :: retries base_delay 1 n
    /\ count is_rollback delta = n
    /\ count is_commit delta = 1%nat.
Proof.
  intros Hw Hn.
  destruct (retry_recovers_run op sql params ref max_attempts base_delay n
              (S (Z.to_nat (max_attempts - 1))) 1 w Hw ltac:(lia) ltac:(lia))
    as (w' & delta & Hrun & Htr & Hsch & Hrb & Hcm & _).
  exists w', delta. now repeat split.
Qed.

Lemma fails_then_ok_deadlocks (n : nat) : fails_then_ok n (deadlocks_then_ok n).
Proof.
  split.
  - intros k Hk. exists deadlock_args, 1205. cbn [db connections deadlocks_then_ok].
    rewrite Nat.add_0_l. apply Nat.ltb_lt in Hk. rewrite Hk.
    split; [reflexivity|]. split; [reflexivity|]. apply elem_of_transient. tauto.
  - cbn [db connections deadlocks_then_ok]. rewrite Nat.add_0_l. now rewrite Nat.ltb_irrefl.
Qed.

Lemma retry_recovers_witness :
  exists w' delta,
    transfer 1 2 10 None (deadlocks_then_ok 2) = Some (Return PyNone, w')
    /\ trace w' = trace (deadlocks_then_ok 2) ++ delta
    /\ schedule delta = Attempt :: retries default_base_delay 1 2
    /\ count is_rollback delta = 2%nat
    /\ count is_commit delta = 1%nat.
Proof.
  apply (retry_recovers Transfer "EXEC dbo.usp_TransferFunds ?, ?, ?, ?"
           (fun ref => [ParamInt 1; ParamInt 2; ParamFloat 10; ParamStr ref]) None
           default_max_attempts default_base_delay 2 (deadlocks_then_ok 2)).
  - apply fails_then_ok_deadlocks.
  - unfold default_max_attempts. lia.
Defined.

(** X9. Each attempt of an operation called without a reference draws a new
    one, so the retries of one call reach the database under different
    references; a reference given by the caller is used by every attempt. *)
Theorem retry_references (op : opkind) (sql : string) (params : string -> list sqlparam)
    (ref : option string) (max_attempts : Z) (base_delay : float) (n : nat) (w : world) :
  fails_then_ok n w ->
  Z.of_nat n < max_attempts ->
  exists w' delta,
    with_retry max_attempts base_delay (operation op sql params ref) w
    = Some (Return PyNone, w')
    /\ trace w' = trace w ++ delta
    /\ executions delta
       = map (fun i => (sql, params (ref_at op ref w i))) (seq 0 (S n)).
Proof.
  intros Hw Hn.
  destruct (retry_recovers_run op sql params ref max_attempts base_delay n
              (S (Z.to_nat (max_attempts - 1))) 1 w Hw ltac:(lia) ltac:(lia))
    as (w' & delta & Hrun & Htr & _ & _ & _ & Hexe).
  exists w', delta. now repeat split.
Qed.

Lemma retry_references_witness :
  exists w' delta,
    transfer 1 2 10 None one_deadlock_numbered = Some (Return PyNone, w')
    /\ trace w' = trace one_deadlock_numbered ++ delta
    /\ executions delta
       = [("EXEC dbo.usp_TransferFunds ?, ?, ?, ?",
           [ParamInt 1; ParamInt 2; ParamFloat 10; ParamStr "tx-0f1c2b3a4d5e"]);
          ("EXEC dbo.usp_TransferFunds ?, ?, ?, ?",
           [ParamInt 1; ParamInt 2; ParamFloat 10; ParamStr "tx-1f1c2b3a4d5e"])].
Proof.
  apply (retry_references Transfer "EXEC dbo.usp_TransferFunds ?, ?, ?, ?"
           (fun ref => [ParamInt 1; ParamInt 2; ParamFloat 10; ParamStr ref]) None
           default_max_attempts default_base_delay 1 one_deadlock_numbered).
  - split.
    + intros k Hk. exists deadlock_args, 1205.
      replace k with 0%nat by lia.
      split; [reflexivity|]. split; [reflexivity|]. apply elem_of_transient. tauto.
    + reflexivity.
  - unfold default_max_attempts. lia.
Defined.

(** A connection that cannot be opened raises before the [try] block. *)
Lemma operation_unreachable (op : opkind) (sql : string) (params : string -> list sqlparam)
    (ref : option string) (args : list pyval) (w : world) :
  unreachable_db args w ->
  operation op sql params ref w = (Raise (PyodbcError args), after_call ref w []).
Proof.
  unfold unreachable_db. intros Hdb.
  unfold operation, bind, ret, emit, get_conn, gen_ref, record, after_call.
  destruct ref as [r|]; cbn [db connections uuids uuid4_hex trace]; rewrite Hdb;
    now rewrite app_nil_r.
Qed.

Lemma retry_loop_unreachable (op : opkind) (sql : string) (params : string -> list sqlparam)
    (ref : option string) (args : list pyval) (code : option Z) (max_attempts : Z)
    (base_delay : float) :
  _extract_errnum (PyodbcError args) = Return code ->
  forall (fuel : nat) (attempt : Z) (w w' : world) (o : outcome pyval),
    unreachable_db args w ->
    retry_loop fuel max_attempts base_delay (operation op sql params ref) attempt w
    = Some (o, w') ->
    o = Raise (PyodbcError args)
    /\ exists delta, trace w' = trace w ++ delta /\ List.filter touches_db delta = [].
Proof.
  intros Hex.
  induction fuel as [|fuel IH]; intros attempt w w' o Hdb Hrun; [discriminate|].
  rewrite retry_loop_step in Hrun.
  rewrite (operation_unreachable op sql params ref args (record EvCall w) Hdb) in Hrun.
  cbn [is_pyodbc_error] in Hrun. rewrite Hex in Hrun.
  destruct (code_in code TRANSIENT_ERRORS && (attempt <? max_attempts)).
  - apply IH in Hrun as (Ho & delta & Htr & Hnone); [|exact Hdb].
    split; [exact Ho|].
    cbn [trace after_call record] in Htr. rewrite app_nil_r in Htr.
    eexists (EvCall :: _ :: _ :: delta). split.
    + rewrite Htr. rewrite <- !app_assoc. reflexivity.
    + exact Hnone.
  - injection Hrun as <- <-. split; [reflexivity|].
    exists [EvCall]. cbn [trace after_call record]. now rewrite app_nil_r.
Qed.

(** X10. A database that refuses the connection with an error in whose
    text [_extract_errnum] reads a retry-eligible code (the first token made
    of digits) is tried [max_attempts] times with the linear waits, and no
    statement, commit or rollback is ever issued. *)
Theorem unreachable_database_retried (op : opkind) (sql : string)
    (params : string -> list sqlparam) (ref : option string) (args : list pyval) (code : Z)
    (max_attempts : Z) (base_delay : float) (w : world) :
  code ∈ TRANSIENT_ERRORS ->
  _extract_errnum (PyodbcError args) = Return (Some code) ->
  unreachable_db args w ->
  1 <= max_attempts ->
  exists w' delta,
    with_retry max_attempts base_delay (operation op sql params ref) w
    = Some (Raise (PyodbcError args), w')
    /\ trace w' = trace w ++ delta
    /\ schedule delta = linear_schedule base_delay max_attempts
    /\ List.filter touches_db delta = [].
Proof.
  intros Hcode Hex Hdb Hmax.
  assert (Hfn : always_fails_with code (fun _ => ConnectFails args)
                  (operation op sql params ref)).
  { intros w0 Hw0.
    rewrite (operation_unreachable op sql params ref args w0 Hw0).
    exists args, (after_call ref w0 []). repeat split; try done.
    exists []. cbn [trace after_call]. now rewrite app_nil_r. }
  destruct (retry_loop_transient _ code _ max_attempts base_delay Hcode Hfn
              (Z.to_nat (max_attempts - 1)) 1 w Hdb ltac:(lia))
    as (args' & w' & delta & Hrun & _ & Htr & Hsch).
  destruct (retry_loop_unreachable op sql params ref args (Some code) max_attempts
              base_delay Hex _ _ _ _ _ Hdb Hrun) as (Ho & delta' & Htr' & Hnone).
  assert (delta' = delta) as -> by (apply (app_inv_head (trace w)); congruence).
  injection Ho as ->.
  exists w', delta. unfold with_retry, linear_schedule. now repeat split.
Qed.

Lemma unreachable_database_retried_witness :
  exists w' delta,
    deposit 7 25 (Some "dep-1") unreachable = Some (Raise (PyodbcError cannot_open_args), w')
    /\ trace w' = trace unreachable ++ delta
    /\ schedule delta = linear_schedule default_base_delay default_max_attempts
    /\ List.filter touches_db delta = [].
Proof.
  apply (unreachable_database_retried Deposit "EXEC dbo.usp_Deposit ?, ?, ?"
           (fun ref => [ParamInt 7; ParamFloat 25; ParamStr ref]) (Some "dep-1")
           cannot_open_args 4060 default_max_attempts default_base_delay unreachable).
  - apply elem_of_transient. tauto.
  - reflexivity.
  - reflexivity.
  - unfold default_max_attempts. lia.
Defined.

End RetryFacts.

(** ** The order of the reports and failed deliveries *)

Section ReportOrder.
Import Poller.

Lemma Sorted_by_id_app (l1 l2 : list ErrorRow) :
  Sorted by_id l1 -> Sorted by_id l2 ->
  (forall x y, x ∈ l1 -> y ∈ l2 -> ErrorID x <= ErrorID y) ->
  Sorted by_id (l1 ++ l2).
Proof.
  induction l1 as [|a l1 IH]; intros H1 H2 Hle; [exact H2|].
  apply Sorted_inv in H1 as [H1 Hhd]. simpl. constructor.
  - apply IH; [exact H1 | exact H2|]. intros x y Hx Hy. apply Hle; [now right | exact Hy].
  - destruct l1 as [|b l1]; simpl.
    + destruct l2 as [|c l2]; constructor. apply Hle; now left.
    + constructor. now apply HdRel_inv in Hhd.
Qed.


Ltac report_leaf Hsorted Habove :=
  eexists _, _; split;
  [cbn [snd trace]; rewrite <- ?app_assoc; first [reflexivity | symmetry; apply app_nil_r]|];
  split; [intros; simpl; rewrite ?app_nil_r; reflexivity|];
  split; [first [exact Hsorted | constructor]|];
  first [exact Habove | intros ? H; now apply elem_of_nil in H].

(** The rows that one cycle of [agent.py] hands over: ascending, and
    above the watermark. *)
Lemma agent_reports (cfg : smtp_config) (env : cycle_env) (w : world string) (W : Z) :
  stores w W ->
  exists delta rows,
    trace (snd (Agent.main cfg env w)) = trace w ++ delta
    /\ (forall cur, reported_from is_handed_over cur delta = rows)
    /\ Sorted by_id rows
    /\ (forall r, r ∈ rows -> W < ErrorID r).
Proof.
  intros Hs.
  unfold Agent.main, Agent.get_state, Agent.set_state, Agent.send_email, fetch_new_errors,
    run_health_check, smtp_session, bind, ret, raise, lift, Db.emit.
  cbn [store trace]. rewrite (stores_read_agent w W Hs).
  destruct (errorlog env) as [table|]; [|report_leaf I I].
  pose proof (select_new_errors_above table W) as Habove.
  pose proof (select_new_errors_sorted table W) as Hsorted.
  set (rows := select_new_errors table W) in *. clearbody rows.
  destruct (healthcheck env) as [sets|]; cbn [store trace]; [|report_leaf Hsorted Habove].
  destruct (Agent.html_report (utcnow env) rows (collect_issues sets)) as [[html|]|e] eqn:Hhtml;
    [| |report_leaf Hsorted Habove].
  - rewrite (html_report_truthy _ _ _ _ Hhtml). cbn [default].
    destruct (last_row rows);
      (destruct (Agent.smtp_configured cfg); cbn [negb store trace];
       [destruct (smtp_accepts env); cbn [store trace]|]);
      report_leaf Hsorted Habove.
  - cbn [Agent.html_truthy]. destruct (last_row rows); report_leaf Hsorted Habove.
Qed.

Section Rendering.

Variable build_prompt : list ErrorRow -> list tuple -> string.
Variable fallback_summary : list ErrorRow -> list tuple -> string.
Variable render_email_html : string -> list ErrorRow -> list tuple -> string.

Local Abbreviation cycles := (run_cycles build_prompt fallback_summary render_email_html).
Local Abbreviation one_cycle := (cycle build_prompt fallback_summary render_email_html).

Lemma ai_reports (cfg : smtp_config) (idle : bool) (env : cycle_env) (w : world string)
    (W : Z) :
  stores w W ->
  exists delta rows,
    trace (snd (AiAgent.run_once build_prompt fallback_summary render_email_html
                  cfg idle env w)) = trace w ++ delta
    /\ (forall cur, reported_from is_handed_over cur delta = rows)
    /\ Sorted by_id rows
    /\ (forall r, r ∈ rows -> W < ErrorID r).
Proof.
  intros Hs.
  unfold AiAgent.run_once, AiAgent.state_init, bind at 1 2, ret at 1.
  rewrite (stores_read_ai w W Hs).
  unfold AiAgent.update_if_changed, AiAgent.state_set_last_id, AiAgent.send_email,
    fetch_new_errors, run_health_check, smtp_session, bind, ret, raise, lift, Db.emit.
  destruct (errorlog env) as [table|]; [|report_leaf I I].
  pose proof (select_new_errors_above table W) as Habove.
  pose proof (select_new_errors_sorted table W) as Hsorted.
  set (rows := select_new_errors table W) in *. clearbody rows.
  destruct (healthcheck env) as [sets|]; cbn [store trace]; [|report_leaf Hsorted Habove].
  destruct (is_empty rows && is_empty (collect_issues sets) && negb idle);
    cbn [store trace].
  - destruct (_ =? W); report_leaf Hsorted Habove.
  - destruct (AiAgent.smtp_configured cfg); cbn [negb store trace];
      [destruct (smtp_accepts env); cbn [store trace]|];
      try destruct (_ =? W); report_leaf Hsorted Habove.
Qed.

Lemma cycle_reports (j : job) (w : world string) (W : Z) :
  stores w W ->
  exists delta rows,
    trace (snd (one_cycle j w)) = trace w ++ delta
    /\ (forall cur, reported_from is_handed_over cur delta = rows)
    /\ Sorted by_id rows
    /\ (forall r, r ∈ rows -> W < ErrorID r).
Proof.
  destruct j as [cfg [|idle] env]; [apply agent_reports | apply ai_reports].
Qed.

Lemma run_reports (sched : list job) :
  exists W,
    tracks is_handed_over (cycles sched initial) W
    /\ Sorted by_id (handed_over_rows (trace (cycles sched initial))).
Proof.
  induction sched as [|j sched IH] using rev_ind.
  - exists 0. split; [apply tracks_initial | constructor].
  - destruct IH as (W & Htr & Hsorted).
    rewrite run_cycles_app. cbn [run_cycles foldl].
    set (w := cycles sched initial) in *.
    destruct (cycle_tracks build_prompt fallback_summary render_email_html
                is_handed_over j w W ltac:(now left) Htr) as (W' & delta & Hd & _ & Htr' & _).
    cbn zeta in Hd.
    destruct (cycle_reports j w W (proj1 Htr)) as (delta' & rows & Hd' & Hrep & Hs' & Hab).
    assert (delta' = delta) as -> by (apply (app_inv_head (trace w)); congruence).
    exists W'. split; [exact Htr'|].
    unfold handed_over_rows in *. rewrite Hd, reported_from_app, Hrep.
    apply Sorted_by_id_app; [exact Hsorted | exact Hs'|].
    intros x y Hx Hy. specialize (Hab y Hy).
    pose proof (max_id_ge _ _ Hx) as Hmax. destruct Htr as (_ & _ & HW). lia.
Qed.

(** X11. Across any run of the two agents on the shared state file, the
    rows of the reports that [send_email] took without raising (delivered,
    or skipped for incomplete settings) come in ascending order of
    [ErrorID], and those of one more cycle lie strictly above every such row
    before: no row is in two reports that [send_email] took.  (A report on
    which [send_email] raised is not counted: its rows are fetched and sent
    again.) *)
Theorem reports_in_order (sched : list job) (j : job) :
  let w := cycles sched initial in
  let w' := cycles (sched ++ [j]) initial in
  Sorted by_id (handed_over_rows (trace w))
  /\ exists rows,
       handed_over_rows (trace w') = handed_over_rows (trace w) ++ rows
       /\ Sorted by_id rows
       /\ (forall r r', r ∈ rows -> r' ∈ handed_over_rows (trace w) ->
             ErrorID r' < ErrorID r).
Proof.
  cbn zeta. destruct (run_reports sched) as (W & Htr & Hsorted).
  split; [exact Hsorted|].
  rewrite run_cycles_app. cbn [run_cycles foldl].
  set (w := cycles sched initial) in *.
  destruct (cycle_reports j w W (proj1 Htr)) as (delta & rows & Hd & Hrep & Hs' & Hab).
  exists rows. split; [|split; [exact Hs'|]].
  - unfold handed_over_rows. now rewrite Hd, reported_from_app, Hrep.
  - intros r r' Hr Hr'. specialize (Hab r Hr).
    pose proof (max_id_ge _ _ Hr') as Hmax. destruct Htr as (_ & _ & HW).
    unfold handed_over_rows in Hmax. lia.
Qed.

End Rendering.

End ReportOrder.

(** ** A delivery that fails, and a state file that cannot be read *)

Section Redelivery.
Import Poller.

Variable build_prompt : list ErrorRow -> list tuple -> string.
Variable fallback_summary : list ErrorRow -> list tuple -> string.
Variable render_email_html : string -> list ErrorRow -> list tuple -> string.

Local Abbreviation cycles := (run_cycles build_prompt fallback_summary render_email_html).
Local Abbreviation one_cycle := (cycle build_prompt fallback_summary render_email_html).

Lemma watermark_read_ai (w : world string) (o : outcome Z) :
  watermark w = o -> AiAgent.state_get_last_id w = (o, w).
Proof.
  unfold watermark, AiAgent.state_get_last_id.
  destruct (store w !! AiAgent.last_error_id); cbn [fst]; now intros ->.
Qed.

Lemma watermark_store (w w' : world string) :
  store w' = store w -> watermark w' = watermark w.
Proof.
  unfold watermark, AiAgent.state_get_last_id. intros ->.
  now destruct (store w !! AiAgent.last_error_id).
Qed.

Lemma send_calls_app (t1 t2 : list event) :
  send_calls (t1 ++ t2) = (send_calls t1 + send_calls t2)%nat.
Proof. unfold send_calls. now rewrite List.filter_app, length_app. Qed.







(** A cycle that cannot read the watermark. *)
Lemma cycle_unreadable (j : job) (w : world string) (e : exn) :
  watermark w = Raise e ->
  exists delta,
    one_cycle j w = (Raise e, mkWorld (store w) (trace w ++ delta))
    /\ fetched_rows delta = []
    /\ send_calls delta = 0%nat.
Proof.
  intros HW. destruct j as [cfg [|idle] env]; unfold cycle;
    cbn [settings entry_point outside].
  - exists [EvLog "Agent start"]. split; [|split; reflexivity].
    unfold Agent.main, Agent.get_state, bind, ret, raise, lift, Db.emit.
    cbn [store trace].
    assert (Hread : int_of_str (match store w !! Agent.last_error_id with
                                | Some v => v | None => "0" end) = Raise e).
    { revert HW. unfold watermark, AiAgent.state_get_last_id.
      change Agent.last_error_id with AiAgent.last_error_id.
      destruct (store w !! AiAgent.last_error_id); cbn [fst]; [tauto | discriminate]. }
    now rewrite Hread.
  - exists []. split; [|split; reflexivity].
    unfold AiAgent.run_once, AiAgent.state_init, bind at 1 2, ret at 1.
    rewrite (watermark_read_ai w _ HW). rewrite app_nil_r. now destruct w.
Qed.

(** X13. A state file whose value is a text that [int] refuses stops both
    agents: every cycle of any run raises the conversion error before it
    queries the log, nothing is sent and the state file stays as it is. *)
Theorem unreadable_watermark_blocks (sched : list job) (w : world string) (e : exn) :
  watermark w = Raise e ->
  let w' := cycles sched w in
  store w' = store w
  /\ (exists delta,
        trace w' = trace w ++ delta
        /\ fetched_rows delta = []
        /\ send_calls delta = 0%nat)
  /\ forall j, fst (one_cycle j w') = Raise e.
Proof.
  cbn zeta. revert w. induction sched as [|j sched IH]; intros w HW.
  - cbn. split; [reflexivity|]. split.
    + exists []. now rewrite app_nil_r.
    + intros j. destruct (cycle_unreadable j w e HW) as (d & -> & _). reflexivity.
  - rewrite run_cycles_cons.
    destruct (cycle_unreadable j w e HW) as (d & Hrun & Hf & Hs).
    rewrite Hrun. cbn [snd].
    destruct (IH (mkWorld (store w) (trace w ++ d))) as (Hst & (d' & Htr & Hf' & Hs') & Hall).
    { now rewrite (watermark_store w (mkWorld (store w) (trace w ++ d))). }
    split; [exact Hst|]. split; [|exact Hall].
    exists (d ++ d'). split; [cbn [trace] in Htr; now rewrite Htr, app_assoc|].
    split; [now rewrite fetched_rows_app, Hf, Hf' | now rewrite send_calls_app, Hs, Hs'].
Qed.

End Redelivery.

Section RedeliveryScenarios.
Import Poller.


Lemma unreadable_watermark_blocks_witness :
  let sched := [mkJob Scenario.smtp_complete AgentMain (Scenario.env_of Scenario.ids_12_14 true);
                mkJob Scenario.smtp_complete (AiRunOnce true)
                      (Scenario.env_of Scenario.ids_12_14 true)] in
  let w' := run_cycles Scenario.prompt_text Scenario.summary_text Scenario.body_text
              sched Damaged.float_text in
  store w' = store Damaged.float_text
  /\ (exists delta,
        trace w' = trace Damaged.float_text ++ delta
        /\ fetched_rows delta = []
        /\ send_calls delta = 0%nat)
  /\ forall j, fst (cycle Scenario.prompt_text Scenario.summary_text Scenario.body_text j w')
               = Raise (ValueError "14.0").
Proof.
  cbn zeta.
  apply (unreadable_watermark_blocks Scenario.prompt_text Scenario.summary_text
           Scenario.body_text _ Damaged.float_text (ValueError "14.0")).
  reflexivity.
Defined.

End RedeliveryScenarios.

(** ** Runs of the monitor *)

Section MonitorRuns.
Import Poller MonitorRun.

Variable str_of_tuple : tuple -> string.

Local Abbreviation monitor_run := (monitor_cycles str_of_tuple).

Lemma holds_read (w : world Z) (W : Z) :
  holds w W -> Monitor.get_last_id w = (Return W, w).
Proof.
  unfold Monitor.get_last_id. intros [H | [H ->]]; now rewrite H.
Qed.

Ltac monitor_leaf Hsorted Habove :=
  eexists _, _, _, _; split; [reflexivity|]; split;
  [cbn [trace]; rewrite <- ?app_assoc; first [reflexivity | symmetry; apply app_nil_r]|];
  split; [cbn; rewrite ?app_nil_r; reflexivity|];
  split; [first [exact Hsorted | constructor]|];
  split; [first [exact Habove | intros ? H; now apply elem_of_nil in H]|].

(** One run of the script: the rows it fetches are ascending and above
    the stored id, and the stored id moves to their largest id as soon as
    there is one. *)
Lemma monitor_cycle (cfg : smtp_config) (env : cycle_env) (w : world Z) (W : Z) :
  holds w W -> 0 <= W ->
  exists o w' delta rows,
    Monitor.main str_of_tuple cfg env w = (o, w')
    /\ trace w' = trace w ++ delta
    /\ fetched_rows delta = rows
    /\ Sorted by_id rows
    /\ (forall r, r ∈ rows -> W < ErrorID r)
    /\ ((rows = [] /\ store w' = store w)
        \/ (rows <> [] /\ store w' = <[Monitor.last_error_id := max_id rows]> (store w))).
Proof.
  intros Hs HW.
  unfold Monitor.main, bind at 1 2, Db.emit at 1. cbn [store trace].
  rewrite (holds_read _ W) by exact Hs.
  unfold Monitor.set_last_id, Monitor.send_email, Monitor.append_csv, fetch_new_errors,
    run_health_check, smtp_session, bind, ret, raise, lift, Db.emit.
  cbn [store trace].
  destruct (errorlog env) as [table|]; [|monitor_leaf I I; now left].
  pose proof (select_new_errors_above table W) as Habove.
  pose proof (select_new_errors_sorted table W) as Hsorted.
  set (rows := select_new_errors table W) in *. clearbody rows.
  destruct (last_row rows) as [r|] eqn:Hlast; cbn [store trace].
  - assert (Hne : rows <> []) by (intros ->; discriminate).
    assert (Hmax : ErrorID r = max_id rows).
    { apply last_row_max_id; [exact Hsorted| |exact Hlast].
      intros x Hx. specialize (Habove x Hx). lia. }
    rewrite Hmax.
    destruct rows as [|r0 rest]; [done|]. cbn [is_empty negb orb].
    destruct (healthcheck env) as [sets|]; cbn [store trace];
      [|monitor_leaf Hsorted Habove; now right].
    destruct (is_empty (collect_issues sets)); cbn [store trace];
      (destruct (Monitor.smtp_configured cfg); cbn [negb store trace];
       [destruct (smtp_accepts env); cbn [store trace]|]);
      monitor_leaf Hsorted Habove; now right.
  - assert (Hnil : rows = []) by (now apply last_None).
    subst rows. cbn [is_empty negb orb].
    destruct (healthcheck env) as [sets|]; cbn [store trace];
      [|monitor_leaf Hsorted Habove; now left].
    destruct (is_empty (collect_issues sets)); cbn [store trace negb];
      [monitor_leaf Hsorted Habove; now left|].
    destruct (Monitor.smtp_configured cfg); cbn [negb store trace];
      [destruct (smtp_accepts env); cbn [store trace]|];
      monitor_leaf Hsorted Habove; now left.
Qed.

Lemma monitor_cycles_app (s1 s2 : list (smtp_config * cycle_env)) (w : world Z) :
  monitor_run (s1 ++ s2) w = monitor_run s2 (monitor_run s1 w).
Proof. apply foldl_app. Qed.

Lemma monitor_run_holds (sched : list (smtp_config * cycle_env)) :
  let w := monitor_run sched fresh in
  holds w (max_id (fetched_rows (trace w))).
Proof.
  cbn zeta. induction sched as [|[cfg env] sched IH] using rev_ind.
  - right. split; [apply lookup_empty | reflexivity].
  - rewrite monitor_cycles_app. cbn [monitor_cycles foldl fst snd].
    set (w := monitor_run sched fresh) in *.
    destruct (monitor_cycle cfg env w _ IH (max_id_nonneg _))
      as (o & w' & delta & rows & -> & Hd & Hf & _ & Hab & Hcase).
    cbn [snd].
    rewrite Hd, fetched_rows_app, Hf, max_id_app.
    destruct Hcase as [[-> Hst] | [Hne Hst]].
    + cbn [max_id map foldr]. rewrite Z.max_l by apply max_id_nonneg.
      unfold holds. rewrite Hst. exact IH.
    + pose proof (max_id_above _ rows Hne Hab) as Hmax.
      rewrite Z.max_r by lia.
      left. rewrite Hst. apply lookup_insert_eq.
Qed.

(** X14. In any run of the monitor from an empty state, whatever becomes of
    the health check and of the mail, the stored id is the largest
    [ErrorID] fetched so far, and one more run fetches only rows strictly
    above every row fetched before: no row is fetched twice. *)
Theorem monitor_never_refetches (sched : list (smtp_config * cycle_env))
    (cfg : smtp_config) (env : cycle_env) :
  let w := monitor_run sched fresh in
  let w' := monitor_run (sched ++ [(cfg, env)]) fresh in
  fst (Monitor.get_last_id w) = Return (max_id (fetched_rows (trace w)))
  /\ exists rows,
       fetched_rows (trace w') = fetched_rows (trace w) ++ rows
       /\ Sorted by_id rows
       /\ (forall r r', r ∈ rows -> r' ∈ fetched_rows (trace w) -> ErrorID r' < ErrorID r).
Proof.
  cbn zeta. pose proof (monitor_run_holds sched) as Hs. cbn zeta in Hs.
  split; [now rewrite (holds_read _ _ Hs)|].
  rewrite monitor_cycles_app. cbn [monitor_cycles foldl fst snd].
  set (w := monitor_run sched fresh) in *.
  destruct (monitor_cycle cfg env w _ Hs (max_id_nonneg _))
    as (o & w' & delta & rows & -> & Hd & Hf & Hsorted & Hab & _).
  cbn [snd].
  exists rows. split; [now rewrite Hd, fetched_rows_app, Hf|].
  split; [exact Hsorted|].
  intros r r' Hr Hr'. specialize (Hab r Hr). pose proof (max_id_ge _ _ Hr'). lia.
Qed.

End MonitorRuns.

(** ** The three tests of the SMTP settings *)

Section Settings.

(** X15. [monitor_errors.py] and [ai_agent.py] ask for the same settings
    before they send, and [agent.py] for a non-zero port on top of them. *)
Theorem smtp_tests_compared (cfg : smtp_config) :
  Monitor.smtp_configured cfg = AiAgent.smtp_configured cfg
  /\ Agent.smtp_configured cfg
     = AiAgent.smtp_configured cfg && negb (SMTP_PORT cfg =? 0).
Proof.
  unfold Monitor.smtp_configured, AiAgent.smtp_configured, Agent.smtp_configured.
  destruct (truthy (SMTP_HOST cfg)), (truthy (SMTP_USER cfg)), (truthy (SMTP_PASS cfg)),
    (is_empty (SMTP_TO cfg)), (SMTP_PORT cfg =? 0); split; reflexivity.
Qed.

End Settings.

(** ** The connection string *)

Section ConnectionFacts.
Import PyText Connection.

Lemma member_elem (p : string) (l : list string) : member p l = true <-> p ∈ l.
Proof.
  unfold member. rewrite existsb_exists, list_elem_of_In. split.
  - intros (x & Hx & Heq). apply String.eqb_eq in Heq. now subst.
  - intros H. exists p. split; [exact H | apply String.eqb_refl].
Qed.

(** X16. [pick_driver] answers [None] exactly when no driver is installed;
    otherwise it answers the name of an installed driver, and one of the
    preferred names as soon as one of them is installed, the earliest of
    the list. *)
Theorem pick_driver_installed (installed : list string) :
  (pick_driver installed = None <-> installed = [])
  /\ forall d, pick_driver installed = Some d ->
       d ∈ map strip installed
       /\ forall p, p ∈ preferred -> p ∈ map strip installed ->
            exists before after,
              preferred = before ++ d :: after
              /\ forall q, q ∈ before -> q ∉ map strip installed.
Proof.
  unfold pick_driver.
  destruct (List.find _ preferred) as [p|] eqn:Hfind.
  - split; [split; [discriminate|]|].
    + intros ->. cbn in Hfind. discriminate.
    + intros d [= <-]. pose proof (find_some _ _ Hfind) as [_ Hin].
      apply member_elem in Hin. split; [exact Hin|]. intros _ _ _.
      revert Hfind. unfold preferred.
      set (f := fun p0 => member p0 (map strip installed)).
      cbn [List.find].
      destruct (f "ODBC Driver 18 for SQL Server") eqn:H18.
      { intros [= <-]. exists [], ["ODBC Driver 17 for SQL Server"; "SQL Server"].
        split; [reflexivity|]. intros q Hq. now apply elem_of_nil in Hq. }
      destruct (f "ODBC Driver 17 for SQL Server") eqn:H17.
      { intros [= <-]. exists ["ODBC Driver 18 for SQL Server"], ["SQL Server"].
        split; [reflexivity|]. intros q Hq. apply list_elem_of_singleton in Hq as ->.
        intros Hq. apply member_elem in Hq. unfold f in H18. congruence. }
      destruct (f "SQL Server") eqn:Hl; [|discriminate].
      intros [= <-].
      exists ["ODBC Driver 18 for SQL Server"; "ODBC Driver 17 for SQL Server"], [].
      split; [reflexivity|]. intros q Hq Hin'. apply member_elem in Hin'.
      apply elem_of_cons in Hq as [-> | Hq]; [unfold f in H18; congruence|].
      apply list_elem_of_singleton in Hq as ->. unfold f in H17. congruence.
  - split.
    + rewrite last_None. split; [|now intros ->].
      intros H. now apply map_eq_nil in H.
    + intros d Hd. split; [now apply last_Some_elem_of in Hd|].
      intros p Hp Hin. apply list_elem_of_In in Hp.
      pose proof (find_none _ _ Hfind p Hp) as Hno. cbn beta in Hno.
      apply member_elem in Hin. congruence.
Qed.

Lemma nonempty_true (s : string) : nonempty s = true <-> s <> EmptyString.
Proof.
  unfold nonempty. rewrite negb_true_iff. split.
  - intros H ->. discriminate.
  - intros H. apply String.eqb_neq. exact H.
Qed.


Lemma health_sets_spec (result_sets : list (option (list tuple))) :
  forall any_rows,
    health_sets any_rows result_sets
    = ((if any_rows || is_empty (collect_issues result_sets) then [] else [HealthHeader])
       ++ map HealthRow (collect_issues result_sets),
       any_rows || negb (is_empty (collect_issues result_sets))).
Proof.
  induction result_sets as [|[[|r rows]|] more IH]; intros any_rows; cbn [health_sets collect_issues].
  - cbn. now rewrite !orb_true_r, orb_false_r.
  - rewrite IH. reflexivity.
  - rewrite IH. cbn [orb is_empty app negb]. rewrite orb_true_r, orb_false_r.
    change (r :: rows ++ collect_issues more) with ((r :: rows) ++ collect_issues more).
    rewrite (map_app HealthRow (r :: rows)).
    destruct any_rows; reflexivity.
  - rewrite IH. reflexivity.
Qed.

(** X18. The [health-check] command prints exactly the issues that the
    agents collect from the same result sets, under one header, and the
    all-clear line exactly when they collect none. *)
Theorem health_check_prints_issues (result_sets : list (option (list tuple))) :
  health_check result_sets
  = match collect_issues result_sets with
    | [] => [HealthOk]
    | issues => HealthHeader :: map HealthRow issues
    end.
Proof.
  unfold health_check. rewrite health_sets_spec.
  destruct (collect_issues result_sets); cbn; [reflexivity|].
  now rewrite app_nil_r.
Qed.

End ConnectionFacts.

(** ** The list of recipients *)

Section RecipientFacts.
Import PyText Recipients.

Lemma lstrip_blank (s : string) : lstrip s = EmptyString <-> all_chars char_isspace s = true.
Proof.
  induction s as [|c s IH]; cbn [lstrip all_chars]; [tauto|].
  destruct (char_isspace c); cbn [andb]; [exact IH|]. split; discriminate.
Qed.

Lemma rstrip_blank (s : string) : rstrip s = EmptyString <-> all_chars char_isspace s = true.
Proof.
  induction s as [|c s IH]; cbn [rstrip all_chars]; [tauto|].
  destruct (rstrip s) as [|d r].
  - destruct (char_isspace c); cbn [andb]; [tauto|]. split; discriminate.
  - split; [discriminate|]. intros H. apply andb_true_iff in H as [_ H].
    apply IH in H. discriminate.
Qed.

Lemma blank_lstrip (s : string) :
  all_chars char_isspace (lstrip s) = all_chars char_isspace s.
Proof.
  induction s as [|c s IH]; cbn [lstrip all_chars]; [reflexivity|].
  destruct (char_isspace c) eqn:Hc; cbn [andb all_chars]; [exact IH|].
  now rewrite Hc.
Qed.

Lemma strip_blank (s : string) : strip s = EmptyString <-> all_chars char_isspace s = true.
Proof. unfold strip. now rewrite rstrip_blank, blank_lstrip. Qed.

Lemma lstrip_clean (s : string) : starts_clean (lstrip s).
Proof.
  induction s as [|c s IH]; cbn [lstrip]; [exact I|].
  destruct (char_isspace c) eqn:Hc; [exact IH | exact Hc].
Qed.

Lemma lstrip_of_clean (s : string) : starts_clean s -> lstrip s = s.
Proof. destruct s as [|c s]; cbn; [reflexivity|]. now intros ->. Qed.

Lemma rstrip_clean (s : string) : starts_clean s -> starts_clean (rstrip s).
Proof.
  destruct s as [|c s]; cbn [rstrip starts_clean]; [tauto|]. intros Hc.
  destruct (rstrip s); [rewrite Hc|]; exact Hc.
Qed.

Lemma rstrip_idem (s : string) : rstrip (rstrip s) = rstrip s.
Proof.
  induction s as [|c s IH]; [reflexivity|]. cbn [rstrip].
  destruct (rstrip s) as [|d r] eqn:Hr.
  - destruct (char_isspace c) eqn:Hc; [reflexivity|]. cbn [rstrip]. now rewrite Hc.
  - change (rstrip (String c (String d r))) with
      (match rstrip (String d r) with
       | EmptyString => if char_isspace c then EmptyString else String c EmptyString
       | String a b => String c (String a b)
       end).
    now rewrite IH.
Qed.

Lemma strip_idem (s : string) : strip (strip s) = strip s.
Proof.
  unfold strip.
  rewrite (lstrip_of_clean (rstrip (lstrip s))) by apply rstrip_clean, lstrip_clean.
  apply rstrip_idem.
Qed.

Lemma occurs_lstrip (c : ascii) (s : string) : occurs c s = false -> occurs c (lstrip s) = false.
Proof.
  induction s as [|a s IH]; cbn [lstrip occurs]; [tauto|]. intros H.
  destruct (char_isspace a); [|exact H].
  apply orb_false_iff in H as [_ H]. now apply IH.
Qed.

Lemma occurs_rstrip (c : ascii) (s : string) : occurs c s = false -> occurs c (rstrip s) = false.
Proof.
  induction s as [|a s IH]; cbn [rstrip occurs]; [tauto|]. intros H.
  apply orb_false_iff in H as [Ha H]. specialize (IH H).
  destruct (rstrip s) as [|d r].
  - destruct (char_isspace a); cbn [occurs]; [reflexivity|]. now rewrite Ha.
  - cbn [occurs] in *. now rewrite Ha, IH.
Qed.

Lemma split_on_nonnil (sep : ascii) (s : string) : split_on sep s <> [].
Proof.
  induction s as [|c s IH]; cbn [split_on]; [discriminate|].
  destruct (Ascii.eqb c sep); [discriminate|]. now destruct (split_on sep s).
Qed.

Lemma split_on_pieces (sep : ascii) (s : string) :
  Forall (fun piece => occurs sep piece = false) (split_on sep s).
Proof.
  induction s as [|c s IH]; cbn [split_on]; [now repeat constructor|].
  destruct (Ascii.eqb c sep) eqn:Hc; [now constructor|].
  destruct (split_on sep s) as [|piece more]; [now repeat constructor; cbn; rewrite Hc|].
  apply Forall_cons in IH as [Hp Hm]. constructor; [|exact Hm].
  cbn [occurs]. now rewrite Hc, Hp.
Qed.

(** X19. Every recipient that the scripts keep is a non-empty text without
    surrounding blanks and without the separator. *)
Theorem recipients_clean (text e : string) :
  e ∈ parse_recipients text ->
  e <> EmptyString /\ strip e = e /\ occurs ";" e = false.
Proof.
  unfold parse_recipients. rewrite list_elem_of_omap.
  intros (piece & Hin & Hkeep).
  destruct (nonempty (strip piece)) eqn:Hne; [|discriminate].
  injection Hkeep as <-. split; [now apply nonempty_true|]. split; [apply strip_idem|].
  pose proof (split_on_pieces ";" text) as Hall.
  rewrite Forall_forall in Hall. specialize (Hall piece Hin).
  unfold strip. now apply occurs_rstrip, occurs_lstrip.
Qed.

Lemma recipients_clean_witness :
  "ops@example.com" <> EmptyString
  /\ strip "ops@example.com" = "ops@example.com"
  /\ occurs ";" "ops@example.com" = false.
Proof.
  apply (recipients_clean " dba@example.com ;; ops@example.com " "ops@example.com").
  vm_compute. apply elem_of_cons. right. apply elem_of_cons. now left.
Defined.

Lemma blank_pieces (s : string) :
  Forall (fun piece => all_chars char_isspace piece = true) (split_on ";" s)
  <-> all_chars is_filler s = true.
Proof.
  induction s as [|c s IH]; cbn [split_on all_chars].
  - split; [reflexivity | now repeat constructor].
  - unfold is_filler at 1. destruct (Ascii.eqb c ";") eqn:Hc.
    + rewrite orb_true_r. cbn [andb]. rewrite <- IH. rewrite Forall_cons. cbn. tauto.
    + rewrite orb_false_r. pose proof (split_on_nonnil ";" s) as Hne.
      destruct (split_on ";" s) as [|piece more]; [done|].
      rewrite andb_true_iff, <- IH, !Forall_cons. cbn [all_chars].
      rewrite andb_true_iff. tauto.
Qed.

(** X20. The list of recipients is empty, so that no report is sent,
    exactly when the configured text holds nothing but blanks and
    separators. *)
Theorem recipients_empty (text : string) :
  parse_recipients text = [] <-> all_chars is_filler text = true.
Proof.
  rewrite <- blank_pieces. unfold parse_recipients.
  induction (split_on ";" text) as [|piece more IH]; cbn [omap list_omap].
  - split; [constructor | reflexivity].
  - rewrite Forall_cons, <- IH, <- strip_blank.
    destruct (nonempty (strip piece)) eqn:Hne.
    + apply nonempty_true in Hne. split; [discriminate | tauto].
    + unfold nonempty in Hne. apply negb_false_iff, String.eqb_eq in Hne. tauto.
Qed.

(** X21. When [SMTP_TO] is not set, [agent.py] and [ai_agent.py] fall back
    on the recipients read from [SMTP_USER], while [monitor_errors.py] has
    none and so never sends, whatever the other settings. *)
Theorem recipients_default (smtp_user : option string) :
  agent_SMTP_TO None smtp_user = parse_recipients (default EmptyString smtp_user)
  /\ ai_SMTP_TO None smtp_user = parse_recipients (default EmptyString smtp_user)
  /\ monitor_SMTP_TO None = []
  /\ forall (host user pass : pyval) (port : Z) (starttls : bool),
       Monitor.smtp_configured (mkSmtp host port starttls user pass (monitor_SMTP_TO None))
       = false.
Proof.
  unfold agent_SMTP_TO, ai_SMTP_TO, monitor_SMTP_TO. cbn [default].
  split; [|split; [reflexivity|split; [reflexivity|]]];
    [|intros; unfold Monitor.smtp_configured; cbn; now rewrite andb_false_r].
  destruct smtp_user as [u|]; [|reflexivity]. cbn [default].
  destruct (nonempty u) eqn:Hu; [reflexivity|].
  unfold nonempty in Hu. apply negb_false_iff, String.eqb_eq in Hu. now subst.
Qed.

End RecipientFacts.

(** ** Texts that reach the report of [agent.py] as they are *)

Section Unescaped.
Import Agent Substring.

Local Arguments String.append : simpl nomatch.

Lemma concat_cons (x : string) (xs : list string) :
  String.concat "" (x :: xs) = x +:+ String.concat "" xs.
Proof. destruct xs; cbn [String.concat]; [now rewrite append_nil_r | reflexivity]. Qed.

Lemma contains_concat (x : string) (l : list string) :
  x ∈ l -> contains x (String.concat "" l).
Proof.
  induction l as [|y l IH]; intros Hx; [now apply elem_of_nil in Hx|].
  rewrite concat_cons. apply elem_of_cons in Hx as [-> | Hx].
  - exists EmptyString, (String.concat "" l). reflexivity.
  - destruct (IH Hx) as (pre & post & ->). exists (y +:+ pre), post.
    now rewrite append_assoc.
Qed.

Lemma contains_trans (a b c : string) : contains a b -> contains b c -> contains a c.
Proof.
  intros (p1 & q1 & ->) (p2 & q2 & ->). exists (p2 +:+ p1), (q1 +:+ q2).
  now rewrite !append_assoc.
Qed.

Lemma error_tr_proc (e : ErrorRow) (tr : string) :
  error_tr e = Return tr ->
  contains ("<td>" +:+ Py.str (ProcName e) +:+ "</td>") tr.
Proof.
  unfold error_tr. destruct (classify_and_plan e) as [[sev plan]|]; [|discriminate].
  cbn [bind_outcome]. intros [= <-].
  eexists ("<tr><td>" +:+ str_of_int (ErrorID e) +:+ "</td><td class='mono'>"
           +:+ Py.str (OccurredAt e) +:+ "</td>"), _.
  rewrite !append_assoc. reflexivity.
Qed.

Lemma error_trs_elem (rows : list ErrorRow) :
  forall trs e,
    error_trs rows = Return trs -> e ∈ rows ->
    exists tr, error_tr e = Return tr /\ tr ∈ trs.
Proof.
  induction rows as [|r rows IH]; intros trs e Hrun He; [now apply elem_of_nil in He|].
  cbn [error_trs] in Hrun.
  destruct (error_tr r) as [tr|] eqn:Htr; [|discriminate]. cbn [bind_outcome] in Hrun.
  destruct (error_trs rows) as [trs'|]; [|discriminate]. cbn [bind_outcome] in Hrun.
  injection Hrun as <-.
  apply elem_of_cons in He as [-> | He].
  - exists tr. split; [exact Htr | now left].
  - destruct (IH trs' e eq_refl He) as (tr' & H1 & H2). exists tr'. split; [exact H1 | now right].
Qed.

(** X22. [html_report] escapes nothing: the procedure name of every
    reported row stands in the HTML of the report exactly as the log holds
    it, between the tags of its cell. *)
Theorem agent_report_unescaped (now : string) (rows : list ErrorRow) (issues : list tuple)
    (html : string) (e : ErrorRow) :
  html_report now rows issues = Return (Some html) ->
  e ∈ rows ->
  contains ("<td>" +:+ Py.str (ProcName e) +:+ "</td>") html.
Proof.
  intros Hrep He. unfold html_report in Hrep.
  destruct rows as [|r rows]; [now apply elem_of_nil in He|].
  cbn [is_empty andb] in Hrep.
  destruct (error_trs (r :: rows)) as [trs|] eqn:Htrs; [|discriminate].
  cbn [bind_outcome] in Hrep.
  match type of Hrep with
  | Return (Some ?t) = _ => assert (Heq : html = t) by congruence
  end.
  rewrite Heq. clear Hrep Heq.
  destruct (error_trs_elem _ _ _ Htrs He) as (tr & Htr & Hin).
  apply (contains_trans _ tr); [now apply error_tr_proc|].
  apply contains_concat.
  rewrite !elem_of_app, !elem_of_cons. auto 10.
Qed.

Lemma agent_report_unescaped_witness :
  exists html,
    html_report "2024-05-01 10:05:00Z"
      [mkRow 7 (PyStr "<img src=x>") (PyInt 8134) (PyStr "Divide by zero")
             (PyStr "2024-05-01 10:00:00")] []
    = Return (Some html)
    /\ contains "<td><img src=x></td>" html.
Proof.
  eexists. split; [vm_compute; reflexivity|].
  apply (agent_report_unescaped "2024-05-01 10:05:00Z"
           [mkRow 7 (PyStr "<img src=x>") (PyInt 8134) (PyStr "Divide by zero")
                  (PyStr "2024-05-01 10:00:00")] [] _
           (mkRow 7 (PyStr "<img src=x>") (PyInt 8134) (PyStr "Divide by zero")
                  (PyStr "2024-05-01 10:00:00"))).
  - vm_compute. reflexivity.
  - now left.
Defined.

End Unescaped.

(** ** Failures that are not retried *)

Section Unretried.
Import Main Cli Uncoded.



End Unretried.

(** ** Errors of the server as the driver reports them *)

Section DriverErrors.
Import Main Cli ErrorText Blanking Driver.

Local Arguments String.append : simpl nomatch.

(** The message of the driver opens with the SQLSTATE in brackets: when
    the SQLSTATE is a number, that number is the first token made of digits,
    and it is what the scan returns, whatever the error number that the
    message carries further on. *)
Lemma extract_errnum_sqlstate (z : Z) (driver text : string) (number : Z) :
  0 <= z < 100000 ->
  _extract_errnum (PyodbcError (server_error (str_of_int z) driver text number))
  = Return (Some z).
Proof.
  intros [Hz _].
  unfold _extract_errnum, error_text, server_error, Py.split. cbn [args_of Py.str].
  change ("[" +:+ ?x) with (String "["%char x).
  set (rest := "] [Microsoft][" +:+ _).
  rewrite blank_brackets_cons, blank_brackets_app.
  change (blank_char "[") with " "%char.
  cbn [split_from]. change (char_isspace " ") with true. cbv iota.
  destruct (str_of_int_nonneg (fun c => Ascii.eqb (blank_char c) c) z Hz)
    as (c0 & s0 & E0 & Hfix); try reflexivity.
  destruct (str_of_int_nonneg (fun c => negb (char_isspace c)) z Hz)
    as (c & s & E & Hns); try reflexivity.
  rewrite <- E0 in Hfix. rewrite (blank_brackets_fixed _ Hfix). rewrite E.
  simpl in Hns. apply andb_true_iff in Hns as [Hc Hs]. apply negb_true_iff in Hc.
  simpl. rewrite Hc.
  destruct (split_gathers s Hs (String c EmptyString) rest ltac:(reflexivity)) as [more ->].
  simpl String.append. rewrite <- E. simpl.
  rewrite (isdigit_str_of_int z Hz), int_of_str_of_int. reflexivity.
Qed.

(** C3 (divergence). The driver reports the business errors that the
    procedures raise under the SQLSTATE 42000, the error number coming last
    in the message.  [_extract_errnum] then returns
    42000, not the error number of the server that its docstring announces;
    [is_business_error] is false, and the operation, after the rollback,
    raises the exception instead of answering [False]: whatever the text and
    the error number, so also for 50001, 50002 and 50003. *)
Theorem business_code_behind_sqlstate (req : request) (driver text : string) (number : Z) :
  let args := server_error "42000" driver text number in
  _extract_errnum (PyodbcError args) = Return (Some 42000)
  /\ is_business_error (PyodbcError args) = Return false
  /\ exists w' delta,
       execute req (stubborn_db args) = Some (Raise (PyodbcError args), w')
       /\ trace w' = trace (stubborn_db args) ++ delta
       /\ schedule delta = [Attempt]
       /\ rolled_back delta.
Proof.
  cbn zeta.
  assert (Hex : _extract_errnum (PyodbcError (server_error "42000" driver text number))
                = Return (Some 42000)).
  { apply (extract_errnum_sqlstate 42000). lia. }
  split; [exact Hex|]. split.
  - unfold is_business_error. rewrite Hex. reflexivity.
  - apply (execute_raises req 42000).
    + rewrite elem_of_business. lia.
    + rewrite elem_of_transient. lia.
    + split; [left; reflexivity | exact Hex].
Qed.

(** The transfer of the scenario, rejected for insufficient funds. *)
Example insufficient_funds_is_raised :
  option_map (fun r => (fst r, trace (snd r)))
    (execute (ReqTransfer 1 2 10 (Some "tx-1")) (stubborn_db insufficient_funds))
  = Some (Raise (PyodbcError insufficient_funds),
          [EvCall;
           EvExecute "EXEC dbo.usp_TransferFunds ?, ?, ?, ?"
             [ParamInt 1; ParamInt 2; ParamFloat 10; ParamStr "tx-1"];
           EvRollback;
           EvPrint (LineFailed Transfer (PyodbcError insufficient_funds))]).
Proof. reflexivity. Qed.

(** A deadlock as the driver reports it is not retried either: the scan
    reads 40001. *)
Example deadlock_is_not_retried :
  _extract_errnum (PyodbcError deadlock) = Return (Some 40001)
  /\ option_map (fun r => (fst r, schedule (trace (snd r))))
       (execute (ReqTransfer 1 2 10 (Some "tx-1")) (stubborn_db deadlock))
     = Some (Raise (PyodbcError deadlock), [Attempt]).
Proof. split; reflexivity. Qed.

(** C9 (divergence). Code 2627 is classified like 2601 and belongs to
    neither set of [main.py], while 2601 is a business code.  Yet the driver
    reports both duplicate-key errors under the SQLSTATE 23000, which is
    what [_extract_errnum] returns: an operation that fails with 2601 is
    rolled back and raised to the caller exactly like one that fails with
    2627, instead of answering [False]. *)
Theorem duplicate_keys_raised_alike (req : request) (driver text : string) (number : Z) :
  let args := server_error "23000" driver text number in
  (forall (id : Z) (proc msg when : pyval),
      Agent.classify_and_plan (mkRow id proc (PyInt 2627) msg when)
      = Return ("P2", Agent.duplicate_plan)
      /\ Agent.classify_and_plan (mkRow id proc (PyInt 2627) msg when)
         = Agent.classify_and_plan (mkRow id proc (PyInt 2601) msg when))
  /\ (2627 ∉ TRANSIENT_ERRORS)
  /\ (2627 ∉ BUSINESS_ERRORS)
  /\ (2601 ∈ BUSINESS_ERRORS)
  /\ _extract_errnum (PyodbcError args) = Return (Some 23000)
  /\ exists w' delta,
       execute req (stubborn_db args) = Some (Raise (PyodbcError args), w')
       /\ trace w' = trace (stubborn_db args) ++ delta
       /\ schedule delta = [Attempt]
       /\ rolled_back delta.
Proof.
  cbn zeta.
  assert (Hex : _extract_errnum (PyodbcError (server_error "23000" driver text number))
                = Return (Some 23000)).
  { apply (extract_errnum_sqlstate 23000). lia. }
  split; [intros; split; reflexivity|].
  split; [rewrite elem_of_transient; lia|].
  split; [rewrite elem_of_business; lia|].
  split; [rewrite elem_of_business; lia|].
  split; [exact Hex|].
  apply (execute_raises req 23000).
  - rewrite elem_of_business. lia.
  - rewrite elem_of_transient. lia.
  - split; [left; reflexivity | exact Hex].
Qed.

(** The two duplicate-key errors on a deposit. *)
Example duplicate_index_is_raised :
  option_map (fun r => (fst r, schedule (trace (snd r))))
    (execute (ReqDeposit 1 25 (Some "dep-1")) (stubborn_db duplicate_index))
  = Some (Raise (PyodbcError duplicate_index), [Attempt])
  /\ option_map (fun r => (fst r, schedule (trace (snd r))))
       (execute (ReqDeposit 1 25 (Some "dep-1")) (stubborn_db duplicate_constraint))
     = Some (Raise (PyodbcError duplicate_constraint), [Attempt]).
Proof. split; reflexivity. Qed.

End DriverErrors.
